(** * Simulation orchestration of the yearn SDK: deposits and withdrawals
      simulated against forked chain state.

    The development embeds three generations of the simulation code:
    - [Legacy]: [src/services/simulation.ts] ([SimulationService]);
    - [V1]: the older [SimulationInterface] ([deposit] mutating its options);
    - [V2]: the current [SimulationInterface] ([deposit] split into handlers).

    Every remote interaction (contract reads, zapper API, oracle, the
    simulation backend) is a call to an abstract backend; each call is
    recorded in a trace of events, so that ordering properties can be stated. *)

From Stdlib Require Import ZArith NArith List String Bool Lia.
From Stdlib Require Import Floats DecimalString.
Import ListNotations.

Local Open Scope string_scope.
Local Open Scope Z_scope.
Local Open Scope list_scope.

(** ** Basic data *)

(** [Address], [Integer] and [Usdc] are strings in the source.  Addresses and
    identifiers stay strings; [Integer] and [Usdc] always hold the decimal
    notation of an integer and are modelled by that integer. *)
Definition Address := string.
Definition Integer := Z.
Definition Usdc := Z.

(** A JavaScript [number] is an IEEE-754 double. *)
Definition number := float.

(** JavaScript truthiness of a number: [0], [-0] and [NaN] are falsy. *)
Definition number_falsy (x : number) : bool :=
  (PrimFloat.eqb x 0%float || PrimFloat.is_nan x)%bool.

(** ** bignumber.js, as far as the simulation code uses it

    Values are NaN, signed infinities, or signed decimals [c / 10^dp].
    The library runs with its default configuration: the source never
    calls [BigNumber.config]. *)
Module BN.

Inductive t : Type :=
| NaN
| Inf (neg : bool)
| Fin (neg : bool) (c : N) (dp : nat).

(** Default [DECIMAL_PLACES]: results of divisions keep 20 decimals. *)
Definition DECIMAL_PLACES : nat := 20.

Definition pow10 (n : nat) : N := (10 ^ N.of_nat n)%N.

(** Default [ROUNDING_MODE] is [ROUND_HALF_UP]: to the nearest neighbour,
    ties away from zero.  On magnitudes: [n / d] rounded to an integer. *)
Definition round_half_up (n d : N) : N := ((2 * n + d) / (2 * d))%N.

(** [new BigNumber(z)] for an integer. *)
Definition of_Z (z : Z) : t := Fin (z <? 0) (Z.abs_N z) 0.

Definition multipliedBy (x y : t) : t :=
  match x, y with
  | NaN, _ | _, NaN => NaN
  | Inf s, Inf s' => Inf (xorb s s')
  | Inf s, Fin s' c _ => if (c =? 0)%N then NaN else Inf (xorb s s')
  | Fin s c _, Inf s' => if (c =? 0)%N then NaN else Inf (xorb s s')
  | Fin s c d, Fin s' c' d' => Fin (xorb s s') (c * c') (d + d')
  end.

Definition div (x y : t) : t :=
  match x, y with
  | NaN, _ | _, NaN => NaN
  | Inf _, Inf _ => NaN
  | Inf s, Fin s' _ _ => Inf (xorb s s')
  | Fin s _ _, Inf s' => Fin (xorb s s') 0 0
  | Fin s c d, Fin s' c' d' =>
      if (c' =? 0)%N then
        if (c =? 0)%N then NaN else Inf (xorb s s')
      else
        Fin (xorb s s')
            (round_half_up (c * pow10 (DECIMAL_PLACES + d')) (c' * pow10 d))
            DECIMAL_PLACES
  end.

(** [x.pow(n)] for a non-negative integer exponent is exact. *)
Fixpoint pow (x : t) (n : nat) : t :=
  match n with
  | O => Fin false 1 0
  | S n' => multipliedBy x (pow x n')
  end.

Definition signed (neg : bool) (m : N) : Z :=
  if neg then - Z.of_N m else Z.of_N m.

(** [x.toFixed(0)]: rounded to an integer with [ROUNDING_MODE].  On NaN and
    the infinities the library prints a word, not an integer, and the model
    returns 0 there; [underlying_amount_half_up] below covers the finite
    values the simulation code prints. *)
Definition toFixed0 (x : t) : Z :=
  match x with
  | Fin s c d => signed s (round_half_up c (pow10 d))
  | _ => 0
  end.

Definition is_finite (x : t) : bool :=
  match x with Fin _ _ _ => true | _ => false end.

(** [x.plus(y)]: exact.  A sum that cancels is [+0]; the sum of two zeros
    is [-0] when both are. *)
Definition plus (x y : t) : t :=
  match x, y with
  | NaN, _ | _, NaN => NaN
  | Inf s, Inf s' => if Bool.eqb s s' then Inf s else NaN
  | Inf s, Fin _ _ _ => Inf s
  | Fin _ _ _, Inf s' => Inf s'
  | Fin s c d, Fin s' c' d' =>
      let z := signed s (c * pow10 d') + signed s' (c' * pow10 d) in
      Fin (if z =? 0 then s && s' else z <? 0) (Z.abs_N z) (d + d')
  end.

(** [x.lt(y)] on finite values (false as soon as one side is NaN). *)
Definition lt (x y : t) : bool :=
  match x, y with
  | NaN, _ | _, NaN => false
  | Inf s, Inf s' => s && negb s'
  | Inf s, Fin _ _ _ => s
  | Fin _ _ _, Inf s' => negb s'
  | Fin s c d, Fin s' c' d' =>
      signed s (c * pow10 d') <? signed s' (c' * pow10 d)
  end.

(** [x.toNumber()]: the double nearest to the decimal (ties to even).
    The quotient is taken with 1200 extra binary digits and a sticky
    bit, then rounded once by [binary_normalize]. *)
Definition nearest_double (neg : bool) (n d : N) : float :=
  if (n =? 0)%N then (if neg then neg_zero else zero)
  else
    let k := (1200 + N.log2 d)%N in
    let num := N.shiftl n k in
    let q := (num / d)%N in
    let sticky := if (num mod d =? 0)%N then 0%N else 1%N in
    let m := (2 * q + sticky)%N in
    SF2Prim (binary_normalize prec emax (signed neg m)
                              (- Z.of_N (k + 1)) neg).

Definition toNumber (x : t) : number :=
  match x with
  | NaN => nan
  | Inf s => if s then neg_infinity else infinity
  | Fin s c d => nearest_double s c (pow10 d)
  end.

End BN.

(** [toBN] of [src/utils]: [new BigNumber(amount || 0)]. *)
Definition toBN (z : Z) : BN.t := BN.of_Z z.

(** ** Data exchanged with the collaborators *)

Inductive ZapProtocol : Type := YEARN | PICKLE.

(** [SimulationOptions] of [types/custom/simulation], with the [save] flag
    the engine assigns to it. *)
Module Opt.
Record t : Type := mk {
  slippage : option number;
  root : option string;
  forkId : option string;
  gasPrice : option Integer;
  gasLimit : option Integer;
  save : option bool
}.

Definition empty : t := mk None None None None None None.

Definition set_forkId (v : option string) (o : t) : t :=
  mk (slippage o) (root o) v (gasPrice o) (gasLimit o) (save o).
Definition set_root (v : option string) (o : t) : t :=
  mk (slippage o) v (forkId o) (gasPrice o) (gasLimit o) (save o).
Definition set_save (v : option bool) (o : t) : t :=
  mk (slippage o) (root o) (forkId o) (gasPrice o) (gasLimit o) v.
Definition set_gasPrice (v : option Integer) (o : t) : t :=
  mk (slippage o) (root o) (forkId o) v (gasLimit o) (save o).
Definition set_gasLimit (v : option Integer) (o : t) : t :=
  mk (slippage o) (root o) (forkId o) (gasPrice o) v (save o).
Definition set_slippage (v : option number) (o : t) : t :=
  mk v (root o) (forkId o) (gasPrice o) (gasLimit o) (save o).

(** [!options.slippage] *)
Definition slippage_missing (o : t) : bool :=
  match slippage o with
  | None => true
  | Some x => number_falsy x
  end.
End Opt.

Record TransactionOutcome : Type := mkOutcome {
  sourceTokenAddress : Address;
  sourceTokenAmount : Integer;
  targetTokenAddress : Address;
  targetTokenAmount : Integer;
  targetTokenAmountUsdc : Usdc;
  targetUnderlyingTokenAddress : Address;
  targetUnderlyingTokenAmount : Integer;
  conversionRate : number;
  slippage : number
}.

(** Call data.  ABI encoding is left symbolic; quotes and partner services
    deliver opaque payloads. *)
Inductive CallData : Type :=
| EncodeDeposit (amount : Integer)
| EncodeWithdraw (amount : Integer)
| EncodeApprove (spender : Address) (amount : Integer)
| RawData (payload : string).

(** The spender handed to [encodeFunctionData("approve", ...)]: an address,
    or a promise of one that was never awaited. *)
Inductive ApproveSpender : Type :=
| SpenderAddress (a : Address)
| SpenderPromise (pending : Address).

Inductive ErrorCode : Type :=
| NO_SLIPPAGE
| ZAP_IN | ZAP_OUT
| ZAP_IN_APPROVAL_STATE | ZAP_IN_APPROVAL
| ZAP_OUT_APPROVAL_STATE | ZAP_OUT_APPROVAL
| FAIL_TOKEN_FETCH | NO_DECIMALS | NO_PRICE_PER_SHARE
| FETCHING_PRICE_ORACLE | FETCHING_PRICE_PICKLE.

Inductive Error : Type :=
| SdkError (msg : string) (code : option ErrorCode)
| ZapperError (msg : string) (code : option ErrorCode)
| EthersError (msg : string) (code : option ErrorCode)
| PriceFetchingError (msg : string) (code : option ErrorCode)
| TypeError (msg : string)
| Rejected (reason : string).

Inductive Result (A : Type) : Type :=
| Ok (a : A)
| Err (e : Error).
Arguments Ok {A} a.
Arguments Err {A} e.

Definition is_ok {A} (r : Result A) : bool :=
  match r with Ok _ => true | Err _ => false end.

Record ZapApprovalStateOutput : Type := { isApproved : bool }.

Record ZapApprovalTransactionOutput : Type := {
  zat_from : Address;
  zat_to : Address;
  zat_data : CallData
}.

(** The quote returned by [zapper.zapIn] and [zapper.zapOut]. *)
Record ZapOutput : Type := {
  zo_from : Address;
  zo_to : Address;
  zo_data : CallData;
  zo_value : Integer;
  zo_gas : Integer;
  zo_gasPrice : Integer;
  zo_buyTokenAddress : Address
}.

Record SimulationResponse : Type := {
  simulation_id : string;
  call_trace_output : Integer;
  call_trace_calls : list Integer
}.

(** A token: its address and the [supported] object (keys may be present
    with a false value). *)
Record Token : Type := {
  token_address : Address;
  token_supported : option (list (string * bool))
}.

(** [VaultMetadataOverrides], restricted to the field the engine reads. *)
Record VaultMetadataOverrides : Type := { zapInWith : option string }.

Record VaultDynamic : Type := { vault_metadata : option VaultMetadataOverrides }.

(** Body of a request of the legacy service to [/simulate]. *)
Record SimulateBody : Type := {
  body_from : Address;
  body_to : Address;
  body_input : CallData;
  body_gas : Z;
  body_gas_price : Integer;
  body_value : Integer;
  body_save : bool
}.

(** ** Events: every request that leaves the engine *)

Inductive Event : Type :=
| EvVaultToken (vault : Address)
| EvVaultDecimals (vault : Address)
| EvVaultPricePerShare (vault : Address)
| EvGetDynamic (vault : Address)
| EvFindByAddress (token : Address)
| EvAllowance (token owner spender : Address)
| EvZapInApprovalState (from token : Address) (p : ZapProtocol)
| EvZapInApprovalTransaction (from token : Address) (gasPrice : Integer)
                             (p : ZapProtocol)
| EvZapOutApprovalState (from vault : Address)
| EvZapOutApprovalTransaction (from vault : Address) (gasPrice : Integer)
| EvZapIn (from token : Address) (amount : Integer) (vault : Address)
          (gasPrice : Integer) (slippage : number)
          (skipGasEstimate : option bool) (p : option ZapProtocol)
| EvZapOut (from token : Address) (amount : Integer) (vault : Address)
           (gasPrice : Integer) (slippage : number)
           (skipGasEstimate : option bool)
| EvCreateFork
| EvMakeSimulationRequest (from to : Address) (data : CallData)
                          (options : Opt.t) (value : option Integer)
| EvSimulateVaultInteraction (from to : Address) (data : CallData)
                             (token : Address) (options : Opt.t)
                             (value : option Integer)
| EvGetNormalizedValueUsdc (token : Address) (amount : Integer)
| EvPickleGetPriceUsdc (vault : Address)
| EvLegacySimulate (body : SimulateBody).

Definition Trace := list Event.

(** ** The collaborators

    A backend answers every request from its own state [W]; an answer is a
    value or a rejection. *)
Record Backend (W : Type) : Type := {
  vault_token : Address -> W -> Result Address * W;
  vault_decimals : Address -> W -> Result nat * W;
  vault_pricePerShare : Address -> W -> Result Integer * W;
  vaults_getDynamic : Address -> W -> Result (option VaultDynamic) * W;
  tokens_findByAddress : Address -> W -> Result (option Token) * W;
  contract_allowance : Address -> Address -> Address -> W -> Result Integer * W;
  zapper_zapInApprovalState :
    Address -> Address -> ZapProtocol -> W -> Result ZapApprovalStateOutput * W;
  zapper_zapInApprovalTransaction :
    Address -> Address -> Integer -> ZapProtocol -> W ->
    Result ZapApprovalTransactionOutput * W;
  zapper_zapOutApprovalState :
    Address -> Address -> W -> Result ZapApprovalStateOutput * W;
  zapper_zapOutApprovalTransaction :
    Address -> Address -> Integer -> W -> Result ZapApprovalTransactionOutput * W;
  zapper_zapIn :
    Address -> Address -> Integer -> Address -> Integer -> number ->
    option bool -> option ZapProtocol -> W -> Result ZapOutput * W;
  zapper_zapOut :
    Address -> Address -> Integer -> Address -> Integer -> number ->
    option bool -> W -> Result ZapOutput * W;
  executor_createFork : W -> Result string * W;
  executor_makeSimulationRequest :
    Address -> Address -> CallData -> Opt.t -> option Integer -> W ->
    Result SimulationResponse * W;
  executor_simulateVaultInteraction :
    Address -> Address -> CallData -> Address -> Opt.t -> option Integer -> W ->
    Result Integer * W;
  oracle_getNormalizedValueUsdc : Address -> Integer -> W -> Result Usdc * W;
  pickle_getPriceUsdc : Address -> W -> Result Usdc * W;
  legacy_makeRequest : SimulateBody -> W -> Result SimulationResponse * W
}.

Arguments vault_token {W}.
Arguments vault_decimals {W}.
Arguments vault_pricePerShare {W}.
Arguments vaults_getDynamic {W}.
Arguments tokens_findByAddress {W}.
Arguments contract_allowance {W}.
Arguments zapper_zapInApprovalState {W}.
Arguments zapper_zapInApprovalTransaction {W}.
Arguments zapper_zapOutApprovalState {W}.
Arguments zapper_zapOutApprovalTransaction {W}.
Arguments zapper_zapIn {W}.
Arguments zapper_zapOut {W}.
Arguments executor_createFork {W}.
Arguments executor_makeSimulationRequest {W}.
Arguments executor_simulateVaultInteraction {W}.
Arguments oracle_getNormalizedValueUsdc {W}.
Arguments pickle_getPriceUsdc {W}.
Arguments legacy_makeRequest {W}.

(** The optional partner service. *)
Record Partner : Type := {
  partner_isAllowed : Address -> bool;
  partner_encodeDeposit : Address -> Integer -> option CallData;
  partner_address : option Address
}.

(** Constants and pure helpers imported from modules outside the sources
    ([helpers], [chain], ethers' [getAddress] and ABI coder, the zapper
    service's protocol table, the vault interface's underlying-token test). *)
Record Config : Type := {
  EthAddress : Address;
  ZeroAddress : Address;
  WethAddress : Address;
  chainId : Z;
  isEthereum : Z -> bool;
  isFantom : Z -> bool;
  getAddress : Address -> Address;
  getZapProtocol : Address -> ZapProtocol;
  isUnderlyingToken : Address -> Address -> bool;
  encodeApprove : ApproveSpender -> Integer -> Result CallData;
  partner : option Partner
}.

(** ** The effect monad: state, failure and the trace of requests *)

(** The state holds the backend's state and the options object the caller
    passed in, which [withdraw] and the older [deposit] update in place. *)
Record State (W : Type) : Type := mkState {
  world : W;
  callerOptions : Opt.t
}.
Arguments mkState {W}.
Arguments world {W}.
Arguments callerOptions {W}.

Definition M (W A : Type) : Type := State W -> Result A * State W * Trace.

Definition ret {W A} (a : A) : M W A := fun s => (Ok a, s, []).

Definition bind {W A B} (m : M W A) (k : A -> M W B) : M W B :=
  fun s =>
    match m s with
    | (Ok a, s1, t1) =>
        match k a s1 with
        | (r, s2, t2) => (r, s2, t1 ++ t2)
        end
    | (Err e, s1, t1) => (Err e, s1, t1)
    end.

Definition throw {W A} (e : Error) : M W A := fun s => (Err e, s, []).

(** [m.catch(h)] / [try { m } catch (e) { h e }] *)
Definition catch {W A} (m : M W A) (h : Error -> M W A) : M W A :=
  fun s =>
    match m s with
    | (Ok a, s1, t1) => (Ok a, s1, t1)
    | (Err e, s1, t1) =>
        match h e s1 with
        | (r, s2, t2) => (r, s2, t1 ++ t2)
        end
    end.

(** [m.catch(() => { throw e })] *)
Definition orThrow {W A} (m : M W A) (e : Error) : M W A :=
  catch m (fun _ => throw e).

Notation "x <- m ;; k" := (bind m (fun x => k))
  (at level 61, m at next level, right associativity).
Notation "m ;;; k" := (bind m (fun _ => k))
  (at level 61, right associativity).

(** A request: recorded in the trace, answered by the backend. *)
Definition request {W A} (ev : Event) (h : W -> Result A * W) : M W A :=
  fun s =>
    match h (world s) with
    | (r, w) => (r, mkState w (callerOptions s), [ev])
    end.

Definition getOptions {W} : M W Opt.t := fun s => (Ok (callerOptions s), s, []).

Definition modifyOptions {W} (f : Opt.t -> Opt.t) : M W unit :=
  fun s => (Ok tt, mkState (world s) (f (callerOptions s)), []).

(** [Promise.all([a, b])]: both requests are issued before either is
    awaited; the first rejection in array order is reported. *)
Definition Promise_all2 {W A B} (a : M W A) (b : M W B) : M W (A * B) :=
  fun s =>
    match a s with
    | (ra, s1, t1) =>
        match b s1 with
        | (rb, s2, t2) =>
            (match ra, rb with
             | Ok x, Ok y => Ok (x, y)
             | Err e, _ => Err e
             | Ok _, Err e => Err e
             end, s2, t1 ++ t2)
        end
    end.

Definition Promise_all3 {W A B C} (a : M W A) (b : M W B) (c : M W C)
  : M W (A * B * C) :=
  fun s =>
    match Promise_all2 a b s with
    | (rab, s1, t1) =>
        match c s1 with
        | (rc, s2, t2) =>
            (match rab, rc with
             | Ok xy, Ok z => Ok (xy, z)
             | Err e, _ => Err e
             | Ok _, Err e => Err e
             end, s2, t1 ++ t2)
        end
    end.

Definition result_of {W A} (x : Result A * State W * Trace) : Result A :=
  fst (fst x).
Definition state_of {W A} (x : Result A * State W * Trace) : State W :=
  snd (fst x).
Definition trace_of {W A} (x : Result A * State W * Trace) : Trace := snd x.

(** ** Requests to the collaborators *)

Section Collaborators.
Context {W : Type} (B : Backend W).

Definition vaultContract_token (vault : Address) : M W Address :=
  request (EvVaultToken vault) (vault_token B vault).

Definition vaultContract_decimals (vault : Address) : M W nat :=
  request (EvVaultDecimals vault) (vault_decimals B vault).

Definition vaultContract_pricePerShare (vault : Address) : M W Integer :=
  request (EvVaultPricePerShare vault) (vault_pricePerShare B vault).

Definition getDynamic (vault : Address) : M W (option VaultDynamic) :=
  request (EvGetDynamic vault) (vaults_getDynamic B vault).

Definition findByAddress (token : Address) : M W (option Token) :=
  request (EvFindByAddress token) (tokens_findByAddress B token).

Definition allowance (token owner spender : Address) : M W Integer :=
  request (EvAllowance token owner spender)
          (contract_allowance B token owner spender).

Definition zapInApprovalState (from token : Address) (p : ZapProtocol)
  : M W ZapApprovalStateOutput :=
  request (EvZapInApprovalState from token p)
          (zapper_zapInApprovalState B from token p).

Definition zapInApprovalTransaction (from token : Address)
           (gasPrice : Integer) (p : ZapProtocol)
  : M W ZapApprovalTransactionOutput :=
  request (EvZapInApprovalTransaction from token gasPrice p)
          (zapper_zapInApprovalTransaction B from token gasPrice p).

Definition zapOutApprovalState (from vault : Address)
  : M W ZapApprovalStateOutput :=
  request (EvZapOutApprovalState from vault)
          (zapper_zapOutApprovalState B from vault).

Definition zapOutApprovalTransaction (from vault : Address)
           (gasPrice : Integer) : M W ZapApprovalTransactionOutput :=
  request (EvZapOutApprovalTransaction from vault gasPrice)
          (zapper_zapOutApprovalTransaction B from vault gasPrice).

Definition zapper_zapIn_request (from token : Address) (amount : Integer)
           (vault : Address) (gasPrice : Integer) (slip : number)
           (skipGasEstimate : option bool) (p : option ZapProtocol)
  : M W ZapOutput :=
  request (EvZapIn from token amount vault gasPrice slip skipGasEstimate p)
          (zapper_zapIn B from token amount vault gasPrice slip
                        skipGasEstimate p).

Definition zapper_zapOut_request (from token : Address) (amount : Integer)
           (vault : Address) (gasPrice : Integer) (slip : number)
           (skipGasEstimate : option bool) : M W ZapOutput :=
  request (EvZapOut from token amount vault gasPrice slip skipGasEstimate)
          (zapper_zapOut B from token amount vault gasPrice slip
                         skipGasEstimate).

Definition getNormalizedValueUsdc (token : Address) (amount : Integer)
  : M W Usdc :=
  request (EvGetNormalizedValueUsdc token amount)
          (oracle_getNormalizedValueUsdc B token amount).

Definition getPriceUsdc (vault : Address) : M W Usdc :=
  request (EvPickleGetPriceUsdc vault) (pickle_getPriceUsdc B vault).

(** *** The simulation executor ([src/simulationExecutor], outside the
    sources): its three requests to the simulation backend. *)

Definition createFork : M W string :=
  request EvCreateFork (executor_createFork B).

Definition makeSimulationRequest (from to : Address) (data : CallData)
           (options : Opt.t) (value : option Integer)
  : M W SimulationResponse :=
  request (EvMakeSimulationRequest from to data options value)
          (executor_makeSimulationRequest B from to data options value).

Definition simulateVaultInteraction (from to : Address) (data : CallData)
           (token : Address) (options : Opt.t) (value : option Integer)
  : M W Integer :=
  request (EvSimulateVaultInteraction from to data token options value)
          (executor_simulateVaultInteraction B from to data token options
                                             value).

(** Modelled from the spec: the resilience wrapper
    [SimulationExecutor.executeSimulationWithReSimulationOnFailure], whose
    file is not among the sources.  Section 4.3 of the specification:
    the first attempt invokes [produce(save=false)]; if it fails for any
    reason, exactly one brand-new sandbox is allocated and
    [produce(save=false)] is invoked again; a failure of the second
    attempt is propagated.  The producer takes the [save] flag only (the
    contract of the specification and every call site), so the sandbox it
    runs in is the one its closure carries; [forkId] is the sandbox the
    first attempt reuses. *)
Definition executeSimulationWithReSimulationOnFailure {A : Type}
           (simulate : bool -> M W A) (forkId : option string) : M W A :=
  catch (simulate false)
        (fun _ => createFork ;;; simulate false).

Definition legacy_simulate (body : SimulateBody) : M W SimulationResponse :=
  request (EvLegacySimulate body) (legacy_makeRequest B body).

End Collaborators.

Definition dquote : string := String (Ascii.ascii_of_nat 34) EmptyString.

(** Template-literal rendering of an integer. *)
Definition show_Z (z : Z) : string := NilZero.string_of_int (Z.to_int z).

Definition error_message (e : Error) : string :=
  match e with
  | SdkError m _ | ZapperError m _ | EthersError m _ | PriceFetchingError m _
  | TypeError m | Rejected m => m
  end.

(** ** [src/zap.ts] *)

Record ZapInDetails : Type := {
  isZapInSupported : bool;
  zapInWith_detail : option string
}.

Fixpoint lookup_supported (zap : string) (zaps : list (string * bool))
  : option bool :=
  match zaps with
  | [] => None
  | (k, v) :: rest => if String.eqb k zap then Some v else lookup_supported zap rest
  end.

(** [zap in zaps] *)
Definition isValidZap (zap : string) (zaps : list (string * bool)) : bool :=
  match lookup_supported zap zaps with Some _ => true | None => false end.

(** [!!token.supported[zap]] *)
Definition supports (zap : string) (zaps : list (string * bool)) : bool :=
  match lookup_supported zap zaps with Some b => b | None => false end.

Definition nonempty (s : string) : bool := negb (String.eqb s EmptyString).

Definition getZapInDetails (cfg : Config) (token : option Token)
           (vaultMetadata : option VaultMetadataOverrides) : ZapInDetails :=
  match token, vaultMetadata with
  | Some tk, Some md =>
      match token_supported tk with
      | None => Build_ZapInDetails false None
      | Some zaps =>
          let eth_branch :=
            if isEthereum cfg (chainId cfg) then
              match zapInWith md with
              | Some z =>
                  if nonempty z && isValidZap z zaps
                  then Some (Build_ZapInDetails (supports z zaps) (Some z))
                  else None
              | None => None
              end
            else None in
          match eth_branch with
          | Some d => d
          | None =>
              if isFantom cfg (chainId cfg)
              then Build_ZapInDetails (supports "ftmApeZap" zaps)
                                      (Some "ftmApeZap")
              else Build_ZapInDetails false None
          end
      end
  | _, _ => Build_ZapInDetails false None
  end.

(** ** The current [SimulationInterface] *)

Module V2.

Record DepositArgs : Type := {
  from : Address;
  sellToken : Address;
  amount : Integer;
  toVault : Address;
  options : Opt.t
}.

Record UnderlyingToken : Type := {
  address : Address;
  decimals : nat;
  pricePerShare : Integer
}.

Record ApprovalData : Type := {
  approvalTransactionId : option string;
  forkId : option string
}.

Record ZapApprovalData : Type := {
  needsApproving : bool;
  approval : ApprovalData
}.

Definition with_options (d : DepositArgs) (o : Opt.t) : DepositArgs :=
  Build_DepositArgs (from d) (sellToken d) (amount d) (toVault d) o.

(** [{ ...options, forkId, save, root }] *)
Definition spread_options (o : Opt.t) (fork : option string) (sv : bool)
           (rt : option string) : Opt.t :=
  Opt.set_root rt (Opt.set_save (Some sv) (Opt.set_forkId fork o)).

Section Interface.
Context {W : Type} (B : Backend W) (cfg : Config).

Definition shouldUsePartnerService (vault : Address) : bool :=
  match partner cfg with
  | Some p => partner_isAllowed p vault
  | None => false
  end.

Definition getEncodedInputData (vaultContract : Address) (amt : Integer)
           (vault : Address) : option CallData :=
  if negb (shouldUsePartnerService vault) then Some (EncodeDeposit amt)
  else
    match partner cfg with
    | Some p => partner_encodeDeposit p vault amt
    | None => None
    end.

(** [partnerAddress || toVault] *)
Definition getActionableAddress (vault : Address) : Address :=
  if negb (shouldUsePartnerService vault) then vault
  else
    match partner cfg with
    | Some p =>
        match partner_address p with
        | Some a => if nonempty a then a else vault
        | None => vault
        end
    | None => vault
    end.

Definition getUnderlyingToken (vaultContract : Address)
  : M W UnderlyingToken :=
  r <- Promise_all3
         (orThrow (vaultContract_token B vaultContract)
                  (EthersError "failed to fetch token" (Some FAIL_TOKEN_FETCH)))
         (orThrow (vaultContract_decimals B vaultContract)
                  (EthersError "no decimals" (Some NO_DECIMALS)))
         (orThrow (vaultContract_pricePerShare B vaultContract)
                  (EthersError "no price per share" (Some NO_PRICE_PER_SHARE))) ;;
  match r with
  | (a, d, p) => ret (Build_UnderlyingToken a d p)
  end.

Definition directDeposit (depositArgs : DepositArgs)
           (vaultContract : Address) : M W TransactionOutcome :=
  match getEncodedInputData vaultContract (amount depositArgs)
                            (toVault depositArgs) with
  | None => throw (SdkError "directDeposit#encodeDeposit failed" None)
  | Some encodedInputData =>
      let addressToDeposit := getActionableAddress (toVault depositArgs) in
      tokensReceived <-
        simulateVaultInteraction B (from depositArgs) addressToDeposit
          encodedInputData (toVault depositArgs) (options depositArgs)
          None ;;
      targetTokenAmountUsdc <-
        orThrow (getNormalizedValueUsdc B (toVault depositArgs) tokensReceived)
                (PriceFetchingError "Error fetching price"
                                    (Some FETCHING_PRICE_ORACLE)) ;;
      dp <- Promise_all2
              (orThrow (vaultContract_decimals B vaultContract)
                       (EthersError "no decimals" (Some NO_DECIMALS)))
              (orThrow (vaultContract_pricePerShare B vaultContract)
                       (EthersError "no price per share"
                                    (Some NO_PRICE_PER_SHARE))) ;;
      let targetUnderlyingTokensReceived :=
        BN.toFixed0
          (BN.multipliedBy
             (BN.div (toBN tokensReceived) (BN.pow (toBN 10) (fst dp)))
             (toBN (snd dp))) in
      ret (mkOutcome (sellToken depositArgs) (amount depositArgs)
                     (toVault depositArgs) tokensReceived
                     targetTokenAmountUsdc
                     (toVault depositArgs) targetUnderlyingTokensReceived
                     1%float 0%float)
  end.

Definition depositNeedsApproving (depositArgs : DepositArgs) : M W bool :=
  let addressToCheck := getActionableAddress (toVault depositArgs) in
  catch
    (a <- allowance B (sellToken depositArgs) (from depositArgs)
                    addressToCheck ;;
     ret (BN.lt (toBN a) (toBN (amount depositArgs))))
    (fun error =>
       throw (SdkError ("Failed to get allowance from the contract: "
                          ++ error_message error) None)).

(** The options object of [withdraw] is the caller's: every update goes
    to [callerOptions]. *)
Definition directWithdraw (frm toToken : Address) (amt : Integer)
           (fromVault : Address) : M W TransactionOutcome :=
  let encodedInputData := EncodeWithdraw amt in
  opts <- getOptions ;;
  tokensReceived <-
    simulateVaultInteraction B frm fromVault encodedInputData toToken
                             opts None ;;
  targetTokenAmountUsdc <-
    orThrow (getNormalizedValueUsdc B toToken tokensReceived)
            (PriceFetchingError "error fetching price"
                                (Some FETCHING_PRICE_ORACLE)) ;;
  ret (mkOutcome fromVault amt toToken tokensReceived
                 targetTokenAmountUsdc toToken tokensReceived
                 1%float 0%float).

(** [options] is a fresh copy made by the caller of [zapIn]; its updates
    stay local. *)
Definition zapIn (depositArgs : DepositArgs)
           (underlyingToken : UnderlyingToken) (skipGasEstimate : bool)
  : M W TransactionOutcome :=
  let sell := sellToken depositArgs in
  let opts := options depositArgs in
  let zapToken :=
    if String.eqb sell (EthAddress cfg) then ZeroAddress cfg else sell in
  match Opt.slippage opts with
  | None => throw (SdkError "slippage needs to be set" (Some NO_SLIPPAGE))
  | Some slip =>
    if number_falsy slip
    then throw (SdkError "slippage needs to be set" (Some NO_SLIPPAGE))
    else
      let zapProtocol := getZapProtocol cfg (toVault depositArgs) in
      zapInParams <-
        orThrow
          (zapper_zapIn_request B (from depositArgs) zapToken
             (amount depositArgs) (toVault depositArgs)
             (match Opt.gasPrice opts with Some g => g | None => 0 end)
             slip (Some skipGasEstimate) (Some zapProtocol))
          (ZapperError "zap in" (Some ZAP_IN)) ;;
      let value := BN.toFixed0 (toBN (zo_value zapInParams)) in
      let opts1 :=
        Opt.set_gasPrice
          (match Opt.gasPrice opts with
           | Some g => Some g
           | None => Some (zo_gasPrice zapInParams)
           end) opts in
      let opts2 :=
        if negb skipGasEstimate
        then Opt.set_gasLimit (Some (zo_gas zapInParams)) opts1
        else opts1 in
      tokensReceived <-
        simulateVaultInteraction B (from depositArgs) (zo_to zapInParams)
          (zo_data zapInParams) (toVault depositArgs) opts2 (Some value) ;;
      let targetUnderlyingTokensReceived :=
        BN.toFixed0
          (BN.multipliedBy
             (BN.div (toBN tokensReceived)
                     (BN.pow (toBN 10) (decimals underlyingToken)))
             (toBN (pricePerShare underlyingToken))) in
      amountReceivedUsdc <-
        match zapProtocol with
        | YEARN =>
            orThrow
              (price <- getNormalizedValueUsdc B (toVault depositArgs)
                                               tokensReceived ;;
               ret (toBN price))
              (PriceFetchingError "error fetching price"
                                  (Some FETCHING_PRICE_ORACLE))
        | PICKLE =>
            usdc <- orThrow (getPriceUsdc B (toVault depositArgs))
                      (PriceFetchingError "error fetching price"
                                          (Some FETCHING_PRICE_PICKLE)) ;;
            ret (BN.multipliedBy
                   (BN.div (toBN usdc)
                           (BN.pow (toBN 10) (decimals underlyingToken)))
                   (toBN tokensReceived))
        end ;;
      let oracleToken :=
        if String.eqb sell (EthAddress cfg) then WethAddress cfg else sell in
      zapInAmountUsdc <-
        orThrow (getNormalizedValueUsdc B oracleToken (amount depositArgs))
                (PriceFetchingError "error fetching price"
                                    (Some FETCHING_PRICE_ORACLE)) ;;
      let rate :=
        BN.toNumber (BN.div amountReceivedUsdc (toBN zapInAmountUsdc)) in
      ret (mkOutcome sell (amount depositArgs)
                     (zo_buyTokenAddress zapInParams) tokensReceived
                     (BN.toFixed0 amountReceivedUsdc)
                     (address underlyingToken)
                     targetUnderlyingTokensReceived
                     rate (1 - rate)%float)
  end.

Definition zapOut (frm toToken underlyingTokenAddress : Address)
           (amt : Integer) (fromVault : Address) (skipGasEstimate : bool)
  : M W TransactionOutcome :=
  opts <- getOptions ;;
  match Opt.slippage opts with
  | None => throw (SdkError "slippage needs to be set" (Some NO_SLIPPAGE))
  | Some slip =>
    if number_falsy slip
    then throw (SdkError "slippage needs to be set" (Some NO_SLIPPAGE))
    else
      let zapToken :=
        if String.eqb toToken (EthAddress cfg) then ZeroAddress cfg
        else toToken in
      zapOutParams <-
        orThrow (zapper_zapOut_request B frm zapToken amt fromVault 0 slip
                                       (Some skipGasEstimate))
                (ZapperError "error zapping out" (Some ZAP_OUT)) ;;
      (if negb skipGasEstimate
       then modifyOptions (Opt.set_gasLimit (Some (zo_gas zapOutParams)))
       else ret tt) ;;;
      opts' <- getOptions ;;
      tokensReceived <-
        (if String.eqb zapToken (ZeroAddress cfg)
         then
           response <-
             makeSimulationRequest B frm (zo_to zapOutParams)
               (zo_data zapOutParams) opts'
               (Some (zo_value zapOutParams)) ;;
           ret (BN.toFixed0 (toBN (call_trace_output response)))
         else
           simulateVaultInteraction B frm (zo_to zapOutParams)
             (zo_data zapOutParams) toToken opts'
             (Some (zo_value zapOutParams))) ;;
      let oracleToken :=
        if String.eqb toToken (EthAddress cfg) then WethAddress cfg
        else toToken in
      zapOutAmountUsdc <-
        orThrow (getNormalizedValueUsdc B oracleToken tokensReceived)
                (PriceFetchingError "error fetching price"
                                    (Some FETCHING_PRICE_ORACLE)) ;;
      soldAssetAmountUsdc <-
        orThrow (getNormalizedValueUsdc B fromVault amt)
                (PriceFetchingError "error fetching price"
                                    (Some FETCHING_PRICE_ORACLE)) ;;
      let rate :=
        BN.toNumber (BN.div (toBN zapOutAmountUsdc)
                            (toBN soldAssetAmountUsdc)) in
      ret (mkOutcome fromVault amt toToken tokensReceived zapOutAmountUsdc
                     underlyingTokenAddress tokensReceived
                     rate (1 - rate)%float)
  end.

Definition unsupported_chain : Error :=
  SdkError ("Zapper unsupported for chainId: " ++ show_Z (chainId cfg)) None.

Definition getZapperZapInApprovalData (depositArgs : DepositArgs)
  : M W ZapApprovalData :=
  if negb (isEthereum cfg (chainId cfg)) then throw unsupported_chain
  else if String.eqb (sellToken depositArgs) (EthAddress cfg)
  then ret (Build_ZapApprovalData false (Build_ApprovalData None None))
  else
    let zapProtocol := getZapProtocol cfg (toVault depositArgs) in
    isApprovalNeeded <-
      orThrow
        (state <- zapInApprovalState B (from depositArgs)
                    (sellToken depositArgs) zapProtocol ;;
         ret (negb (isApproved state)))
        (ZapperError "approval state" (Some ZAP_IN_APPROVAL_STATE)) ;;
    if negb isApprovalNeeded
    then ret (Build_ZapApprovalData false (Build_ApprovalData None None))
    else
      fork <- createFork B ;;
      tx <- orThrow
              (zapInApprovalTransaction B (from depositArgs)
                 (sellToken depositArgs) 0 zapProtocol)
              (ZapperError "approval" (Some ZAP_IN_APPROVAL)) ;;
      res <- makeSimulationRequest B (zat_from tx) (zat_to tx)
               (zat_data tx)
               (Opt.set_save (Some true) (options depositArgs)) None ;;
      ret (Build_ZapApprovalData true
             (Build_ApprovalData (Some (simulation_id res)) (Some fork))).

(** The producer [simulateFn] built by [getZapperZapInSimulationArgs]. *)
Definition zapIn_simulateFn (depositArgs : DepositArgs)
           (underlyingToken : UnderlyingToken) (ad : ZapApprovalData)
           (sv : bool) : M W TransactionOutcome :=
  zapIn (with_options depositArgs
           (spread_options (options depositArgs) (forkId (approval ad)) sv
                           (approvalTransactionId (approval ad))))
        underlyingToken (needsApproving ad).

Definition getZapperZapInSimulationArgs (depositArgs : DepositArgs)
           (underlyingToken : UnderlyingToken)
  : M W ((bool -> M W TransactionOutcome) * option string) :=
  if negb (isEthereum cfg (chainId cfg)) then throw unsupported_chain
  else if Opt.slippage_missing (options depositArgs)
  then throw (SdkError "slippage needs to be specified for a zap"
                       (Some NO_SLIPPAGE))
  else
    ad <- getZapperZapInApprovalData depositArgs ;;
    ret (zapIn_simulateFn depositArgs underlyingToken ad,
         forkId (approval ad)).

(** [getActionableAddress] is asynchronous and [approve] does not await
    it: the ABI coder receives the promise. *)
Definition approve (depositArgs : DepositArgs) : M W string :=
  let addressToApprove :=
    SpenderPromise (getActionableAddress (toVault depositArgs)) in
  match encodeApprove cfg addressToApprove (amount depositArgs) with
  | Err e => throw e
  | Ok encodedInputData =>
      simulationResponse <-
        makeSimulationRequest B (from depositArgs) (sellToken depositArgs)
          encodedInputData
          (Opt.set_save (Some true) (options depositArgs)) None ;;
      ret (simulation_id simulationResponse)
  end.

Definition getApprovalData (depositArgs : DepositArgs) : M W ApprovalData :=
  needs <- depositNeedsApproving depositArgs ;;
  if negb needs then ret (Build_ApprovalData None None)
  else
    id <- approve depositArgs ;;
    fork <- createFork B ;;
    ret (Build_ApprovalData (Some id) (Some fork)).

Definition directDeposit_simulateFn (depositArgs : DepositArgs)
           (vaultContract : Address) (ad : ApprovalData) (sv : bool)
  : M W TransactionOutcome :=
  directDeposit
    (with_options depositArgs
       (spread_options (options depositArgs) (forkId ad) sv
                       (approvalTransactionId ad)))
    vaultContract.

Definition handleDirectSimulationDeposit (depositArgs : DepositArgs)
           (vaultContract : Address) : M W TransactionOutcome :=
  ad <- getApprovalData depositArgs ;;
  executeSimulationWithReSimulationOnFailure B
    (directDeposit_simulateFn depositArgs vaultContract ad) (forkId ad).

Definition handleZapInSimulationDeposit (zapInWith : string)
           (vaultContract : Address) (depositArgs : DepositArgs)
  : M W TransactionOutcome :=
  if String.eqb zapInWith "zapperZapIn" then
    underlyingToken <- getUnderlyingToken vaultContract ;;
    args <- getZapperZapInSimulationArgs depositArgs underlyingToken ;;
    executeSimulationWithReSimulationOnFailure B (fst args) (snd args)
  else if String.eqb zapInWith "ftmApeZap" then
    throw (SdkError "ftmApeZap not implemented yet!" None)
  else
    throw (SdkError ("zapInWith " ++ dquote ++ zapInWith ++ dquote
                       ++ " not supported yet!") None).

(** [getZapInDetails] receives the dynamic vault; the version under
    [src/zap.ts] reads the vault's metadata overrides. *)
Definition deposit (frm sell : Address) (amt : Integer) (vault : Address)
           (opts : Opt.t) : M W TransactionOutcome :=
  let depositArgs := Build_DepositArgs frm sell amt vault opts in
  let vaultContract := vault in
  dyn <- getDynamic B vault ;;
  token <- findByAddress B sell ;;
  match token with
  | None =>
      throw (SdkError ("Could not find the token by address: " ++ sell) None)
  | Some tk =>
      match dyn with
      | None =>
          throw (SdkError ("Could not get dynamic vault: " ++ vault) None)
      | Some v =>
          let d := getZapInDetails cfg (Some tk) (vault_metadata v) in
          match isZapInSupported d, zapInWith_detail d with
          | true, Some z =>
              if nonempty z
              then handleZapInSimulationDeposit z vaultContract depositArgs
              else handleDirectSimulationDeposit depositArgs vaultContract
          | true, None =>
              handleDirectSimulationDeposit depositArgs vaultContract
          | false, _ =>
              if negb (isUnderlyingToken cfg vault (token_address tk))
              then throw (SdkError ("Deposit of " ++ token_address tk
                                      ++ " to " ++ vault
                                      ++ " is not supported") None)
              else handleDirectSimulationDeposit depositArgs vaultContract
          end
      end
  end.

Definition withdraw_needsApproving (frm fromVault : Address) : M W bool :=
  if String.eqb fromVault (EthAddress cfg) then ret false
  else
    orThrow
      (state <- zapOutApprovalState B frm fromVault ;;
       ret (negb (isApproved state)))
      (ZapperError "zap out approval state" (Some ZAP_OUT_APPROVAL_STATE)).

Definition zapOut_simulateWithdrawal (frm toToken underlyingToken : Address)
           (amt : Integer) (fromVault : Address) (needs : bool)
           (sv : bool) : M W TransactionOutcome :=
  modifyOptions (Opt.set_save (Some sv)) ;;;
  zapOut frm toToken underlyingToken amt fromVault needs.

Definition direct_simulateWithdrawal (frm toToken : Address)
           (amt : Integer) (fromVault : Address) (sv : bool)
  : M W TransactionOutcome :=
  modifyOptions (Opt.set_save (Some sv)) ;;;
  directWithdraw frm toToken amt fromVault.

Definition withdraw (frm fromVault : Address) (amt : Integer)
           (toToken : Address) : M W TransactionOutcome :=
  underlyingToken <- vaultContract_token B fromVault ;;
  let isZapping :=
    negb (String.eqb underlyingToken (getAddress cfg toToken)) in
  if isZapping then
    opts <- getOptions ;;
    if Opt.slippage_missing opts
    then throw (SdkError "slippage needs to be specified for a zap"
                         (Some NO_SLIPPAGE))
    else
      needs <- withdraw_needsApproving frm fromVault ;;
      fork <- (if needs
               then (f <- createFork B ;; ret (Some f))
               else ret None) ;;
      modifyOptions (Opt.set_forkId fork) ;;;
      approvalSimulationId <-
        (if needs
         then
           tx <- orThrow (zapOutApprovalTransaction B frm fromVault 0)
                   (ZapperError "zap out approval transaction"
                                (Some ZAP_OUT_APPROVAL)) ;;
           o <- getOptions ;;
           res <- makeSimulationRequest B (zat_from tx) (zat_to tx)
                    (zat_data tx) (Opt.set_save (Some true) o) None ;;
           ret (Some (simulation_id res))
         else ret None) ;;
      modifyOptions (Opt.set_root approvalSimulationId) ;;;
      executeSimulationWithReSimulationOnFailure B
        (zapOut_simulateWithdrawal frm toToken underlyingToken amt
                                   fromVault needs)
        fork
  else
    executeSimulationWithReSimulationOnFailure B
      (direct_simulateWithdrawal frm toToken amt fromVault) None.

End Interface.
End V2.

(** ** The older [SimulationInterface]: [deposit] and its helpers

    Every function receives the caller's options object and updates it in
    place: the object is [callerOptions]. *)

Module V1.

(** [PickleJars] of [services/partners/pickle.ts] *)
Definition PickleJars : list Address :=
  ["0xCeD67a187b923F0E5ebcc77C7f2F7da20099e378"].

Definition zapProtocolOf (vault : Address) : ZapProtocol :=
  if existsb (String.eqb vault) PickleJars then PICKLE else YEARN.

Section Interface.
Context {W : Type} (B : Backend W) (cfg : Config).

Definition simulateZapApprovalTransaction
           (zapApprovalTransaction : ZapApprovalTransactionOutput)
  : M W SimulationResponse :=
  modifyOptions (Opt.set_save (Some true)) ;;;
  o <- getOptions ;;
  makeSimulationRequest B (zat_from zapApprovalTransaction)
    (zat_to zapApprovalTransaction) (zat_data zapApprovalTransaction)
    o None.

Definition approve (frm token : Address) (amt : Integer) (vault : Address)
  : M W string :=
  match encodeApprove cfg (SpenderAddress vault) amt with
  | Err e => throw e
  | Ok encodedInputData =>
      modifyOptions (Opt.set_save (Some true)) ;;;
      o <- getOptions ;;
      simulationResponse <-
        makeSimulationRequest B frm token encodedInputData o None ;;
      ret (simulation_id simulationResponse)
  end.

(** A rejected [allowance] is swallowed by the [catch]; the [toString]
    of the missing result then raises. *)
Definition depositNeedsApproving (frm token vault : Address)
           (amt : Integer) : M W bool :=
  result <- catch (a <- allowance B token frm vault ;; ret (Some a))
                  (fun _ => ret None) ;;
  match result with
  | Some a => ret (BN.lt (toBN a) (toBN amt))
  | None => throw (TypeError "Cannot read properties of undefined")
  end.

Definition directDeposit (frm sell : Address) (amt : Integer)
           (vault vaultContract : Address) : M W TransactionOutcome :=
  let encodedInputData := EncodeDeposit amt in
  o <- getOptions ;;
  tokensReceived <-
    simulateVaultInteraction B frm vault encodedInputData vault o None ;;
  targetTokenAmountUsdc <-
    orThrow (getNormalizedValueUsdc B vault tokensReceived)
            (PriceFetchingError EmptyString None) ;;
  dp <- orThrow (Promise_all2 (vaultContract_decimals B vaultContract)
                              (vaultContract_pricePerShare B vaultContract))
                (EthersError "direct deposit" None) ;;
  let targetUnderlyingTokensReceived :=
    BN.toFixed0
      (BN.multipliedBy
         (BN.div (toBN tokensReceived) (BN.pow (toBN 10) (fst dp)))
         (toBN (snd dp))) in
  ret (mkOutcome sell amt vault tokensReceived targetTokenAmountUsdc
                 vault targetUnderlyingTokensReceived 1%float 0%float).

Definition zapIn (frm sell underlyingTokenAddress : Address)
           (amt : Integer) (vault vaultContract : Address)
           (zapProtocol : ZapProtocol) (skipGasEstimate : bool)
  : M W TransactionOutcome :=
  let zapToken :=
    if String.eqb sell (EthAddress cfg) then ZeroAddress cfg else sell in
  opts <- getOptions ;;
  match Opt.slippage opts with
  | None => throw (SdkError "slippage needs to be set" None)
  | Some slip =>
    if number_falsy slip
    then throw (SdkError "slippage needs to be set" None)
    else
      zapInParams <-
        orThrow
          (zapper_zapIn_request B frm zapToken amt vault
             (match Opt.gasPrice opts with Some g => g | None => 0 end)
             slip (Some skipGasEstimate) (Some zapProtocol))
          (ZapperError "zap in" None) ;;
      let value := BN.toFixed0 (toBN (zo_value zapInParams)) in
      modifyOptions
        (fun o => Opt.set_gasPrice
                    (match Opt.gasPrice o with
                     | Some g => Some g
                     | None => Some (zo_gasPrice zapInParams)
                     end) o) ;;;
      (if negb skipGasEstimate
       then modifyOptions (Opt.set_gasLimit (Some (zo_gas zapInParams)))
       else ret tt) ;;;
      opts' <- getOptions ;;
      tokensReceived <-
        simulateVaultInteraction B frm (zo_to zapInParams)
          (zo_data zapInParams) vault opts' (Some value) ;;
      dp <- orThrow (Promise_all2 (vaultContract_decimals B vaultContract)
                                  (vaultContract_pricePerShare B vaultContract))
                    (EthersError "zap in" None) ;;
      let targetUnderlyingTokensReceived :=
        BN.toFixed0
          (BN.multipliedBy
             (BN.div (toBN tokensReceived) (BN.pow (toBN 10) (fst dp)))
             (toBN (snd dp))) in
      amountReceivedUsdc <-
        match zapProtocol with
        | YEARN =>
            orThrow
              (price <- getNormalizedValueUsdc B vault tokensReceived ;;
               ret (toBN price))
              (PriceFetchingError EmptyString None)
        | PICKLE =>
            usdc <- orThrow (getPriceUsdc B vault)
                            (PriceFetchingError EmptyString None) ;;
            ret (BN.multipliedBy
                   (BN.div (toBN usdc) (BN.pow (toBN 10) (fst dp)))
                   (toBN tokensReceived))
        end ;;
      let oracleToken :=
        if String.eqb sell (EthAddress cfg) then WethAddress cfg else sell in
      zapInAmountUsdc <-
        orThrow (getNormalizedValueUsdc B oracleToken amt)
                (PriceFetchingError EmptyString None) ;;
      let rate :=
        BN.toNumber (BN.div amountReceivedUsdc (toBN zapInAmountUsdc)) in
      ret (mkOutcome sell amt (zo_buyTokenAddress zapInParams)
                     tokensReceived (BN.toFixed0 amountReceivedUsdc)
                     underlyingTokenAddress targetUnderlyingTokensReceived
                     rate (1 - rate)%float)
  end.

Definition zap_needsApproving (frm sell : Address)
           (zapProtocol : ZapProtocol) : M W bool :=
  if String.eqb sell (EthAddress cfg) then ret false
  else
    orThrow
      (state <- zapInApprovalState B frm sell zapProtocol ;;
       ret (negb (isApproved state)))
      (ZapperError "approval state" None).

Definition zap_simulateDeposit (frm sell underlyingToken : Address)
           (amt : Integer) (vault : Address) (zapProtocol : ZapProtocol)
           (needs : bool) (sv : bool) : M W TransactionOutcome :=
  modifyOptions (Opt.set_save (Some sv)) ;;;
  zapIn frm sell underlyingToken amt vault vault zapProtocol needs.

Definition direct_simulateDeposit (frm sell : Address) (amt : Integer)
           (vault : Address) (sv : bool) : M W TransactionOutcome :=
  modifyOptions (Opt.set_save (Some sv)) ;;;
  directDeposit frm sell amt vault vault.

Definition deposit (frm sell : Address) (amt : Integer) (vault : Address)
  : M W TransactionOutcome :=
  let zapProtocol := zapProtocolOf vault in
  underlyingToken <-
    orThrow (vaultContract_token B vault)
            (EthersError "failed to fetch token" None) ;;
  let isZapping := negb (String.eqb underlyingToken sell) in
  if isZapping then
    opts <- getOptions ;;
    if Opt.slippage_missing opts
    then throw (SdkError "slippage needs to be specified for a zap" None)
    else
      needs <- zap_needsApproving frm sell zapProtocol ;;
      fork <- (if needs
               then (f <- createFork B ;; ret (Some f))
               else ret None) ;;
      modifyOptions (Opt.set_forkId fork) ;;;
      approvalTransactionId <-
        (if needs
         then
           tx <- orThrow (zapInApprovalTransaction B frm sell 0 zapProtocol)
                         (ZapperError "approval" None) ;;
           res <- simulateZapApprovalTransaction tx ;;
           ret (Some (simulation_id res))
         else ret None) ;;
      modifyOptions (Opt.set_root approvalTransactionId) ;;;
      executeSimulationWithReSimulationOnFailure B
        (zap_simulateDeposit frm sell underlyingToken amt vault
                             zapProtocol needs)
        fork
  else
    needs <- depositNeedsApproving frm sell vault amt ;;
    fork <- (if needs
             then (f <- createFork B ;; ret (Some f))
             else ret None) ;;
    modifyOptions (Opt.set_forkId fork) ;;;
    approvalTransactionId <-
      (if needs
       then (id <- approve frm sell amt vault ;; ret (Some id))
       else ret None) ;;
    modifyOptions (Opt.set_root approvalTransactionId) ;;;
    executeSimulationWithReSimulationOnFailure B
      (direct_simulateDeposit frm sell amt vault) fork.

(** *** The older [withdraw] and its helpers *)

Definition directWithdraw (frm toToken : Address) (amt : Integer)
           (fromVault : Address) : M W TransactionOutcome :=
  let encodedInputData := EncodeWithdraw amt in
  o <- getOptions ;;
  tokensReceived <-
    simulateVaultInteraction B frm fromVault encodedInputData toToken o
                             None ;;
  targetTokenAmountUsdc <-
    orThrow (getNormalizedValueUsdc B toToken tokensReceived)
            (PriceFetchingError EmptyString None) ;;
  ret (mkOutcome fromVault amt toToken tokensReceived
                 targetTokenAmountUsdc toToken tokensReceived
                 1%float 0%float).

Definition zapOut (frm toToken underlyingTokenAddress : Address)
           (amt : Integer) (fromVault : Address) (skipGasEstimate : bool)
  : M W TransactionOutcome :=
  opts <- getOptions ;;
  match Opt.slippage opts with
  | None => throw (SdkError "slippage needs to be set" None)
  | Some slip =>
    if number_falsy slip
    then throw (SdkError "slippage needs to be set" None)
    else
      let zapToken :=
        if String.eqb toToken (EthAddress cfg) then ZeroAddress cfg
        else toToken in
      zapOutParams <-
        orThrow (zapper_zapOut_request B frm zapToken amt fromVault 0 slip
                                       (Some skipGasEstimate))
                (ZapperError EmptyString None) ;;
      (if negb skipGasEstimate
       then modifyOptions (Opt.set_gasLimit (Some (zo_gas zapOutParams)))
       else ret tt) ;;;
      opts' <- getOptions ;;
      tokensReceived <-
        (if String.eqb zapToken (ZeroAddress cfg)
         then
           response <-
             makeSimulationRequest B frm (zo_to zapOutParams)
               (zo_data zapOutParams) opts'
               (Some (zo_value zapOutParams)) ;;
           ret (BN.toFixed0 (BN.of_Z (call_trace_output response)))
         else
           simulateVaultInteraction B frm (zo_to zapOutParams)
             (zo_data zapOutParams) toToken opts'
             (Some (zo_value zapOutParams))) ;;
      let oracleToken :=
        if String.eqb toToken (EthAddress cfg) then WethAddress cfg
        else toToken in
      zapOutAmountUsdc <-
        orThrow (getNormalizedValueUsdc B oracleToken tokensReceived)
                (PriceFetchingError EmptyString None) ;;
      soldAssetAmountUsdc <-
        orThrow (getNormalizedValueUsdc B fromVault amt)
                (PriceFetchingError EmptyString None) ;;
      let rate :=
        BN.toNumber (BN.div (BN.of_Z zapOutAmountUsdc)
                            (BN.of_Z soldAssetAmountUsdc)) in
      ret (mkOutcome fromVault amt toToken tokensReceived zapOutAmountUsdc
                     underlyingTokenAddress tokensReceived
                     rate (1 - rate)%float)
  end.

Definition withdraw_needsApproving (frm fromVault : Address) : M W bool :=
  if String.eqb fromVault (EthAddress cfg) then ret false
  else
    orThrow
      (state <- zapOutApprovalState B frm fromVault ;;
       ret (negb (isApproved state)))
      (ZapperError "zap out approval state" None).

Definition zapOut_simulateWithdrawal (frm toToken underlyingToken : Address)
           (amt : Integer) (fromVault : Address) (needs : bool)
           (sv : bool) : M W TransactionOutcome :=
  modifyOptions (Opt.set_save (Some sv)) ;;;
  zapOut frm toToken underlyingToken amt fromVault needs.

Definition direct_simulateWithdrawal (frm toToken : Address)
           (amt : Integer) (fromVault : Address) (sv : bool)
  : M W TransactionOutcome :=
  modifyOptions (Opt.set_save (Some sv)) ;;;
  directWithdraw frm toToken amt fromVault.

Definition withdraw (frm fromVault : Address) (amt : Integer)
           (toToken : Address) : M W TransactionOutcome :=
  underlyingToken <- vaultContract_token B fromVault ;;
  let isZapping :=
    negb (String.eqb underlyingToken (getAddress cfg toToken)) in
  if isZapping then
    opts <- getOptions ;;
    if Opt.slippage_missing opts
    then throw (SdkError "slippage needs to be specified for a zap" None)
    else
      needs <- withdraw_needsApproving frm fromVault ;;
      fork <- (if needs
               then (f <- createFork B ;; ret (Some f))
               else ret None) ;;
      modifyOptions (Opt.set_forkId fork) ;;;
      approvalSimulationId <-
        (if needs
         then
           tx <- orThrow (zapOutApprovalTransaction B frm fromVault 0)
                         (ZapperError "zap out approval transaction" None) ;;
           res <- simulateZapApprovalTransaction tx ;;
           ret (Some (simulation_id res))
         else ret None) ;;
      modifyOptions (Opt.set_root approvalSimulationId) ;;;
      executeSimulationWithReSimulationOnFailure B
        (zapOut_simulateWithdrawal frm toToken underlyingToken amt
                                   fromVault needs)
        fork
  else
    executeSimulationWithReSimulationOnFailure B
      (direct_simulateWithdrawal frm toToken amt fromVault) None.

End Interface.
End V1.

(** ** The legacy [SimulationService] ([src/services/simulation.ts]) *)

Module Legacy.

Definition latestBlockKey : Z := -1.
Definition gasLimit : Z := 8000000.

(** The outcome of the legacy service leaves fields out. *)
Record Outcome : Type := {
  sourceTokenAddress : Address;
  sourceTokenAmount : Integer;
  targetTokenAddress : Address;
  targetTokenAmount : Integer;
  targetUnderlyingTokenAddress : option Address;
  targetUnderlyingTokenAmount : option Integer;
  conversionRate : option number;
  slippage : option number
}.

Definition body (frm to : Address) (input : CallData) (value : Integer)
  : SimulateBody :=
  Build_SimulateBody frm to input gasLimit 0 value true.

Section Service.
Context {W : Type} (B : Backend W) (cfg : Config).

Definition directDeposit (frm token : Address) (amt : Integer)
           (vault : Address) : M W Outcome :=
  simulationResponse <-
    legacy_simulate B (body frm vault (EncodeDeposit amt) 0) ;;
  let tokensReceived := call_trace_output simulationResponse in
  ret (Build_Outcome token amt vault tokensReceived None None None None).

Definition zapIn (frm token underlyingTokenAddress : Address)
           (amt : Integer) (vault : Address) (slippagePercentage : number)
  : M W Outcome :=
  zapInParams <-
    zapper_zapIn_request B frm token amt vault 0 slippagePercentage
                         None None ;;
  simulationResponse <-
    legacy_simulate B (body frm (zo_to zapInParams) (zo_data zapInParams)
                            (zo_value zapInParams)) ;;
  let assetTokensReceived := call_trace_output simulationResponse in
  pps <- vaultContract_pricePerShare B vault ;;
  let targetUnderlyingTokensReceived :=
    BN.toFixed0
      (BN.div (BN.multipliedBy (toBN assetTokensReceived) (toBN pps))
              (BN.pow (toBN 10) 18)) in
  zapInAmountUsdc <- getNormalizedValueUsdc B token assetTokensReceived ;;
  boughtAssetAmountUsdc <- getNormalizedValueUsdc B vault amt ;;
  let rate :=
    BN.toNumber (BN.div (toBN boughtAssetAmountUsdc)
                        (toBN zapInAmountUsdc)) in
  let slip := (1 - rate)%float in
  ret (Build_Outcome token amt (zo_buyTokenAddress zapInParams)
                     assetTokensReceived (Some underlyingTokenAddress)
                     (Some targetUnderlyingTokensReceived)
                     (Some rate) (Some slip)).

Definition directWithdraw (frm token : Address) (amt : Integer)
           (vault : Address) : M W Outcome :=
  simulationResponse <-
    legacy_simulate B (body frm vault (EncodeWithdraw amt) 0) ;;
  match call_trace_calls simulationResponse with
  | output :: _ =>
      ret (Build_Outcome vault amt token output None None None None)
  | [] => throw (TypeError "Cannot read properties of undefined")
  end.

Definition zapOut (frm token underlyingTokenAddress : Address)
           (amt : Integer) (vault : Address) (slippagePercentage : number)
  : M W Outcome :=
  zapOutParams <-
    zapper_zapOut_request B frm token amt vault 0 slippagePercentage
                          None ;;
  simulationResponse <-
    legacy_simulate B (body (zo_from zapOutParams) (zo_to zapOutParams)
                            (zo_data zapOutParams) 0) ;;
  let output :=
    BN.toFixed0 (toBN (call_trace_output simulationResponse)) in
  pps <- vaultContract_pricePerShare B vault ;;
  let targetUnderlyingTokensReceived :=
    BN.toFixed0
      (BN.div (BN.multipliedBy (toBN amt) (toBN pps))
              (BN.pow (toBN 10) 18)) in
  zapOutAmountUsdc <- getNormalizedValueUsdc B token output ;;
  soldAssetAmountUsdc <- getNormalizedValueUsdc B vault amt ;;
  let rate :=
    BN.toNumber (BN.div (toBN zapOutAmountUsdc)
                        (toBN soldAssetAmountUsdc)) in
  let slip := (1 - rate)%float in
  ret (Build_Outcome vault amt token output (Some underlyingTokenAddress)
                     (Some targetUnderlyingTokensReceived)
                     (Some rate) (Some slip)).

(** [slippage === undefined] *)
Definition deposit (frm token : Address) (amt : Integer) (vault : Address)
           (slip : option number) : M W Outcome :=
  underlyingToken <- vaultContract_token B vault ;;
  let isZapping :=
    negb (String.eqb underlyingToken (getAddress cfg token)) in
  if isZapping then
    match slip with
    | None => throw (SdkError "slippage needs to be specified for a zap" None)
    | Some sl => zapIn frm token underlyingToken amt vault sl
    end
  else directDeposit frm token amt vault.

Definition withdraw (frm token : Address) (amt : Integer) (vault : Address)
           (slip : option number) : M W Outcome :=
  underlyingToken <- vaultContract_token B vault ;;
  let isZapping :=
    negb (String.eqb underlyingToken (getAddress cfg token)) in
  if isZapping then
    match slip with
    | None => throw (SdkError "slippage needs to be specified for a zap" None)
    | Some sl => zapOut frm token underlyingToken amt vault sl
    end
  else directWithdraw frm token amt vault.

End Service.
End Legacy.

(** ** A scripted backend, for running the engine on concrete requests *)

Module Fixture.

Record World : Type := {
  forks : nat;
  simulations : nat
}.

Record Scenario : Type := {
  underlying : Address;
  dec : nat;
  pps : Integer;
  allowed : Integer;
  approved : bool;
  received : Integer;
  price : Address -> Integer -> Usdc;
  quote : ZapOutput;
  failures : nat;
  zapWith : option string
}.

Definition start : World := Build_World 0 0.

Definition answer {A} (a : A) (w : World) : Result A * World := (Ok a, w).

Definition fork_name (n : nat) : string := "fork-" ++ show_Z (Z.of_nat n).
Definition simulation_name (n : nat) : string :=
  "sim-" ++ show_Z (Z.of_nat n).

Definition new_fork (w : World) : Result string * World :=
  (Ok (fork_name (S (forks w))), Build_World (S (forks w)) (simulations w)).

(** The first [failures] simulations of a scenario are rejected. *)
Definition simulated {A} (sc : Scenario) (f : nat -> A) (w : World)
  : Result A * World :=
  let n := S (simulations w) in
  (if Nat.leb n (failures sc) then Err (Rejected "simulation failed")
   else Ok (f n),
   Build_World (forks w) n).

Definition backend (sc : Scenario) : Backend World := {|
  vault_token := fun _ => answer (underlying sc);
  vault_decimals := fun _ => answer (dec sc);
  vault_pricePerShare := fun _ => answer (pps sc);
  vaults_getDynamic := fun _ =>
    answer (Some (Build_VaultDynamic
                    (Some (Build_VaultMetadataOverrides (zapWith sc)))));
  tokens_findByAddress := fun a =>
    answer (Some (Build_Token a (Some [("zapperZapIn", true)])));
  contract_allowance := fun _ _ _ => answer (allowed sc);
  zapper_zapInApprovalState := fun _ _ _ =>
    answer (Build_ZapApprovalStateOutput (approved sc));
  zapper_zapInApprovalTransaction := fun frm tok _ _ =>
    answer (Build_ZapApprovalTransactionOutput frm tok (RawData "approve"));
  zapper_zapOutApprovalState := fun _ _ =>
    answer (Build_ZapApprovalStateOutput (approved sc));
  zapper_zapOutApprovalTransaction := fun frm v _ =>
    answer (Build_ZapApprovalTransactionOutput frm v (RawData "approve"));
  zapper_zapIn := fun _ _ _ _ _ _ _ _ => answer (quote sc);
  zapper_zapOut := fun _ _ _ _ _ _ _ => answer (quote sc);
  executor_createFork := new_fork;
  executor_makeSimulationRequest := fun _ _ _ _ _ =>
    simulated sc (fun n => Build_SimulationResponse (simulation_name n)
                                                    (received sc)
                                                    [received sc]);
  executor_simulateVaultInteraction := fun _ _ _ _ _ _ =>
    simulated sc (fun _ => received sc);
  oracle_getNormalizedValueUsdc := fun a n => answer (price sc a n);
  pickle_getPriceUsdc := fun a => answer (price sc a 1);
  legacy_makeRequest := fun _ =>
    simulated sc (fun n => Build_SimulationResponse (simulation_name n)
                                                    (received sc)
                                                    [received sc])
|}.

(** ethers' ABI coder accepts an address string and raises on anything
    else. *)
Definition ethers_encodeApprove (sp : ApproveSpender) (amt : Integer)
  : Result CallData :=
  match sp with
  | SpenderAddress a => Ok (EncodeApprove a amt)
  | SpenderPromise _ => Err (Rejected "invalid address")
  end.

Definition eth : Address := "0xEeeeeEeeeEeEeeEeEeEeeEEEeeeeEeeeeeeeEEeE".
Definition zero : Address := "0x0000000000000000000000000000000000000000".
Definition weth : Address := "0xC02aaA39b223FE8D0A0e5C4F27eAD9083C756Cc2".

Definition config (sc : Scenario) : Config := {|
  EthAddress := eth;
  ZeroAddress := zero;
  WethAddress := weth;
  chainId := 1;
  isEthereum := fun c => (c =? 1) || (c =? 1337);
  isFantom := fun c => c =? 250;
  getAddress := fun a => a;
  getZapProtocol := V1.zapProtocolOf;
  isUnderlyingToken := fun _ t => String.eqb t (underlying sc);
  encodeApprove := ethers_encodeApprove;
  partner := None
|}.

Definition alice : Address := "0xA11ce".
Definition dai : Address := "0xDA1".
Definition usdc : Address := "0x05DC".
Definition yvDai : Address := "0x7DA1".

Definition a_quote : ZapOutput :=
  Build_ZapOutput alice "0x2a9" (RawData "zap") 0 210000 7 yvDai.

(** One unit of any token is worth two USDC units. *)
Definition flat_price (_ : Address) (n : Integer) : Usdc := 2 * n.

Definition initial (o : Opt.t) : State World := mkState start o.

End Fixture.

(** ** [getZapInOptions]: the classification of zap-ins under its earlier
    name, with its own copy of [isValidZap] *)



(** * The interfaces and services around the engine *)

(** ** Requests over any kind of event

    The services below talk to collaborators of their own.  A computation
    runs from a world [W], returns a value or a rejection, the next world,
    and the requests it issued, in order. *)

Module Svc.
Section Monad.
Context {E W : Type}.

Definition M (A : Type) : Type := W -> Result A * W * list E.

Definition ret {A} (a : A) : M A := fun w => (Ok a, w, []).

Definition bind {A B} (m : M A) (k : A -> M B) : M B :=
  fun w =>
    match m w with
    | (Ok a, w1, t1) =>
        match k a w1 with
        | (r, w2, t2) => (r, w2, t1 ++ t2)
        end
    | (Err e, w1, t1) => (Err e, w1, t1)
    end.

Definition throw {A} (e : Error) : M A := fun w => (Err e, w, []).

(** [try { m } catch (e) { h e }] *)
Definition catch {A} (m : M A) (h : Error -> M A) : M A :=
  fun w =>
    match m w with
    | (Ok a, w1, t1) => (Ok a, w1, t1)
    | (Err e, w1, t1) =>
        match h e w1 with
        | (r, w2, t2) => (r, w2, t1 ++ t2)
        end
    end.

(** A request to a collaborator. *)
Definition call {A} (ev : E) (h : W -> Result A * W) : M A :=
  fun w =>
    match h w with
    | (r, w1) => (r, w1, [ev])
    end.

(** A pure step that may throw. *)
Definition lift {A} (r : Result A) : M A := fun w => (r, w, []).

(** [Promise.all(ms)] where every [m] is a single request: all of them are
    issued, in array order; the first rejection in that order is
    reported. *)
Fixpoint all {A} (ms : list (M A)) : M (list A) :=
  match ms with
  | [] => ret []
  | m :: rest =>
      fun w =>
        match m w with
        | (r, w1, t1) =>
            match all rest w1 with
            | (rs, w2, t2) =>
                (match r, rs with
                 | Ok a, Ok l => Ok (a :: l)
                 | Err e, _ => Err e
                 | Ok _, Err e => Err e
                 end, w2, t1 ++ t2)
            end
        end
  end.

Definition result_of {A} (x : Result A * W * list E) : Result A :=
  fst (fst x).
Definition world_of {A} (x : Result A * W * list E) : W := snd (fst x).
Definition trace_of {A} (x : Result A * W * list E) : list E := snd x.

End Monad.
End Svc.

Notation "x <~ m ;; k" := (Svc.bind m (fun x => k))
  (at level 61, m at next level, right associativity).
Notation "m ;;~ k" := (Svc.bind m (fun _ => k))
  (at level 61, right associativity).

(** [list.includes(x)] on chain ids and on addresses. *)
Definition includes_chain (l : list Z) (c : Z) : bool := existsb (Z.eqb c) l.
Definition includes_address (l : list Address) (a : Address) : bool :=
  existsb (String.eqb a) l.

(** [MaxUint256] of ethers' constants. *)
Definition MaxUint256 : Integer := 2 ^ 256 - 1.

(** ** [TokenInterface] ([interfaces/token.ts], two revisions)

    Console output is not modelled. *)

Module TokenInterface.

Inductive DataSource : Type := zapper | vaults | ironBank | labs.

Definition DataSource_eqb (a b : DataSource) : bool :=
  match a, b with
  | zapper, zapper | vaults, vaults | ironBank, ironBank | labs, labs => true
  | _, _ => false
  end.

(** A token, with the fields the interface reads or writes spelled out;
    [token_supported] is its [supported] object, whose keys may be present with a false
    value. *)
Record Token : Type := {
  address : Address;
  name : string;
  symbol : string;
  decimals : Integer;
  priceUsdc : Usdc;
  icon : option string;
  token_supported : list (string * bool);
  dataSource : DataSource
}.

(** [{ ...token, icon }] *)
Definition with_icon (i : string) (t : Token) : Token :=
  Build_Token (address t) (name t) (symbol t) (decimals t) (priceUsdc t)
              (Some i) (token_supported t) (dataSource t).

(** [{ ...token, supported }] *)
Definition with_supported (s : list (string * bool)) (t : Token) : Token :=
  Build_Token (address t) (name t) (symbol t) (decimals t) (priceUsdc t)
              (icon t) s (dataSource t).

(** [{ ...object, key: value }]: the key keeps its place when the object
    has it, and is added last otherwise. *)
Fixpoint set_key (k : string) (v : bool) (o : list (string * bool))
  : list (string * bool) :=
  match o with
  | [] => [(k, v)]
  | (k', v') :: rest =>
      if String.eqb k' k then (k, v) :: rest else (k', v') :: set_key k v rest
  end.

(** [Integer] balances are canonical decimal strings: [balance !== "0"]
    is the balance being non-zero. *)
Record Balance : Type := {
  b_address : Address;
  b_balance : Integer;
  b_balanceUsdc : Usdc;
  b_priceUsdc : Usdc
}.

Record TokenAllowance : Type := {
  owner : Address;
  token : Address;
  spender : Address;
  amount : Integer
}.

Record TokenMetadata : Type := {
  md_address : Address;
  md_description : string
}.

Record ZapApprovalState : Type := {
  zs_isApproved : bool;
  zs_ownerAddress : Address;
  zs_spenderAddress : Address;
  zs_allowance : Integer
}.

Record ZapApprovalParams : Type := {
  zp_to : Address;
  zp_from : Address;
  zp_gasPrice : Integer;
  zp_data : string
}.

(** A [TransactionRequest]: a populated contract call or the zapper's
    parameters. *)
Inductive TransactionRequest : Type :=
| ApproveCall (token spender : Address) (amount : Integer)
| ZapApproval (to from : Address) (gasPrice : Integer) (data : string).

(** The decimal a [BigNumber] prints with [toString]. *)
Definition Decimal := BN.t.

Inductive Event : Type :=
| EvCachedSupported
| EvZapperSupportedTokens
| EvAssetIcon (addresses : list Address)
| EvVaultsTokens
| EvIronBankTokens
| EvZapperBalances (account : Address)
| EvVaultsBalances (account : Address)
| EvIronBankBalances (account : Address)
| EvGetPriceUsdc (token : Address)
| EvContractAllowance (token owner spender : Address)
| EvPopulateApprove (token signer spender : Address) (amount : Integer)
| EvSendTransaction (tx : TransactionRequest)
| EvSignerSendTransaction (signer : Address) (tx : TransactionRequest)
| EvZapperGas
| EvZapInApprovalState (account token : Address) (p : ZapProtocol)
| EvZapInApprovalTransaction (account token : Address) (gasPrice : Decimal)
                             (p : ZapProtocol)
| EvZapOutApprovalState (account token : Address)
| EvZapOutApprovalTransaction (account token : Address) (gasPrice : Decimal)
| EvCachedMetadata
| EvMetaTokens.

(** A transaction that was sent. *)
Record TransactionResponse : Type := { hash : string }.

Record Backend (W : Type) : Type := {
  cachedFetcherSupported_fetch : W -> Result (option (list Token)) * W;
  zapper_supportedTokens : W -> Result (list Token) * W;
  asset_icon :
    list Address -> W -> Result (list (Address * option string)) * W;
  vaults_tokens : W -> Result (list Token) * W;
  ironBank_tokens : W -> Result (list Token) * W;
  zapper_balances : Address -> W -> Result (list Balance) * W;
  vaults_balances : Address -> W -> Result (list Balance) * W;
  ironBank_balances : Address -> W -> Result (list Balance) * W;
  oracle_getPriceUsdc : Address -> W -> Result Usdc * W;
  contract_allowance :
    Address -> Address -> Address -> W -> Result Integer * W;
  contract_populateApprove :
    Address -> Address -> Address -> Integer -> W ->
    Result TransactionRequest * W;
  transaction_sendTransaction :
    TransactionRequest -> W -> Result TransactionResponse * W;
  signer_sendTransaction :
    Address -> TransactionRequest -> W -> Result TransactionResponse * W;
  zapper_gas_fast : W -> Result Decimal * W;
  zapper_zapInApprovalState :
    Address -> Address -> ZapProtocol -> W -> Result ZapApprovalState * W;
  zapper_zapInApprovalTransaction :
    Address -> Address -> Decimal -> ZapProtocol -> W ->
    Result ZapApprovalParams * W;
  zapper_zapOutApprovalState :
    Address -> Address -> W -> Result ZapApprovalState * W;
  zapper_zapOutApprovalTransaction :
    Address -> Address -> Decimal -> W -> Result ZapApprovalParams * W;
  cachedFetcher_fetch : W -> Result (option (list TokenMetadata)) * W;
  meta_tokens : W -> Result (list TokenMetadata) * W
}.

Arguments cachedFetcherSupported_fetch {W}.
Arguments zapper_supportedTokens {W}.
Arguments asset_icon {W}.
Arguments vaults_tokens {W}.
Arguments ironBank_tokens {W}.
Arguments zapper_balances {W}.
Arguments vaults_balances {W}.
Arguments ironBank_balances {W}.
Arguments oracle_getPriceUsdc {W}.
Arguments contract_allowance {W}.
Arguments contract_populateApprove {W}.
Arguments transaction_sendTransaction {W}.
Arguments signer_sendTransaction {W}.
Arguments zapper_gas_fast {W}.
Arguments zapper_zapInApprovalState {W}.
Arguments zapper_zapInApprovalTransaction {W}.
Arguments zapper_zapOutApprovalState {W}.
Arguments zapper_zapOutApprovalTransaction {W}.
Arguments cachedFetcher_fetch {W}.
Arguments meta_tokens {W}.

(** [mergeAddressables(a, b)] *)
Definition mergeAddressables {T : Type} (addr : T -> Address) (a b : list T)
  : list T :=
  let filter := map addr a in
  a ++ List.filter (fun x => negb (includes_address filter (addr x))) b.

(** [zapperTokensIcons[token.address]] *)
Fixpoint icon_of (icons : list (Address * option string)) (a : Address)
  : option string :=
  match icons with
  | [] => None
  | (k, v) :: rest => if String.eqb k a then v else icon_of rest a
  end.

(** [icon ? { ...token, icon } : token] *)
Definition setIcon (icons : list (Address * option string)) (t : Token)
  : Token :=
  match icon_of icons (address t) with
  | Some i => if nonempty i then with_icon i t else t
  | None => t
  end.

(** The last step of [supported]: the tokens zapper lists are marked. *)
Definition markZapperTokens (zapperTokensWithIcon allSupportedTokens
                             : list Token) : list Token :=
  let zapperTokensUniqueAddresses := map address zapperTokensWithIcon in
  map (fun t =>
         let isZapperToken :=
           includes_address zapperTokensUniqueAddresses (address t) in
         if isZapperToken
         then with_supported (set_key "zapper" true (token_supported t)) t
         else t)
      allSupportedTokens.

Section Interface.
Context {W : Type} (B : Backend W).

(** What the interface reads from its context and from the modules outside
    the sources: the chain, [EthAddress] and [isNativeToken] of [helpers],
    the partner service. *)
Context (chainId : Z) (EthAddress : Address) (isNativeToken : Address -> bool)
        (partner : option Partner).

Definition getZapperTokensWithIcons : Svc.M (E := Event) (W := W) (list Token) :=
  zapperTokens <~ Svc.call EvZapperSupportedTokens (zapper_supportedTokens B) ;;
  let zapperTokensAddresses := map address zapperTokens in
  zapperTokensIcons <~ Svc.call (EvAssetIcon zapperTokensAddresses)
                                (asset_icon B zapperTokensAddresses) ;;
  Svc.ret (map (setIcon zapperTokensIcons) zapperTokens).

Definition supported : Svc.M (E := Event) (W := W) (list Token) :=
  cached <~ Svc.call EvCachedSupported (cachedFetcherSupported_fetch B) ;;
  match cached with
  | Some c => Svc.ret c
  | None =>
      zapperTokensWithIcon <~
        (if includes_chain [1; 1337] chainId
         then Svc.catch getZapperTokensWithIcons (fun _ => Svc.ret [])
         else Svc.ret []) ;;
      if includes_chain [1; 1337; 250; 42161] chainId then
        vaultsTokens <~ Svc.call EvVaultsTokens (vaults_tokens B) ;;
        ironBankTokens <~ Svc.call EvIronBankTokens (ironBank_tokens B) ;;
        let combinedVaultsAndIronBankTokens :=
          mergeAddressables address vaultsTokens ironBankTokens in
        match zapperTokensWithIcon with
        | [] => Svc.ret combinedVaultsAndIronBankTokens
        | _ :: _ =>
            let allSupportedTokens :=
              mergeAddressables address combinedVaultsAndIronBankTokens
                                zapperTokensWithIcon in
            Svc.ret (markZapperTokens zapperTokensWithIcon allSupportedTokens)
        end
      else Svc.ret []
  end.

(** The addresses [balances] collects for a data source. *)
Definition sourceAddresses (tokens : list Token) (src : DataSource)
  : list Address :=
  map address (List.filter (fun t => DataSource_eqb (dataSource t) src) tokens).

Definition balances (account : Address) (tokenAddresses : option (list Address))
  : Svc.M (E := Event) (W := W) (list Balance) :=
  tokens <~ supported ;;
  let tokens :=
    match tokenAddresses with
    | Some l => List.filter (fun t => includes_address l (address t)) tokens
    | None => tokens
    end in
  let addresses := sourceAddresses tokens in
  balances_zapper <~
    (if includes_chain [1; 1337] chainId
     then
       Svc.catch
         (zapperBalances <~ Svc.call (EvZapperBalances account)
                                     (zapper_balances B account) ;;
          Svc.ret (List.filter
                     (fun b => includes_address (addresses zapper)
                                                (b_address b))
                     zapperBalances))
         (fun _ => Svc.ret [])
     else Svc.ret []) ;;
  if includes_chain [1; 1337; 250; 42161] chainId then
    vaultBalances <~ Svc.call (EvVaultsBalances account)
                              (vaults_balances B account) ;;
    let balances_vaults :=
      List.filter
        (fun b => negb (b_balance b =? 0)
                  && includes_address (addresses vaults) (b_address b))
        vaultBalances in
    ironBankBalances <~ Svc.call (EvIronBankBalances account)
                                 (ironBank_balances B account) ;;
    let balances_ironBank :=
      List.filter
        (fun b => includes_address (addresses ironBank) (b_address b))
        ironBankBalances in
    Svc.ret (balances_vaults ++ balances_ironBank ++ balances_zapper)
  else Svc.ret [].

(** [metadata(addresses)] *)
Definition metadata (addresses : option (list Address))
  : Svc.M (E := Event) (W := W) (list TokenMetadata) :=
  cached <~ Svc.call EvCachedMetadata (cachedFetcher_fetch B) ;;
  result <~ match cached with
            | Some c => Svc.ret c
            | None => Svc.call EvMetaTokens (meta_tokens B)
            end ;;
  match addresses with
  | Some l =>
      Svc.ret (List.filter (fun m => includes_address l (md_address m)) result)
  | None => Svc.ret result
  end.

(** *** The later revision: [allowance] and [approve] by spender *)

Definition allowance (ownerAddress tokenAddress spenderAddress : Address)
  : Svc.M (E := Event) (W := W) TokenAllowance :=
  let allowance :=
    Build_TokenAllowance ownerAddress tokenAddress spenderAddress MaxUint256 in
  if isNativeToken tokenAddress || String.eqb tokenAddress spenderAddress
  then Svc.ret allowance
  else
    allowanceAmount <~
      Svc.call (EvContractAllowance tokenAddress ownerAddress spenderAddress)
               (contract_allowance B tokenAddress ownerAddress
                                   spenderAddress) ;;
    Svc.ret (Build_TokenAllowance ownerAddress tokenAddress spenderAddress
                                  allowanceAmount).

Definition approve (ownerAddress tokenAddress spenderAddress : Address)
           (amt : Integer)
  : Svc.M (E := Event) (W := W) TransactionResponse :=
  if isNativeToken tokenAddress
  then Svc.throw (SdkError "Native tokens cant be approved" None)
  else if String.eqb tokenAddress spenderAddress
  then Svc.throw (SdkError "Cant approve token as its spender" None)
  else
    tx <~ Svc.call
            (EvPopulateApprove tokenAddress ownerAddress spenderAddress amt)
            (contract_populateApprove B tokenAddress ownerAddress
                                      spenderAddress amt) ;;
    Svc.call (EvSendTransaction tx) (transaction_sendTransaction B tx).

(** *** The earlier revision: allowance and approval by vault *)

Definition shouldUsePartnerService (vault : Address) : bool :=
  match partner with
  | Some p => partner_isAllowed p vault
  | None => false
  end.

(** [(this.shouldUsePartnerService(address) && partnerAddress) || address] *)
Definition addressToApprove (vault : Address) : Address :=
  if shouldUsePartnerService vault then
    match partner with
    | Some p =>
        match partner_address p with
        | Some a => if nonempty a then a else vault
        | None => vault
        end
    | None => vault
    end
  else vault.

Definition zapProtocolOf (vault : Address) : ZapProtocol :=
  if includes_address V1.PickleJars vault then PICKLE else YEARN.

Definition allowance_by_vault (vault vaultToken tk account : Address)
  : Svc.M (E := Event) (W := W) TokenAllowance :=
  let allowance := Build_TokenAllowance account tk vault MaxUint256 in
  if String.eqb EthAddress tk then Svc.ret allowance
  else if String.eqb vaultToken tk then
    let spender := addressToApprove vault in
    allowanceAmount <~
      Svc.call (EvContractAllowance tk account spender)
               (contract_allowance B tk account spender) ;;
    Svc.ret (Build_TokenAllowance account tk spender allowanceAmount)
  else
    let zapProtocol := zapProtocolOf vault in
    zapInApprovalState <~
      Svc.call (EvZapInApprovalState account tk zapProtocol)
               (zapper_zapInApprovalState B account tk zapProtocol) ;;
    Svc.ret (Build_TokenAllowance (zs_ownerAddress zapInApprovalState) tk
                                  (zs_spenderAddress zapInApprovalState)
                                  (zs_allowance zapInApprovalState)).

(** What an approval returns: the transaction that was sent, or a flag. *)
Inductive Approval : Type :=
| Sent (tx : TransactionResponse)
| Flag (b : bool).

(** [new BigNumber(gasPrice.fast).times(new BigNumber(10 ** 9))] *)
Definition gasPriceFastGwei (fast : Decimal) : Decimal :=
  BN.multipliedBy fast (BN.of_Z (10 ^ 9)).

Definition approveDeposit (vault vaultToken tk : Address) (amt : Integer)
           (account : Address) : Svc.M (E := Event) (W := W) Approval :=
  if String.eqb EthAddress tk then Svc.ret (Flag true)
  else if String.eqb vaultToken tk then
    let spender := addressToApprove vault in
    tx <~ Svc.call (EvPopulateApprove tk account spender amt)
                   (contract_populateApprove B tk account spender amt) ;;
    r <~ Svc.call (EvSendTransaction tx) (transaction_sendTransaction B tx) ;;
    Svc.ret (Sent r)
  else
    fast <~ Svc.call EvZapperGas (zapper_gas_fast B) ;;
    let gwei := gasPriceFastGwei fast in
    let zapProtocol := zapProtocolOf vault in
    zapInApprovalState <~
      Svc.call (EvZapInApprovalState account tk zapProtocol)
               (zapper_zapInApprovalState B account tk zapProtocol) ;;
    if negb (zs_isApproved zapInApprovalState) then
      zapInApprovalParams <~
        Svc.call (EvZapInApprovalTransaction account tk gwei zapProtocol)
                 (zapper_zapInApprovalTransaction B account tk gwei
                                                  zapProtocol) ;;
      let transaction :=
        ZapApproval (zp_to zapInApprovalParams) (zp_from zapInApprovalParams)
                    (zp_gasPrice zapInApprovalParams)
                    (zp_data zapInApprovalParams) in
      r <~ Svc.call (EvSignerSendTransaction account transaction)
                    (signer_sendTransaction B account transaction) ;;
      Svc.ret (Sent r)
    else Svc.ret (Flag true).

(** [approveZapOut(vault, token, account)], of both revisions; [vaultToken]
    is [vault.token]. *)
Definition approveZapOut (vaultToken tk account : Address)
  : Svc.M (E := Event) (W := W) Approval :=
  if String.eqb vaultToken tk then
    fast <~ Svc.call EvZapperGas (zapper_gas_fast B) ;;
    let gwei := gasPriceFastGwei fast in
    let sellToken := tk in
    zapOutApprovalState <~
      Svc.call (EvZapOutApprovalState account sellToken)
               (zapper_zapOutApprovalState B account sellToken) ;;
    if negb (zs_isApproved zapOutApprovalState) then
      zapOutApprovalParams <~
        Svc.call (EvZapOutApprovalTransaction account sellToken gwei)
                 (zapper_zapOutApprovalTransaction B account sellToken gwei) ;;
      let transaction :=
        ZapApproval (zp_to zapOutApprovalParams)
                    (zp_from zapOutApprovalParams)
                    (zp_gasPrice zapOutApprovalParams)
                    (zp_data zapOutApprovalParams) in
      r <~ Svc.call (EvSignerSendTransaction account transaction)
                    (signer_sendTransaction B account transaction) ;;
      Svc.ret (Sent r)
    else Svc.ret (Flag false)
  else Svc.ret (Flag false).

End Interface.
End TokenInterface.

(** A scripted backend for the token interface: every collaborator answers
    from a script, and the world counts the requests. *)

Module TokenFixture.

Record Script : Type := {
  cache : option (list TokenInterface.Token);
  zapperTokens : Result (list TokenInterface.Token);
  icons : Result (list (Address * option string));
  vaultsTokens : list TokenInterface.Token;
  ironBankTokens : list TokenInterface.Token;
  zapperBalances : Result (list TokenInterface.Balance);
  vaultsBalances : list TokenInterface.Balance;
  ironBankBalances : list TokenInterface.Balance;
  allowed : Integer;
  approved : bool
}.

Definition World := nat.

Definition answer {A} (r : Result A) (w : World) : Result A * World :=
  (r, S w).

Definition approvalState (sc : Script) (account : Address)
  : TokenInterface.ZapApprovalState :=
  TokenInterface.Build_ZapApprovalState (approved sc) account "0x2a9"
                                        (allowed sc).

Definition backend (sc : Script) : TokenInterface.Backend World := {|
  TokenInterface.cachedFetcherSupported_fetch := answer (Ok (cache sc));
  TokenInterface.zapper_supportedTokens := answer (zapperTokens sc);
  TokenInterface.asset_icon := fun _ => answer (icons sc);
  TokenInterface.vaults_tokens := answer (Ok (vaultsTokens sc));
  TokenInterface.ironBank_tokens := answer (Ok (ironBankTokens sc));
  TokenInterface.zapper_balances := fun _ => answer (zapperBalances sc);
  TokenInterface.vaults_balances := fun _ => answer (Ok (vaultsBalances sc));
  TokenInterface.ironBank_balances := fun _ =>
    answer (Ok (ironBankBalances sc));
  TokenInterface.oracle_getPriceUsdc := fun _ => answer (Ok 1000000);
  TokenInterface.contract_allowance := fun _ _ _ => answer (Ok (allowed sc));
  TokenInterface.contract_populateApprove := fun tk _ sp amt =>
    answer (Ok (TokenInterface.ApproveCall tk sp amt));
  TokenInterface.transaction_sendTransaction := fun _ =>
    answer (Ok (TokenInterface.Build_TransactionResponse "0xabc"));
  TokenInterface.signer_sendTransaction := fun _ _ =>
    answer (Ok (TokenInterface.Build_TransactionResponse "0xdef"));
  TokenInterface.zapper_gas_fast := answer (Ok (BN.of_Z 52));
  TokenInterface.zapper_zapInApprovalState := fun account _ _ =>
    answer (Ok (approvalState sc account));
  TokenInterface.zapper_zapInApprovalTransaction := fun account tk _ _ =>
    answer (Ok (TokenInterface.Build_ZapApprovalParams "0x2a9" account 7
                                                       "approve"));
  TokenInterface.zapper_zapOutApprovalState := fun account _ =>
    answer (Ok (approvalState sc account));
  TokenInterface.zapper_zapOutApprovalTransaction := fun account tk _ =>
    answer (Ok (TokenInterface.Build_ZapApprovalParams "0x2a9" account 7
                                                       "approve"));
  TokenInterface.cachedFetcher_fetch := answer (Ok None);
  TokenInterface.meta_tokens := answer (Ok [])
|}.

Definition token (a : Address) (src : TokenInterface.DataSource)
  : TokenInterface.Token :=
  TokenInterface.Build_Token a a a 18 1000000 None [] src.

Definition balance (a : Address) (n : Integer) : TokenInterface.Balance :=
  TokenInterface.Build_Balance a n (2 * n) 2.

(** The vault registry lists DAI; zapper lists DAI and USDC, and has an
    icon for USDC; the account holds DAI in a vault and USDC and WETH
    according to zapper. *)
Definition mainnet : Script := {|
  cache := None;
  zapperTokens := Ok [token Fixture.dai TokenInterface.zapper;
                      token Fixture.usdc TokenInterface.zapper];
  icons := Ok [(Fixture.usdc, Some "usdc.png")];
  vaultsTokens := [token Fixture.dai TokenInterface.vaults];
  ironBankTokens := [];
  zapperBalances := Ok [balance Fixture.usdc 5; balance Fixture.weth 1];
  vaultsBalances := [balance Fixture.dai 10; balance Fixture.yvDai 0];
  ironBankBalances := [];
  allowed := 5000;
  approved := true
|}.

(** The same with zapper out of service. *)
Definition zapper_down : Script := {|
  cache := None;
  zapperTokens := Err (Rejected "503");
  icons := icons mainnet;
  vaultsTokens := vaultsTokens mainnet;
  ironBankTokens := ironBankTokens mainnet;
  zapperBalances := Err (Rejected "503");
  vaultsBalances := vaultsBalances mainnet;
  ironBankBalances := ironBankBalances mainnet;
  allowed := 5000;
  approved := true
|}.

End TokenFixture.

(** ** [ZapperService] ([services/zapper.ts]) *)

Module ZapperService.

(** An asset as the zapper API reports it: a record of strings. *)
Record RawAsset : Type := {
  ra_address : string;
  ra_symbol : string;
  ra_decimals : string;
  ra_balanceRaw : string;
  ra_balanceUSD : string;
  ra_price : string
}.

Record Product : Type := { assets : list RawAsset }.

Record ERC20 : Type := {
  e_address : Address;
  e_name : string;
  e_symbol : string;
  e_decimals : string
}.

Record Balance : Type := {
  address : Address;
  token : ERC20;
  balance : string;
  balanceUsdc : string;
  priceUsdc : string
}.

(** A value of the [balances] object: what the API sent for an address, or
    the balances the service put in its place. *)
Inductive Entry : Type :=
| Raw (products : list Product)
| Mapped (balances : list Balance).

(** A JavaScript object with string keys, in insertion order. *)
Definition Obj := list (string * Entry).

Definition keys (o : Obj) : list string := map fst o.

(** [o[k]] *)
Fixpoint get (k : string) (o : Obj) : option Entry :=
  match o with
  | [] => None
  | (k', v) :: rest => if String.eqb k' k then Some v else get k rest
  end.

(** [delete o[k]] *)
Fixpoint delete (k : string) (o : Obj) : Obj :=
  match o with
  | [] => []
  | (k', v) :: rest =>
      if String.eqb k' k then delete k rest else (k', v) :: delete k rest
  end.

(** [o[k] = v]: an existing key keeps its place, a new key comes last. *)
Fixpoint set (k : string) (v : Entry) (o : Obj) : Obj :=
  match o with
  | [] => [(k, v)]
  | (k', v') :: rest =>
      if String.eqb k' k then (k, v) :: rest else (k', v') :: set k v rest
  end.

(** [array.map(f)] for an [f] that may throw. *)
Fixpoint mapM {A C} (f : A -> Result C) (l : list A) : Result (list C) :=
  match l with
  | [] => Ok []
  | x :: rest =>
      match f x with
      | Err e => Err e
      | Ok y =>
          match mapM f rest with
          | Err e => Err e
          | Ok ys => Ok (y :: ys)
          end
      end
  end.

(** [addresses.join()] *)
Fixpoint join (l : list string) : string :=
  match l with
  | [] => EmptyString
  | [x] => x
  | x :: rest => (x ++ "," ++ join rest)%string
  end.

Inductive Event : Type :=
| EvFetchBalances (addresses : string).

Section Service.
Context {W : Type}.

(** The zapper API, and what the service imports from outside the sources:
    [EthAddress], [ZeroAddress] and [usdc] of [helpers], and ethers'
    [getAddress], which throws on a malformed address. *)
Context (fetch_balances : string -> W -> Result Obj * W)
        (EthAddress ZeroAddress : Address)
        (usdc : string -> string)
        (getAddress : string -> Result Address).

Definition toBalance (b : RawAsset) : Result Balance :=
  match (if String.eqb (ra_address b) ZeroAddress then Ok EthAddress
         else getAddress (ra_address b)) with
  | Err e => Err e
  | Ok address =>
      Ok (Build_Balance address
            (Build_ERC20 address (ra_symbol b) (ra_symbol b) (ra_decimals b))
            (ra_balanceRaw b) (usdc (ra_balanceUSD b)) (usdc (ra_price b)))
  end.

Definition undefined_property : Error :=
  TypeError "Cannot read properties of undefined".

(** The body of the [forEach] for one key of the object. *)
Definition rekey (address : string) (balances : Obj) : Result Obj :=
  match get address balances with
  | Some (Raw (product :: _)) =>
      let copy := assets product in
      let balances := delete address balances in
      match getAddress address with
      | Err e => Err e
      | Ok key =>
          match mapM toBalance copy with
          | Err e => Err e
          | Ok mapped => Ok (set key (Mapped mapped) balances)
          end
      end
  | Some (Raw []) | Some (Mapped _) | None => Err undefined_property
  end.

(** [keys.forEach(rekey)]: the keys are those the object had at first. *)
Fixpoint forEach (ks : list string) (balances : Obj) : Result Obj :=
  match ks with
  | [] => Ok balances
  | k :: rest =>
      match rekey k balances with
      | Err e => Err e
      | Ok balances' => forEach rest balances'
      end
  end.

(** The answer for one address, or for a list of addresses. *)
Inductive Answer : Type :=
| One (entry : option Entry)
| Many (map : Obj).

Definition balances (addresses : Address + list Address)
  : Svc.M (E := Event) (W := W) Answer :=
  let param :=
    match addresses with
    | inr l => join l
    | inl a => a
    end in
  balances <~ Svc.call (EvFetchBalances param) (fetch_balances param) ;;
  balances <~ Svc.lift (forEach (keys balances) balances) ;;
  match addresses with
  | inl a => Svc.ret (One (get a balances))
  | inr _ => Svc.ret (Many balances)
  end.

End Service.
End ZapperService.

(** ** [FeesInterface] ([interfaces/fees.ts]) *)

Module FeesInterface.

(** The response of the subgraph; every level may be missing.  An amount
    is the decimal notation of an integer. *)
Record Transfer : Type := { tokenAmountUsdc : option Integer }.
Record Data : Type := { transfers : option (list Transfer) }.
Record FeesResponse : Type := { data : option Data }.

Inductive Event : Type :=
| EvFetchQuery (query : string) (sinceDate : string).

Definition BigZero : BN.t := BN.of_Z 0.

Section Interface.
Context {W : Type}.

(** [subgraph.fetchQuery], and the query text of
    [services/subgraph/queries]. *)
Context (subgraph_fetchQuery :
           string -> string -> W -> Result (option FeesResponse) * W)
        (PROTOCOL_FEES : string).

(** [since] is the date in milliseconds. *)
Definition protocolFees (since : Z) : Svc.M (E := Event) (W := W) Usdc :=
  let sinceDate := show_Z since in
  response <~ Svc.call (EvFetchQuery PROTOCOL_FEES sinceDate)
                       (subgraph_fetchQuery PROTOCOL_FEES sinceDate) ;;
  let result := BigZero in
  match response with
  | None => Svc.ret (BN.toFixed0 result)
  | Some r =>
      match data r with
      | None => Svc.ret (BN.toFixed0 result)
      | Some d =>
          match transfers d with
          | None => Svc.ret (BN.toFixed0 result)
          | Some transfers =>
              Svc.ret
                (BN.toFixed0
                   (fold_left
                      (fun prev current =>
                         BN.plus prev
                           (BN.of_Z
                              match tokenAmountUsdc current with
                              | Some a => a
                              | None => 0
                              end))
                      transfers result))
          end
      end
  end.

End Interface.
End FeesInterface.

(** ** [PickleService] ([services/partners/pickle.ts]) *)

Module PickleService.

Definition HourInMilliseconds : Z := 1000 * 60 * 60.

Record JarDatum : Type := {
  liquidity_locked : number;
  jarAddress : Address;
  tokens : number
}.

(** The private state of the service.  A price is kept as the quotient the
    service computed; dates are milliseconds. *)
Record State : Type := {
  pickleJarUSDPrices : list (Address * number);
  lastFetchedDate : Z
}.

(** [new Map()] and [new Date(0)] *)
Definition initial : State := Build_State [] 0.

(** [map.get(k)] *)
Fixpoint Map_get (k : Address) (m : list (Address * number)) : option number :=
  match m with
  | [] => None
  | (k', v) :: rest => if String.eqb k' k then Some v else Map_get k rest
  end.

(** [map.set(k, v)]: an existing key keeps its place. *)
Fixpoint Map_set (k : Address) (v : number) (m : list (Address * number))
  : list (Address * number) :=
  match m with
  | [] => [(k, v)]
  | (k', v') :: rest =>
      if String.eqb k' k then (k, v) :: rest else (k', v') :: Map_set k v rest
  end.

Inductive Event : Type :=
| EvDateNow
| EvFetchPools.

Section Service.
Context {W : Type}.

(** The clock, the pickle API, and what comes from outside the sources:
    ethers' [getAddress] (it throws on a malformed address), [usdc] of
    [helpers], and the decimal printed by [new BigNumber(n).toFixed(0)]
    for a number [n]. *)
Context (Date_now : W -> Z * W)
        (fetch_pools : W -> Result (list JarDatum) * W)
        (getAddress : Address -> Result Address)
        (usdc : option string -> string)
        (toFixed0 : number -> string).

(** The service runs on its own state and the world. *)
Definition M (A : Type) : Type := Svc.M (E := Event) (W := State * W) A.

Definition clock : M Z :=
  Svc.call EvDateNow
           (fun sw => match Date_now (snd sw) with
                      | (now, w) => (Ok now, (fst sw, w))
                      end).

Definition fetch : M (list JarDatum) :=
  Svc.call EvFetchPools
           (fun sw => match fetch_pools (snd sw) with
                      | (r, w) => (r, (fst sw, w))
                      end).

Definition getState : M State := fun sw => (Ok (fst sw), sw, []).

Definition modify (f : State -> State) : M unit :=
  fun sw => (Ok tt, (f (fst sw), snd sw), []).

(** [jarData.filter(jar => PickleJars.includes(getAddress(jar.jarAddress)))] *)
Fixpoint relevant (jarData : list JarDatum) : Result (list JarDatum) :=
  match jarData with
  | [] => Ok []
  | jar :: rest =>
      match getAddress (jarAddress jar) with
      | Err e => Err e
      | Ok a =>
          match relevant rest with
          | Err e => Err e
          | Ok l => Ok (if includes_address V1.PickleJars a then jar :: l else l)
          end
      end
  end.

(** The loop over the relevant jars. *)
Fixpoint setPrices (jars : list JarDatum) : M unit :=
  match jars with
  | [] => Svc.ret tt
  | jarDatum :: rest =>
      let usdPrice :=
        PrimFloat.div (liquidity_locked jarDatum) (tokens jarDatum) in
      key <~ Svc.lift (getAddress (jarAddress jarDatum)) ;;
      modify (fun st => Build_State
                          (Map_set key usdPrice (pickleJarUSDPrices st))
                          (lastFetchedDate st)) ;;~
      setPrices rest
  end.

Definition fetchPickleJarPrices : M unit :=
  jarData <~ fetch ;;
  modify (fun st => Build_State [] (lastFetchedDate st)) ;;~
  now <~ clock ;;
  modify (fun st => Build_State (pickleJarUSDPrices st) now) ;;~
  relevantJars <~ Svc.lift (relevant jarData) ;;
  setPrices relevantJars.

(** [usdc(price?.toFixed(0)) || "0"] *)
Definition priceOf (st : State) (jar : Address) : string :=
  let s := usdc (option_map toFixed0 (Map_get jar (pickleJarUSDPrices st))) in
  if nonempty s then s else "0".

Definition getPriceUsdc (jar : Address) : M string :=
  now <~ clock ;;
  let oneHourAgo := now - HourInMilliseconds in
  st <~ getState ;;
  (if lastFetchedDate st <? oneHourAgo then fetchPickleJarPrices
   else Svc.ret tt) ;;~
  st <~ getState ;;
  Svc.ret (priceOf st jar).

End Service.
End PickleService.

(** ** The resolver of v2 vaults ([vault/resolver/v2.ts]) *)

Module VaultResolver.

Record Strategy : Type := {
  name : string;
  address : Address
}.

(** A resolved vault: the basic fields (resolved outside the sources), and
    those specific to v2. *)
Record VaultV2 (Basic : Type) : Type := {
  basic : Basic;
  emergencyShutdown : bool;
  strategies : list Strategy
}.
Arguments Build_VaultV2 {Basic}.
Arguments basic {Basic}.
Arguments emergencyShutdown {Basic}.
Arguments strategies {Basic}.

Inductive Event : Type :=
| EvResolveBasic (vault : Address)
| EvEmergencyShutdown (vault : Address)
| EvWithdrawalQueue (vault : Address) (i : nat)
| EvStrategyName (strategy : Address).

Section Resolver.
Context {W Basic : Type}.

Context (resolveBasic : Address -> W -> Result Basic * W)
        (vault_emergencyShutdown : Address -> W -> Result bool * W)
        (vault_withdrawalQueue : Address -> nat -> W -> Result Address * W)
        (strategy_name : Address -> W -> Result string * W)
        (NullAddress : Address).

Definition resolveStrategy (a : Address)
  : Svc.M (E := Event) (W := W) Strategy :=
  n <~ Svc.call (EvStrategyName a) (strategy_name a) ;;
  Svc.ret (Build_Strategy n a).

(** The [do ... while] over the withdrawal queue, from index [i] with the
    addresses read so far.  The loop ends at the first [NullAddress]; it
    has no bound of its own, and [fuel] bounds the number of reads ([None]
    when it runs out). *)
Fixpoint readQueue (fuel : nat) (vault : Address) (i : nat)
         (strategyAddresses : list Address)
  : Svc.M (E := Event) (W := W) (option (list Address)) :=
  match fuel with
  | O => Svc.ret None
  | S fuel' =>
      strategyAddress <~ Svc.call (EvWithdrawalQueue vault i)
                                  (vault_withdrawalQueue vault i) ;;
      let strategyAddresses := strategyAddresses ++ [strategyAddress] in
      if negb (String.eqb strategyAddress NullAddress)
      then readQueue fuel' vault (S i) strategyAddresses
      else Svc.ret (Some strategyAddresses)
  end.

Definition resolveV2 (fuel : nat) (a : Address)
  : Svc.M (E := Event) (W := W) (option (VaultV2 Basic)) :=
  b <~ Svc.call (EvResolveBasic a) (resolveBasic a) ;;
  specific <~ Svc.call (EvEmergencyShutdown a) (vault_emergencyShutdown a) ;;
  queue <~ readQueue fuel a 0 [] ;;
  match queue with
  | None => Svc.ret None
  | Some strategyAddresses =>
      (* [strategyAddresses.pop()] *)
      let strategyAddresses := removelast strategyAddresses in
      strategies <~ Svc.all (map resolveStrategy strategyAddresses) ;;
      Svc.ret (Some (Build_VaultV2 b specific strategies))
  end.

End Resolver.
End VaultResolver.

(** ** [MetaService] (yearn-meta) *)

Module MetaService.

Definition MetaURL : string := "https://meta.yearn.network".
Definition CHAIN_ID_KEY : string := "{chain_id}".

(** [s.replace(pattern, replacement)] for a pattern that is a non-empty
    string: the first occurrence is replaced. *)
Fixpoint drop (n : nat) (s : string) : string :=
  match n, s with
  | O, _ => s
  | S n', String _ r => drop n' r
  | S _, EmptyString => EmptyString
  end.

Fixpoint replace (pat rep s : string) : string :=
  if String.prefix pat s then (rep ++ drop (String.length pat) s)%string
  else
    match s with
    | EmptyString => EmptyString
    | String c r => String c (replace pat rep r)
    end.

(** A parsed JSON value; numbers and booleans are not looked into. *)
#[warnings="-register-all"] Inductive Json : Type :=
| JNull
| JString (s : string)
| JArray (items : list Json)
| JObject (fields : list (string * Json))
| JOther (text : string).

Fixpoint field (k : string) (fields : list (string * Json)) : option Json :=
  match fields with
  | [] => None
  | (k', v) :: rest => if String.eqb k' k then Some v else field k rest
  end.

Definition undefined_property : Error :=
  TypeError "Cannot read properties of undefined".

(** [value.key] where [value] may be [undefined]: reading a property of
    [undefined] or [null] throws; a value that is not an object has none of
    the properties read here. *)
Definition prop (k : string) (value : option Json) : Result (option Json) :=
  match value with
  | None | Some JNull => Err undefined_property
  | Some (JObject fields) => Ok (field k fields)
  | Some _ => Ok None
  end.

Record TokenMetadata : Type := {
  address : Address;
  categories : option Json;
  description : option Json;
  website : option Json
}.

Inductive Event : Type :=
| EvFetch (url : string).

Section Service.
Context {W : Type}.

(** [fetch(url).then(res => res.json())], and the chain of the service. *)
Context (fetch_json : string -> W -> Result Json * W) (chainId : Z).

Definition buildUrl (path : string) : string :=
  replace CHAIN_ID_KEY (show_Z chainId) (MetaURL ++ "/" ++ path)%string.

Definition fetchMetadataItem (url : string)
  : Svc.M (E := Event) (W := W) (option Json) :=
  Svc.catch (j <~ Svc.call (EvFetch url) (fetch_json url) ;; Svc.ret (Some j))
            (fun _ => Svc.ret None).

Definition token (a : Address) : Svc.M (E := Event) (W := W) TokenMetadata :=
  metadata <~
    fetchMetadataItem
      (buildUrl ("tokens/" ++ CHAIN_ID_KEY ++ "/" ++ a)%string) ;;
  c <~ Svc.lift (prop "categories" metadata) ;;
  d <~ Svc.lift (prop "description" metadata) ;;
  w <~ Svc.lift (prop "website" metadata) ;;
  Svc.ret (Build_TokenMetadata a c d w).

(** [filesRes.files.filter(file => !file.startsWith("0x"))] *)
Fixpoint namedFiles (files : list Json) : Result (list string) :=
  match files with
  | [] => Ok []
  | JString file :: rest =>
      match namedFiles rest with
      | Err e => Err e
      | Ok l => Ok (if negb (String.prefix "0x" file) then file :: l else l)
      end
  | _ :: _ => Err (TypeError "file.startsWith is not a function")
  end.

Definition strategies : Svc.M (E := Event) (W := W) (list Json) :=
  let url := buildUrl "strategies/index" in
  filesRes <~ Svc.call (EvFetch url) (fetch_json url) ;;
  files <~ Svc.lift
             (match prop "files" (Some filesRes) with
              | Err e => Err e
              | Ok (Some (JArray files)) => namedFiles files
              | Ok _ => Err (TypeError "filesRes.files.filter is not a function")
              end) ;;
  Svc.all (map (fun file =>
                  let url := (MetaURL ++ "/strategies/" ++ file)%string in
                  Svc.call (EvFetch url) (fetch_json url))
               files).

End Service.
End MetaService.

(** * Properties *)

(** ** Reasoning about runs *)

Section Laws.
Context {W : Type}.

Lemma bind_Ok {A B} (m : M W A) (k : A -> M W B) s a s1 t1 :
  m s = (Ok a, s1, t1) ->
  bind m k s = (result_of (k a s1), state_of (k a s1),
                t1 ++ trace_of (k a s1)).
Proof.
  intros H. unfold bind, result_of, state_of, trace_of. rewrite H.
  destruct (k a s1) as [[r s2] t2]. reflexivity.
Qed.

Lemma bind_Err {A B} (m : M W A) (k : A -> M W B) s e s1 t1 :
  m s = (Err e, s1, t1) -> bind m k s = (Err e, s1, t1).
Proof. intros H. unfold bind. rewrite H. reflexivity. Qed.

Lemma run_eta {A} (x : Result A * State W * Trace) :
  x = (result_of x, state_of x, trace_of x).
Proof. destruct x as [[r s] t]. reflexivity. Qed.

(** [ensures m P]: every value [m] returns satisfies [P]. *)
Definition ensures {A} (m : M W A) (P : A -> Prop) : Prop :=
  forall s a s' t, m s = (Ok a, s', t) -> P a.

Lemma ensures_ret {A} (a : A) (P : A -> Prop) : P a -> ensures (ret a) P.
Proof. intros H s a' s' t E. inversion E. subst. exact H. Qed.

Lemma ensures_throw {A} (e : Error) (P : A -> Prop) : ensures (throw e) P.
Proof. intros s a s' t E. discriminate E. Qed.

Lemma ensures_bind {A B} (m : M W A) (k : A -> M W B) (P : B -> Prop) :
  (forall a, ensures (k a) P) -> ensures (bind m k) P.
Proof.
  intros H s b s' t E. unfold bind in E.
  destruct (m s) as [[[a|e] s1] t1]; [|discriminate E].
  destruct (k a s1) as [[r s2] t2] eqn:K.
  inversion E; subst. eapply H; eassumption.
Qed.

Lemma ensures_catch {A} (m : M W A) (h : Error -> M W A) (P : A -> Prop) :
  ensures m P -> (forall e, ensures (h e) P) -> ensures (catch m h) P.
Proof.
  intros Hm Hh s a s' t E. unfold catch in E.
  destruct (m s) as [[[x|e] s1] t1] eqn:R.
  - inversion E; subst. eapply Hm; eassumption.
  - destruct (h e s1) as [[r s2] t2] eqn:K.
    inversion E; subst. eapply Hh; eassumption.
Qed.

Lemma ensures_orThrow {A} (m : M W A) (e : Error) (P : A -> Prop) :
  ensures m P -> ensures (orThrow m e) P.
Proof.
  intros H. apply ensures_catch; [exact H|]. intros e'. apply ensures_throw.
Qed.

(** Whatever the resilience wrapper returns was returned by the producer. *)
Lemma ensures_executeSimulation {A} (B : Backend W)
      (simulate : bool -> M W A) (fork : option string) (P : A -> Prop) :
  (forall sv, ensures (simulate sv) P) ->
  ensures (executeSimulationWithReSimulationOnFailure B simulate fork) P.
Proof.
  intros H. unfold executeSimulationWithReSimulationOnFailure.
  apply ensures_catch; [apply H|].
  intros e. apply ensures_bind. intros f. apply H.
Qed.

(** [ensures_at m s P]: the same for the run of [m] from [s]. *)
Definition ensures_at {A} (m : M W A) (s : State W) (P : A -> Prop) : Prop :=
  forall a s' t, m s = (Ok a, s', t) -> P a.

Lemma ensures_everywhere {A} (m : M W A) (P : A -> Prop) s :
  ensures m P -> ensures_at m s P.
Proof. intros H a s' t E. eapply H; eassumption. Qed.

Lemma ensures_at_bind {A B} (m : M W A) (k : A -> M W B) s (P : B -> Prop) :
  (forall a s1 t1, m s = (Ok a, s1, t1) -> ensures_at (k a) s1 P) ->
  ensures_at (bind m k) s P.
Proof.
  intros H b s' t E. unfold bind in E.
  destruct (m s) as [[[a|e] s1] t1]; [|discriminate E].
  destruct (k a s1) as [[r s2] t2] eqn:K.
  inversion E; subst. eapply (H a s1 t1 eq_refl); eassumption.
Qed.

Lemma request_run {A} (ev : Event) (h : W -> Result A * W) s :
  request ev h s
  = (fst (h (world s)), mkState (snd (h (world s))) (callerOptions s), [ev]).
Proof. unfold request. destruct (h (world s)). reflexivity. Qed.

Lemma request_Ok {A} (ev : Event) (h : W -> Result A * W) s a s1 t1 :
  request ev h s = (Ok a, s1, t1) ->
  h (world s) = (Ok a, world s1)
  /\ callerOptions s1 = callerOptions s /\ t1 = [ev].
Proof.
  rewrite request_run. destruct (h (world s)) as [r w]. simpl.
  intros E. inversion E; subst. auto.
Qed.

Lemma orThrow_Ok {A} (m : M W A) (e : Error) s a s1 t1 :
  orThrow m e s = (Ok a, s1, t1) -> m s = (Ok a, s1, t1).
Proof.
  unfold orThrow, catch, throw.
  destruct (m s) as [[[x|e'] s'] t']; intros E; [exact E|].
  simpl in E. discriminate E.
Qed.

(** [emits m P]: every request [m] issues satisfies [P]. *)
Definition emits {A} (m : M W A) (P : Event -> Prop) : Prop :=
  forall s, Forall P (trace_of (m s)).

Lemma emits_ret {A} (a : A) P : emits (ret a) P.
Proof. intros s. constructor. Qed.

Lemma emits_throw {A} (e : Error) P : emits (@throw W A e) P.
Proof. intros s. constructor. Qed.

Lemma emits_getOptions P : emits (@getOptions W) P.
Proof. intros s. constructor. Qed.

Lemma emits_modifyOptions f P : emits (@modifyOptions W f) P.
Proof. intros s. constructor. Qed.

Lemma emits_request {A} ev (h : W -> Result A * W) (P : Event -> Prop) :
  P ev -> emits (request ev h) P.
Proof.
  intros H s. rewrite request_run. cbn. constructor; [exact H|constructor].
Qed.

Lemma emits_bind {A B} (m : M W A) (k : A -> M W B) P :
  emits m P -> (forall a, emits (k a) P) -> emits (bind m k) P.
Proof.
  intros Hm Hk s. specialize (Hm s). unfold bind.
  destruct (m s) as [[[a|e] s1] t1]; cbn in *; [|exact Hm].
  specialize (Hk a s1). destruct (k a s1) as [[r s2] t2]. cbn in *.
  apply Forall_app. split; assumption.
Qed.

Lemma emits_catch {A} (m : M W A) (h : Error -> M W A) P :
  emits m P -> (forall e, emits (h e) P) -> emits (catch m h) P.
Proof.
  intros Hm Hh s. specialize (Hm s). unfold catch.
  destruct (m s) as [[[a|e] s1] t1]; cbn in *; [exact Hm|].
  specialize (Hh e s1). destruct (h e s1) as [[r s2] t2]. cbn in *.
  apply Forall_app. split; assumption.
Qed.

Lemma emits_orThrow {A} (m : M W A) (e : Error) P :
  emits m P -> emits (orThrow m e) P.
Proof. intros H. apply emits_catch; [exact H|]. intros e'. apply emits_throw. Qed.

Lemma emits_Promise_all2 {A B} (a : M W A) (b : M W B) P :
  emits a P -> emits b P -> emits (Promise_all2 a b) P.
Proof.
  intros Ha Hb s. specialize (Ha s). unfold Promise_all2.
  destruct (a s) as [[ra s1] t1]. specialize (Hb s1).
  destruct (b s1) as [[rb s2] t2]. cbn in *.
  apply Forall_app. split; assumption.
Qed.

Lemma emits_Promise_all3 {A B C} (a : M W A) (b : M W B) (c : M W C) P :
  emits a P -> emits b P -> emits c P -> emits (Promise_all3 a b c) P.
Proof.
  intros Ha Hb Hc s. pose proof (emits_Promise_all2 a b P Ha Hb s) as Hab.
  unfold Promise_all3. destruct (Promise_all2 a b s) as [[rab s1] t1].
  specialize (Hc s1). destruct (c s1) as [[rc s2] t2]. cbn in *.
  apply Forall_app. split; assumption.
Qed.

Lemma emits_executeSimulation {A} (B : Backend W) (simulate : bool -> M W A)
      (fork : option string) P :
  P EvCreateFork -> (forall sv, emits (simulate sv) P) ->
  emits (executeSimulationWithReSimulationOnFailure B simulate fork) P.
Proof.
  intros Hf H. unfold executeSimulationWithReSimulationOnFailure.
  apply emits_catch; [apply H|]. intros e.
  apply emits_bind; [|intros f; apply H].
  apply emits_request. exact Hf.
Qed.

Lemma emits_weaken {A} (m : M W A) (P Q : Event -> Prop) :
  (forall ev, P ev -> Q ev) -> emits m P -> emits m Q.
Proof.
  intros H Hm s. eapply Forall_impl; [exact H|apply Hm].
Qed.

End Laws.

Create HintDb requests.

#[global] Hint Unfold vaultContract_token vaultContract_decimals
  vaultContract_pricePerShare getDynamic findByAddress allowance
  zapInApprovalState zapInApprovalTransaction zapOutApprovalState
  zapOutApprovalTransaction zapper_zapIn_request zapper_zapOut_request
  getNormalizedValueUsdc getPriceUsdc createFork makeSimulationRequest
  simulateVaultInteraction legacy_simulate : requests.

(** One step of the proof that a program only issues requests of a kind:
    follow the structure of the program. *)
Ltac emits_step :=
  lazymatch goal with
  | |- emits (bind _ _) _ => apply emits_bind; [|intros ?]
  | |- emits (ret _) _ => apply emits_ret
  | |- emits (throw _) _ => apply emits_throw
  | |- emits (orThrow _ _) _ => apply emits_orThrow
  | |- emits (catch _ _) _ => apply emits_catch; [|intros ?]
  | |- emits (Promise_all2 _ _) _ => apply emits_Promise_all2
  | |- emits (Promise_all3 _ _ _) _ => apply emits_Promise_all3
  | |- emits getOptions _ => apply emits_getOptions
  | |- emits (modifyOptions _) _ => apply emits_modifyOptions
  | |- emits (request _ _) _ => apply emits_request
  | |- emits (executeSimulationWithReSimulationOnFailure _ _ _) _ =>
      apply emits_executeSimulation; [|intros ?]
  | |- emits (match ?x with _ => _ end) _ => destruct x
  | |- emits (let _ := _ in _) _ => cbv zeta
  end.

(** Reduce the bookkeeping of a run once a request has been answered. *)
Ltac exec := cbn [world callerOptions negb fst snd].

Ltac emits_auto := autounfold with requests; repeat emits_step.

(** ** Direct transfers: conversion rate 1, slippage 0 *)

Definition unit_rate (o : TransactionOutcome) : Prop :=
  conversionRate o = 1%float /\ slippage o = 0%float.

Section DirectRate.
Context {W : Type} (B : Backend W) (cfg : Config).

Lemma V2_directDeposit_unit_rate d vc :
  ensures (V2.directDeposit B cfg d vc) unit_rate.
Proof.
  unfold V2.directDeposit.
  destruct (V2.getEncodedInputData cfg vc (V2.amount d) (V2.toVault d)).
  - repeat (apply ensures_bind; intros ?).
    apply ensures_ret. split; reflexivity.
  - apply ensures_throw.
Qed.

Lemma V2_directWithdraw_unit_rate f t a v :
  ensures (V2.directWithdraw B f t a v) unit_rate.
Proof.
  unfold V2.directWithdraw.
  repeat (apply ensures_bind; intros ?).
  apply ensures_ret. split; reflexivity.
Qed.

Lemma V1_directDeposit_unit_rate f sl a v vc :
  ensures (V1.directDeposit B f sl a v vc) unit_rate.
Proof.
  unfold V1.directDeposit.
  repeat (apply ensures_bind; intros ?).
  apply ensures_ret. split; reflexivity.
Qed.

Lemma V2_handleDirect_unit_rate d vc :
  ensures (V2.handleDirectSimulationDeposit B cfg d vc) unit_rate.
Proof.
  unfold V2.handleDirectSimulationDeposit.
  apply ensures_bind. intros ad.
  apply ensures_executeSimulation. intros sv.
  apply V2_directDeposit_unit_rate.
Qed.

Lemma V2_withdraw_direct_unit_rate f v a t s u w1 :
  vault_token B v (world s) = (Ok u, w1) ->
  String.eqb u (getAddress cfg t) = true ->
  ensures_at (V2.withdraw B cfg f v a t) s unit_rate.
Proof.
  intros Hu Heq. unfold V2.withdraw.
  apply ensures_at_bind. intros u' s1 t1 R.
  apply request_Ok in R. destruct R as [R _].
  rewrite Hu in R. inversion R; subst u'.
  rewrite Heq. simpl.
  apply ensures_everywhere, ensures_executeSimulation. intros sv.
  unfold V2.direct_simulateWithdrawal.
  apply ensures_bind. intros _. apply V2_directWithdraw_unit_rate.
Qed.

Lemma V2_deposit_direct_unit_rate f sl a v o s dyn w1 tok w2 :
  vaults_getDynamic B v (world s) = (Ok (Some dyn), w1) ->
  tokens_findByAddress B sl w1 = (Ok (Some tok), w2) ->
  isZapInSupported (getZapInDetails cfg (Some tok) (vault_metadata dyn)) = false ->
  ensures_at (V2.deposit B cfg f sl a v o) s unit_rate.
Proof.
  intros Hd Ht Hz. unfold V2.deposit.
  apply ensures_at_bind. intros d' s1 t1 R1.
  apply request_Ok in R1. destruct R1 as [R1 _].
  rewrite Hd in R1. inversion R1; subst d'.
  apply ensures_at_bind. intros t' s2 t2 R2.
  apply request_Ok in R2. destruct R2 as [R2 _].
  rewrite <- H1 in R2. rewrite Ht in R2. inversion R2; subst t'.
  rewrite Hz.
  destruct (negb (isUnderlyingToken cfg v (token_address tok))).
  - apply ensures_everywhere, ensures_throw.
  - apply ensures_everywhere, V2_handleDirect_unit_rate.
Qed.

Lemma V1_deposit_direct_unit_rate f sl a v s w1 :
  vault_token B v (world s) = (Ok sl, w1) ->
  ensures_at (V1.deposit B cfg f sl a v) s unit_rate.
Proof.
  intros Hu. unfold V1.deposit.
  apply ensures_at_bind. intros u' s1 t1 R.
  apply orThrow_Ok, request_Ok in R. destruct R as [R _].
  rewrite Hu in R. inversion R; subst u'.
  rewrite String.eqb_refl. simpl.
  apply ensures_everywhere.
  repeat (apply ensures_bind; intros ?).
  apply ensures_executeSimulation. intros sv.
  unfold V1.direct_simulateDeposit.
  apply ensures_bind. intros _. apply V1_directDeposit_unit_rate.
Qed.

End DirectRate.

(** C1.  Every direct (non-routed) deposit or withdraw that completes
    successfully returns an outcome with [conversionRate = 1] and
    [slippage = 0], whatever the price oracle (and every other collaborator)
    answers: the statement holds for every backend.  It is stated for the
    direct producers, and for [deposit] and [withdraw] of both generations of
    the interface when the request is classified as direct. *)
Theorem direct_transfer_has_unit_rate :
  forall (W : Type) (B : Backend W) (cfg : Config),
    (forall d vc, ensures (V2.directDeposit B cfg d vc) unit_rate)
    /\ (forall f t a v, ensures (V2.directWithdraw B f t a v) unit_rate)
    /\ (forall f sl a v o s dyn w1 tok w2,
           vaults_getDynamic B v (world s) = (Ok (Some dyn), w1) ->
           tokens_findByAddress B sl w1 = (Ok (Some tok), w2) ->
           isZapInSupported
             (getZapInDetails cfg (Some tok) (vault_metadata dyn)) = false ->
           ensures_at (V2.deposit B cfg f sl a v o) s unit_rate)
    /\ (forall f v a t s u w1,
           vault_token B v (world s) = (Ok u, w1) ->
           String.eqb u (getAddress cfg t) = true ->
           ensures_at (V2.withdraw B cfg f v a t) s unit_rate)
    /\ (forall f sl a v vc, ensures (V1.directDeposit B f sl a v vc) unit_rate)
    /\ (forall f sl a v s w1,
           vault_token B v (world s) = (Ok sl, w1) ->
           ensures_at (V1.deposit B cfg f sl a v) s unit_rate).
Proof.
  intros W B cfg.
  refine (conj _ (conj _ (conj _ (conj _ (conj _ _))))); intros.
  - apply V2_directDeposit_unit_rate.
  - apply V2_directWithdraw_unit_rate.
  - eapply V2_deposit_direct_unit_rate; eassumption.
  - eapply V2_withdraw_direct_unit_rate; eassumption.
  - apply V1_directDeposit_unit_rate.
  - eapply V1_deposit_direct_unit_rate; eassumption.
Qed.

(** The scenario of the specification: a direct deposit of 1000 DAI into the
    DAI vault; the sandbox reports 950 shares, the price per share is
    1.05e18 with 18 decimals, the allowance is sufficient. *)
Definition direct_scenario : Fixture.Scenario :=
  Fixture.Build_Scenario Fixture.dai 18 1050000000000000000 5000 true 950
                         Fixture.flat_price Fixture.a_quote 0 None.

Lemma direct_transfer_has_unit_rate_witness :
  exists o s' t,
    V2.deposit (Fixture.backend direct_scenario) (Fixture.config direct_scenario)
               Fixture.alice Fixture.dai 1000 Fixture.yvDai Opt.empty
               (Fixture.initial Opt.empty) = (Ok o, s', t)
    /\ unit_rate o.
Proof.
  eexists. eexists. eexists. split.
  - vm_compute. reflexivity.
  - eapply (proj1 (proj2 (proj2
              (direct_transfer_has_unit_rate
                 Fixture.World (Fixture.backend direct_scenario)
                 (Fixture.config direct_scenario))))
              Fixture.alice Fixture.dai 1000 Fixture.yvDai Opt.empty
              (Fixture.initial Opt.empty)).
    + vm_compute. reflexivity.
    + vm_compute. reflexivity.
    + vm_compute. reflexivity.
    + vm_compute. reflexivity.
Defined.

(** ** Arithmetic of the underlying-token amount *)

Section BigNumberFacts.

Lemma pow10_nonzero n : BN.pow10 n <> 0%N.
Proof. unfold BN.pow10. apply N.pow_nonzero. discriminate. Qed.

Lemma pow10_add a b : BN.pow10 (a + b) = (BN.pow10 a * BN.pow10 b)%N.
Proof. unfold BN.pow10. rewrite Nat2N.inj_add. apply N.pow_add_r. Qed.

Lemma BN_pow_ten n : BN.pow (toBN 10) n = BN.Fin false (BN.pow10 n) 0.
Proof.
  induction n as [|n IH].
  - reflexivity.
  - cbn [BN.pow]. rewrite IH. unfold toBN, BN.of_Z.
    cbn [BN.multipliedBy Z.ltb Z.compare xorb Z.abs_N Z.abs Nat.add].
    f_equal. change (S n) with (1 + n)%nat. rewrite pow10_add. reflexivity.
Qed.

Lemma toBN_nonneg z : 0 <= z -> toBN z = BN.Fin false (Z.to_N z) 0.
Proof.
  intros H. unfold toBN, BN.of_Z.
  rewrite Zabs2N.abs_N_nonneg by exact H.
  destruct (Z.ltb_spec z 0); [lia|reflexivity].
Qed.

(** Rounding half up a multiple gives the multiple. *)
Lemma round_half_up_exact q d : d <> 0%N -> BN.round_half_up (q * d) d = q.
Proof.
  intros Hd. unfold BN.round_half_up. symmetry.
  apply N.div_unique with (r := d); lia.
Qed.

Lemma round_half_up_cancel k n d :
  k <> 0%N -> BN.round_half_up (k * n) (k * d) = BN.round_half_up n d.
Proof.
  intros Hk. unfold BN.round_half_up.
  replace (2 * (k * n) + k * d)%N with (k * (2 * n + d))%N by lia.
  replace (2 * (k * d))%N with (k * (2 * d))%N by lia.
  apply N.Div0.div_mul_cancel_l. exact Hk.
Qed.

End BigNumberFacts.

(** For a token of at most 20 decimals the division by [10^decimals] is
    exact, and the amount is [tokens * pricePerShare / 10^decimals] rounded
    to the nearest integer, a half rounding up. *)
Lemma underlying_amount_half_up tokens dcm p :
  0 <= tokens -> 0 <= p -> (dcm <= 20)%nat ->
  BN.toFixed0
    (BN.multipliedBy (BN.div (toBN tokens) (BN.pow (toBN 10) dcm)) (toBN p))
  = (2 * tokens * p + 10 ^ Z.of_nat dcm) / (2 * 10 ^ Z.of_nat dcm).
Proof.
  intros Ht Hp Hd.
  rewrite (toBN_nonneg tokens Ht), (toBN_nonneg p Hp), BN_pow_ten.
  unfold BN.div.
  destruct (N.eqb_spec (BN.pow10 dcm) 0) as [E|_];
    [exfalso; exact (pow10_nonzero dcm E)|].
  cbn [xorb]. rewrite Nat.add_0_r.
  change (BN.pow10 0) with 1%N. rewrite N.mul_1_r.
  assert (K : BN.pow10 BN.DECIMAL_PLACES
              = (BN.pow10 (BN.DECIMAL_PLACES - dcm) * BN.pow10 dcm)%N).
  { rewrite <- pow10_add. f_equal. unfold BN.DECIMAL_PLACES. lia. }
  rewrite K at 1. rewrite N.mul_assoc.
  rewrite round_half_up_exact by apply pow10_nonzero.
  cbn [BN.multipliedBy xorb BN.toFixed0 BN.signed]. rewrite Nat.add_0_r.
  rewrite K.
  replace (Z.to_N tokens * BN.pow10 (BN.DECIMAL_PLACES - dcm) * Z.to_N p)%N
    with (BN.pow10 (BN.DECIMAL_PLACES - dcm) * (Z.to_N tokens * Z.to_N p))%N
    by lia.
  rewrite round_half_up_cancel by apply pow10_nonzero.
  unfold BN.round_half_up, BN.pow10.
  rewrite N2Z.inj_div, N2Z.inj_add, !N2Z.inj_mul, N2Z.inj_pow, !Z2N.id
    by assumption.
  rewrite nat_N_Z. change (Z.of_N 2) with 2. change (Z.of_N 10) with 10.
  rewrite Z.mul_assoc. reflexivity.
Qed.

(** ** The underlying amount of a direct deposit *)

Section DirectDepositAmount.
Context {W : Type} (B : Backend W) (cfg : Config).

Lemma V2_directDeposit_run (d : V2.DepositArgs) vc s data tokens w1 usd w2
      dcm w3 p w4 :
  V2.getEncodedInputData cfg vc (V2.amount d) (V2.toVault d) = Some data ->
  executor_simulateVaultInteraction B (V2.from d)
    (V2.getActionableAddress cfg (V2.toVault d)) data (V2.toVault d)
    (V2.options d) None (world s) = (Ok tokens, w1) ->
  oracle_getNormalizedValueUsdc B (V2.toVault d) tokens w1 = (Ok usd, w2) ->
  vault_decimals B vc w2 = (Ok dcm, w3) ->
  vault_pricePerShare B vc w3 = (Ok p, w4) ->
  V2.directDeposit B cfg d vc s
  = (Ok (mkOutcome (V2.sellToken d) (V2.amount d) (V2.toVault d) tokens usd
                   (V2.toVault d)
                   (BN.toFixed0
                      (BN.multipliedBy
                         (BN.div (toBN tokens) (BN.pow (toBN 10) dcm))
                         (toBN p)))
                   1%float 0%float),
     mkState w4 (callerOptions s),
     [EvSimulateVaultInteraction (V2.from d)
        (V2.getActionableAddress cfg (V2.toVault d)) data (V2.toVault d)
        (V2.options d) None;
      EvGetNormalizedValueUsdc (V2.toVault d) tokens;
      EvVaultDecimals vc; EvVaultPricePerShare vc]).
Proof.
  intros He Hs Ho Hd Hp. unfold V2.directDeposit. rewrite He.
  unfold bind, orThrow, catch, Promise_all2, simulateVaultInteraction,
    getNormalizedValueUsdc, vaultContract_decimals,
    vaultContract_pricePerShare, request, ret.
  rewrite Hs. cbn [world callerOptions]. rewrite Ho. cbn [world callerOptions].
  rewrite Hd. cbn [world callerOptions]. rewrite Hp. reflexivity.
Qed.

Lemma V1_directDeposit_run frm sell amt vault vc s tokens w1 usd w2 dcm w3
      p w4 :
  executor_simulateVaultInteraction B frm vault (EncodeDeposit amt) vault
    (callerOptions s) None (world s) = (Ok tokens, w1) ->
  oracle_getNormalizedValueUsdc B vault tokens w1 = (Ok usd, w2) ->
  vault_decimals B vc w2 = (Ok dcm, w3) ->
  vault_pricePerShare B vc w3 = (Ok p, w4) ->
  V1.directDeposit B frm sell amt vault vc s
  = (Ok (mkOutcome sell amt vault tokens usd vault
                   (BN.toFixed0
                      (BN.multipliedBy
                         (BN.div (toBN tokens) (BN.pow (toBN 10) dcm))
                         (toBN p)))
                   1%float 0%float),
     mkState w4 (callerOptions s),
     [EvSimulateVaultInteraction frm vault (EncodeDeposit amt) vault
        (callerOptions s) None;
      EvGetNormalizedValueUsdc vault tokens;
      EvVaultDecimals vc; EvVaultPricePerShare vc]).
Proof.
  intros Hs Ho Hd Hp. unfold V1.directDeposit.
  unfold bind, orThrow, catch, Promise_all2, simulateVaultInteraction,
    getNormalizedValueUsdc, vaultContract_decimals,
    vaultContract_pricePerShare, request, ret, getOptions.
  rewrite Hs. cbn [world callerOptions]. rewrite Ho. cbn [world callerOptions].
  rewrite Hd. cbn [world callerOptions]. rewrite Hp. reflexivity.
Qed.

End DirectDepositAmount.

(** C7, as amended.  When the sandbox, the oracle and the vault contract
    answer, a direct deposit returns; its destination amount is the amount
    the sandbox reports, and its underlying amount is that amount divided by
    [10^decimals] and multiplied by the price per share, rounded to the
    nearest integer with a half rounding up (bignumber.js' default
    [ROUND_HALF_UP]), not truncated.  Stated for amounts that are not
    negative and at most 20 decimals, where the division is exact. *)
Theorem direct_deposit_underlying_amount_rounds_half_up :
  forall (W : Type) (B : Backend W) (cfg : Config),
    (forall (d : V2.DepositArgs) vc s data tokens w1 usd w2 dcm w3 p w4,
        V2.getEncodedInputData cfg vc (V2.amount d) (V2.toVault d) = Some data ->
        executor_simulateVaultInteraction B (V2.from d)
          (V2.getActionableAddress cfg (V2.toVault d)) data (V2.toVault d)
          (V2.options d) None (world s) = (Ok tokens, w1) ->
        oracle_getNormalizedValueUsdc B (V2.toVault d) tokens w1 = (Ok usd, w2) ->
        vault_decimals B vc w2 = (Ok dcm, w3) ->
        vault_pricePerShare B vc w3 = (Ok p, w4) ->
        0 <= tokens -> 0 <= p -> (dcm <= 20)%nat ->
        exists o s' t,
          V2.directDeposit B cfg d vc s = (Ok o, s', t)
          /\ targetTokenAmount o = tokens
          /\ targetUnderlyingTokenAmount o
             = (2 * tokens * p + 10 ^ Z.of_nat dcm) / (2 * 10 ^ Z.of_nat dcm))
    /\ (forall frm sell amt vault vc s tokens w1 usd w2 dcm w3 p w4,
        executor_simulateVaultInteraction B frm vault (EncodeDeposit amt) vault
          (callerOptions s) None (world s) = (Ok tokens, w1) ->
        oracle_getNormalizedValueUsdc B vault tokens w1 = (Ok usd, w2) ->
        vault_decimals B vc w2 = (Ok dcm, w3) ->
        vault_pricePerShare B vc w3 = (Ok p, w4) ->
        0 <= tokens -> 0 <= p -> (dcm <= 20)%nat ->
        exists o s' t,
          V1.directDeposit B frm sell amt vault vc s = (Ok o, s', t)
          /\ targetTokenAmount o = tokens
          /\ targetUnderlyingTokenAmount o
             = (2 * tokens * p + 10 ^ Z.of_nat dcm) / (2 * 10 ^ Z.of_nat dcm)).
Proof.
  intros W B cfg. split.
  - intros d vc s data tokens w1 usd w2 dcm w3 p w4 He Hs Ho Hd Hp H1 H2 H3.
    do 3 eexists. split.
    + eapply V2_directDeposit_run; eassumption.
    + split; [reflexivity|]. cbn [targetUnderlyingTokenAmount].
      apply underlying_amount_half_up; assumption.
  - intros frm sell amt vault vc s tokens w1 usd w2 dcm w3 p w4
           Hs Ho Hd Hp H1 H2 H3.
    do 3 eexists. split.
    + eapply V1_directDeposit_run; eassumption.
    + split; [reflexivity|]. cbn [targetUnderlyingTokenAmount].
      apply underlying_amount_half_up; assumption.
Qed.

Definition direct_scenario_args : V2.DepositArgs :=
  V2.Build_DepositArgs Fixture.alice Fixture.dai 1000 Fixture.yvDai Opt.empty.

(** The scenario of the specification yields 998 underlying tokens. *)
Lemma direct_deposit_underlying_amount_rounds_half_up_witness :
  exists o s' t,
    V2.directDeposit (Fixture.backend direct_scenario)
                     (Fixture.config direct_scenario)
                     direct_scenario_args Fixture.yvDai
                     (Fixture.initial Opt.empty) = (Ok o, s', t)
    /\ targetTokenAmount o = 950
    /\ targetUnderlyingTokenAmount o
       = (2 * 950 * 1050000000000000000 + 10 ^ Z.of_nat 18)
           / (2 * 10 ^ Z.of_nat 18).
Proof.
  eapply (proj1 (direct_deposit_underlying_amount_rounds_half_up
                   Fixture.World (Fixture.backend direct_scenario)
                   (Fixture.config direct_scenario))
                direct_scenario_args Fixture.yvDai (Fixture.initial Opt.empty)).
  - vm_compute. reflexivity.
  - vm_compute. reflexivity.
  - vm_compute. reflexivity.
  - vm_compute. reflexivity.
  - vm_compute. reflexivity.
  - lia.
  - lia.
  - lia.
Defined.

(** C7 as stated fails: in the scenario of the specification (950 shares,
    price per share 1.05e18, 18 decimals) the exact product is 997.5; the
    code returns 998, where truncation toward zero gives 997. *)
Lemma direct_deposit_scenario_is_not_truncated :
  exists o s' t,
    V2.directDeposit (Fixture.backend direct_scenario)
                     (Fixture.config direct_scenario)
                     direct_scenario_args Fixture.yvDai
                     (Fixture.initial Opt.empty) = (Ok o, s', t)
    /\ targetTokenAmount o = 950
    /\ targetUnderlyingTokenAmount o = 998
    /\ Z.quot (950 * 1050000000000000000) (10 ^ 18) = 997
    /\ targetUnderlyingTokenAmount o
       <> Z.quot (targetTokenAmount o * 1050000000000000000) (10 ^ 18).
Proof.
  do 3 eexists. split; [vm_compute; reflexivity|].
  repeat split; try reflexivity. vm_compute. discriminate.
Qed.

(** ** The resilience wrapper *)




Section Wrapper.
Context {W : Type} (B : Backend W) {A : Type}.
Variable simulate : bool -> M W A.
Variable fork : option string.

(** A first attempt that succeeds is the whole run. *)
Lemma resimulation_not_attempted_on_success s a s1 t1 :
  simulate false s = (Ok a, s1, t1) ->
  executeSimulationWithReSimulationOnFailure B simulate fork s = (Ok a, s1, t1).
Proof.
  intros H. unfold executeSimulationWithReSimulationOnFailure, catch.
  rewrite H. reflexivity.
Qed.

(** If the sandbox cannot be allocated, that failure is the result. *)
Lemma resimulation_needs_the_sandbox s e1 s1 t1 e w2 :
  simulate false s = (Err e1, s1, t1) ->
  executor_createFork B (world s1) = (Err e, w2) ->
  executeSimulationWithReSimulationOnFailure B simulate fork s
  = (Err e, mkState w2 (callerOptions s1), t1 ++ [EvCreateFork]).
Proof.
  intros H1 H2.
  unfold executeSimulationWithReSimulationOnFailure, catch, bind, createFork,
    request.
  rewrite H1, H2. reflexivity.
Qed.


End Wrapper.








(** ** Routed requests without a slippage tolerance *)

Definition missing_slippage_V2 : Error :=
  SdkError "slippage needs to be specified for a zap" (Some NO_SLIPPAGE).

Definition missing_slippage_V1 : Error :=
  SdkError "slippage needs to be specified for a zap" None.

Definition slippage_not_set : Error :=
  SdkError "slippage needs to be set" (Some NO_SLIPPAGE).

Lemma zero_slippage_missing o :
  Opt.slippage o = Some 0%float -> Opt.slippage_missing o = true.
Proof. intros H. unfold Opt.slippage_missing. rewrite H. reflexivity. Qed.

Lemma no_slippage_missing o :
  Opt.slippage o = None -> Opt.slippage_missing o = true.
Proof. intros H. unfold Opt.slippage_missing. rewrite H. reflexivity. Qed.

Section MissingSlippage.
Context {W : Type} (B : Backend W) (cfg : Config).

Lemma V2_withdraw_missing_slippage f v a t s u w1 :
  vault_token B v (world s) = (Ok u, w1) ->
  String.eqb u (getAddress cfg t) = false ->
  Opt.slippage_missing (callerOptions s) = true ->
  V2.withdraw B cfg f v a t s
  = (Err missing_slippage_V2, mkState w1 (callerOptions s), [EvVaultToken v]).
Proof.
  intros Hu Hz Hm.
  unfold V2.withdraw, bind, vaultContract_token, request, getOptions.
  rewrite Hu, Hz. cbn [negb callerOptions]. rewrite Hm. reflexivity.
Qed.

Lemma V1_deposit_missing_slippage f sl a v s u w1 :
  vault_token B v (world s) = (Ok u, w1) ->
  String.eqb u sl = false ->
  Opt.slippage_missing (callerOptions s) = true ->
  V1.deposit B cfg f sl a v s
  = (Err missing_slippage_V1, mkState w1 (callerOptions s), [EvVaultToken v]).
Proof.
  intros Hu Hz Hm.
  unfold V1.deposit, bind, orThrow, catch, vaultContract_token, request,
    getOptions.
  rewrite Hu, Hz. cbn [negb callerOptions]. rewrite Hm. reflexivity.
Qed.

Lemma V2_simulationArgs_missing_slippage d u s :
  isEthereum cfg (chainId cfg) = true ->
  Opt.slippage_missing (V2.options d) = true ->
  V2.getZapperZapInSimulationArgs B cfg d u s = (Err missing_slippage_V2, s, []).
Proof.
  intros He Hm. unfold V2.getZapperZapInSimulationArgs.
  rewrite He, Hm. reflexivity.
Qed.

Lemma V2_zapOut_missing_slippage f t u a v skip s :
  Opt.slippage_missing (callerOptions s) = true ->
  V2.zapOut B cfg f t u a v skip s = (Err slippage_not_set, s, []).
Proof.
  intros Hm. unfold V2.zapOut, bind, getOptions.
  unfold Opt.slippage_missing in Hm.
  destruct (Opt.slippage (callerOptions s)) as [x|]; [rewrite Hm|]; reflexivity.
Qed.

Lemma V2_zapIn_missing_slippage d u skip s :
  Opt.slippage_missing (V2.options d) = true ->
  V2.zapIn B cfg d u skip s = (Err slippage_not_set, s, []).
Proof.
  intros Hm. unfold V2.zapIn. unfold Opt.slippage_missing in Hm.
  destruct (Opt.slippage (V2.options d)) as [x|]; [rewrite Hm|]; reflexivity.
Qed.

Lemma V2_deposit_missing_slippage f sl a v o s dyn w1 tok w2 u w3 dcm w4 p w5 :
  vaults_getDynamic B v (world s) = (Ok (Some dyn), w1) ->
  tokens_findByAddress B sl w1 = (Ok (Some tok), w2) ->
  getZapInDetails cfg (Some tok) (vault_metadata dyn)
  = Build_ZapInDetails true (Some "zapperZapIn") ->
  isEthereum cfg (chainId cfg) = true ->
  vault_token B v w2 = (Ok u, w3) ->
  vault_decimals B v w3 = (Ok dcm, w4) ->
  vault_pricePerShare B v w4 = (Ok p, w5) ->
  Opt.slippage_missing o = true ->
  V2.deposit B cfg f sl a v o s
  = (Err missing_slippage_V2, mkState w5 (callerOptions s),
     [EvGetDynamic v; EvFindByAddress sl; EvVaultToken v; EvVaultDecimals v;
      EvVaultPricePerShare v]).
Proof.
  intros Hd Ht Hz He Hu Hdc Hp Hm.
  unfold V2.deposit, bind, getDynamic, findByAddress, request.
  rewrite Hd. cbn [world callerOptions]. rewrite Ht, Hz.
  cbn [isZapInSupported zapInWith_detail world callerOptions].
  change (nonempty "zapperZapIn") with true. cbv iota.
  unfold V2.handleZapInSimulationDeposit.
  change (String.eqb "zapperZapIn" "zapperZapIn") with true. cbv iota.
  unfold bind, V2.getUnderlyingToken, bind, Promise_all3, Promise_all2,
    orThrow, catch, vaultContract_token, vaultContract_decimals,
    vaultContract_pricePerShare, request.
  cbn [world callerOptions]. rewrite Hu. cbn [world callerOptions].
  rewrite Hdc. cbn [world callerOptions]. rewrite Hp.
  cbn [world callerOptions ret].
  rewrite V2_simulationArgs_missing_slippage by assumption.
  reflexivity.
Qed.

End MissingSlippage.

(** A routed request: USDC against the DAI vault; the zapper reports that
    the approval is outstanding. *)
Definition routed_scenario : Fixture.Scenario :=
  Fixture.Build_Scenario Fixture.dai 18 1050000000000000000 0 false 950
                         Fixture.flat_price Fixture.a_quote 0
                         (Some "zapperZapIn").

(** C4, as amended.  A routed deposit or withdraw whose options omit the
    slippage tolerance is rejected with the missing-slippage error once the
    reads that classify the request have answered (the vault's underlying
    token for [withdraw] and the older [deposit]; the vault and token
    metadata and the vault's token, decimals and price per share for the
    current [deposit]); these reads are the only requests made: no approval
    query, no sandbox, no quote and no simulation precede the error.  Inside
    [getZapperZapInSimulationArgs] the error comes before any request. *)
Theorem missing_slippage_rejected_after_classification_only :
  forall (W : Type) (B : Backend W) (cfg : Config),
    (forall f v a t s u w1,
        vault_token B v (world s) = (Ok u, w1) ->
        String.eqb u (getAddress cfg t) = false ->
        Opt.slippage (callerOptions s) = None ->
        V2.withdraw B cfg f v a t s
        = (Err missing_slippage_V2, mkState w1 (callerOptions s),
           [EvVaultToken v]))
    /\ (forall f sl a v o s dyn w1 tok w2 u w3 dcm w4 p w5,
        vaults_getDynamic B v (world s) = (Ok (Some dyn), w1) ->
        tokens_findByAddress B sl w1 = (Ok (Some tok), w2) ->
        getZapInDetails cfg (Some tok) (vault_metadata dyn)
        = Build_ZapInDetails true (Some "zapperZapIn") ->
        isEthereum cfg (chainId cfg) = true ->
        vault_token B v w2 = (Ok u, w3) ->
        vault_decimals B v w3 = (Ok dcm, w4) ->
        vault_pricePerShare B v w4 = (Ok p, w5) ->
        Opt.slippage o = None ->
        V2.deposit B cfg f sl a v o s
        = (Err missing_slippage_V2, mkState w5 (callerOptions s),
           [EvGetDynamic v; EvFindByAddress sl; EvVaultToken v;
            EvVaultDecimals v; EvVaultPricePerShare v]))
    /\ (forall f sl a v s u w1,
        vault_token B v (world s) = (Ok u, w1) ->
        String.eqb u sl = false ->
        Opt.slippage (callerOptions s) = None ->
        V1.deposit B cfg f sl a v s
        = (Err missing_slippage_V1, mkState w1 (callerOptions s),
           [EvVaultToken v]))
    /\ (forall d u s,
        isEthereum cfg (chainId cfg) = true ->
        Opt.slippage (V2.options d) = None ->
        V2.getZapperZapInSimulationArgs B cfg d u s
        = (Err missing_slippage_V2, s, [])).
Proof.
  intros W B cfg. refine (conj _ (conj _ (conj _ _))); intros.
  - eapply V2_withdraw_missing_slippage; eauto using no_slippage_missing.
  - eapply V2_deposit_missing_slippage; eauto using no_slippage_missing.
  - eapply V1_deposit_missing_slippage; eauto using no_slippage_missing.
  - eapply V2_simulationArgs_missing_slippage; eauto using no_slippage_missing.
Qed.

Lemma missing_slippage_rejected_after_classification_only_witness :
  V2.deposit (Fixture.backend routed_scenario) (Fixture.config routed_scenario)
             Fixture.alice Fixture.usdc 1000 Fixture.yvDai Opt.empty
             (Fixture.initial Opt.empty)
  = (Err missing_slippage_V2, Fixture.initial Opt.empty,
     [EvGetDynamic Fixture.yvDai; EvFindByAddress Fixture.usdc;
      EvVaultToken Fixture.yvDai; EvVaultDecimals Fixture.yvDai;
      EvVaultPricePerShare Fixture.yvDai]).
Proof.
  eapply (proj1 (proj2 (missing_slippage_rejected_after_classification_only
                          Fixture.World (Fixture.backend routed_scenario)
                          (Fixture.config routed_scenario)))
                Fixture.alice Fixture.usdc 1000 Fixture.yvDai Opt.empty
                (Fixture.initial Opt.empty));
    vm_compute; reflexivity.
Defined.

(** C4 as stated fails: a routed withdraw without a slippage tolerance is
    rejected with the missing-slippage error, but only after the vault
    contract has been asked for its underlying token. *)
Lemma withdraw_without_slippage_reads_the_vault_first :
  result_of (V2.withdraw (Fixture.backend routed_scenario)
                         (Fixture.config routed_scenario)
                         Fixture.alice Fixture.yvDai 1000 Fixture.usdc
                         (Fixture.initial Opt.empty))
  = Err missing_slippage_V2
  /\ trace_of (V2.withdraw (Fixture.backend routed_scenario)
                           (Fixture.config routed_scenario)
                           Fixture.alice Fixture.yvDai 1000 Fixture.usdc
                           (Fixture.initial Opt.empty))
     = [EvVaultToken Fixture.yvDai]
  /\ trace_of (V2.withdraw (Fixture.backend routed_scenario)
                           (Fixture.config routed_scenario)
                           Fixture.alice Fixture.yvDai 1000 Fixture.usdc
                           (Fixture.initial Opt.empty))
     <> [].
Proof.
  repeat split; try (vm_compute; reflexivity). vm_compute. discriminate.
Qed.

(** C9.  A slippage tolerance of 0 is falsy: every check of the routed
    paths rejects it with the same missing-slippage error, after the same
    requests, as options without a tolerance. *)
Theorem zero_slippage_rejected_as_missing :
  forall (W : Type) (B : Backend W) (cfg : Config) (o : Opt.t),
    Opt.slippage o = Some 0%float ->
    let o' := Opt.set_slippage None o in
    (forall f v a t w u w1,
        vault_token B v w = (Ok u, w1) ->
        String.eqb u (getAddress cfg t) = false ->
        V2.withdraw B cfg f v a t (mkState w o)
        = (Err missing_slippage_V2, mkState w1 o, [EvVaultToken v])
        /\ V2.withdraw B cfg f v a t (mkState w o')
           = (Err missing_slippage_V2, mkState w1 o', [EvVaultToken v]))
    /\ (forall d u s,
        isEthereum cfg (chainId cfg) = true ->
        V2.getZapperZapInSimulationArgs B cfg (V2.with_options d o) u s
        = (Err missing_slippage_V2, s, [])
        /\ V2.getZapperZapInSimulationArgs B cfg (V2.with_options d o') u s
           = (Err missing_slippage_V2, s, []))
    /\ (forall f t u a v skip w,
        V2.zapOut B cfg f t u a v skip (mkState w o)
        = (Err slippage_not_set, mkState w o, [])
        /\ V2.zapOut B cfg f t u a v skip (mkState w o')
           = (Err slippage_not_set, mkState w o', []))
    /\ (forall d u skip s,
        V2.zapIn B cfg (V2.with_options d o) u skip s
        = (Err slippage_not_set, s, [])
        /\ V2.zapIn B cfg (V2.with_options d o') u skip s
           = (Err slippage_not_set, s, []))
    /\ (forall f sl a v w u w1,
        vault_token B v w = (Ok u, w1) ->
        String.eqb u sl = false ->
        V1.deposit B cfg f sl a v (mkState w o)
        = (Err missing_slippage_V1, mkState w1 o, [EvVaultToken v])
        /\ V1.deposit B cfg f sl a v (mkState w o')
           = (Err missing_slippage_V1, mkState w1 o', [EvVaultToken v])).
Proof.
  intros W B cfg o Hz o'.
  pose proof (zero_slippage_missing o Hz) as Hm.
  assert (Hm' : Opt.slippage_missing o' = true) by reflexivity.
  refine (conj _ (conj _ (conj _ (conj _ _)))); intros; split.
  - eapply (V2_withdraw_missing_slippage B cfg f v a t (mkState w o)); eauto.
  - eapply (V2_withdraw_missing_slippage B cfg f v a t (mkState w o')); eauto.
  - apply V2_simulationArgs_missing_slippage; assumption.
  - apply V2_simulationArgs_missing_slippage; assumption.
  - apply (V2_zapOut_missing_slippage B cfg f t u a v skip (mkState w o)).
    exact Hm.
  - apply (V2_zapOut_missing_slippage B cfg f t u a v skip (mkState w o')).
    exact Hm'.
  - apply V2_zapIn_missing_slippage. exact Hm.
  - apply V2_zapIn_missing_slippage. exact Hm'.
  - eapply (V1_deposit_missing_slippage B cfg f sl a v (mkState w o)); eauto.
  - eapply (V1_deposit_missing_slippage B cfg f sl a v (mkState w o')); eauto.
Qed.

Definition zero_tolerance : Opt.t := Opt.set_slippage (Some 0%float) Opt.empty.

Lemma zero_slippage_rejected_as_missing_witness :
  Opt.slippage zero_tolerance = Some 0%float
  /\ V2.withdraw (Fixture.backend routed_scenario)
                 (Fixture.config routed_scenario)
                 Fixture.alice Fixture.yvDai 1000 Fixture.usdc
                 (mkState Fixture.start zero_tolerance)
     = (Err missing_slippage_V2, mkState Fixture.start zero_tolerance,
        [EvVaultToken Fixture.yvDai]).
Proof.
  split; [reflexivity|].
  eapply (proj1 (proj1 (zero_slippage_rejected_as_missing
                          Fixture.World (Fixture.backend routed_scenario)
                          (Fixture.config routed_scenario) zero_tolerance
                          eq_refl)
                       Fixture.alice Fixture.yvDai 1000 Fixture.usdc
                       Fixture.start Fixture.dai Fixture.start _ _)).
  Unshelve.
  - vm_compute. reflexivity.
  - vm_compute. reflexivity.
Defined.

(** ** Approval simulated before the primary call *)

Definition half_tolerance : Opt.t := Opt.set_slippage (Some 0.5%float) Opt.empty.

Section ZapInApproval.
Context {W : Type} (B : Backend W) (cfg : Config).

(** [getZapperZapInApprovalData] when the approval is outstanding: the
    sandbox [fork] is allocated, and the approval is then simulated with a
    copy of the caller's options, whose [forkId] is the caller's and not
    [fork]. *)
Lemma V2_zapIn_approval_run (d : V2.DepositArgs) s st w1 fork w2 tx w3 res w4 :
  isEthereum cfg (chainId cfg) = true ->
  String.eqb (V2.sellToken d) (EthAddress cfg) = false ->
  zapper_zapInApprovalState B (V2.from d) (V2.sellToken d)
    (getZapProtocol cfg (V2.toVault d)) (world s) = (Ok st, w1) ->
  isApproved st = false ->
  executor_createFork B w1 = (Ok fork, w2) ->
  zapper_zapInApprovalTransaction B (V2.from d) (V2.sellToken d) 0
    (getZapProtocol cfg (V2.toVault d)) w2 = (Ok tx, w3) ->
  executor_makeSimulationRequest B (zat_from tx) (zat_to tx) (zat_data tx)
    (Opt.set_save (Some true) (V2.options d)) None w3 = (Ok res, w4) ->
  V2.getZapperZapInApprovalData B cfg d s
  = (Ok (V2.Build_ZapApprovalData true
           (V2.Build_ApprovalData (Some (simulation_id res)) (Some fork))),
     mkState w4 (callerOptions s),
     [EvZapInApprovalState (V2.from d) (V2.sellToken d)
                           (getZapProtocol cfg (V2.toVault d));
      EvCreateFork;
      EvZapInApprovalTransaction (V2.from d) (V2.sellToken d) 0
                                 (getZapProtocol cfg (V2.toVault d));
      EvMakeSimulationRequest (zat_from tx) (zat_to tx) (zat_data tx)
                              (Opt.set_save (Some true) (V2.options d)) None]).
Proof.
  intros He Hn Hs Ha Hf Ht Hr.
  unfold V2.getZapperZapInApprovalData. rewrite He, Hn. cbn [negb].
  unfold bind, orThrow, catch, zapInApprovalState, createFork,
    zapInApprovalTransaction, makeSimulationRequest, request, ret.
  rewrite Hs. exec. rewrite Ha. exec. rewrite Hf. exec. rewrite Ht. exec.
  rewrite Hr. reflexivity.
Qed.

End ZapInApproval.

(** C5, the current [deposit] on the routed path, at a request whose
    approval is outstanding: the sandbox ["fork-1"] is allocated, but the
    approval is simulated with [forkId] unset (the caller passed none), so
    outside that sandbox; the primary call is then simulated in ["fork-1"]
    with the approval's identifier as [root]. *)
Theorem current_zap_deposit_simulates_approval_outside_the_sandbox :
  trace_of (V2.deposit (Fixture.backend routed_scenario)
                       (Fixture.config routed_scenario)
                       Fixture.alice Fixture.usdc 1000 Fixture.yvDai
                       half_tolerance (Fixture.initial half_tolerance))
  = [EvGetDynamic Fixture.yvDai; EvFindByAddress Fixture.usdc;
     EvVaultToken Fixture.yvDai; EvVaultDecimals Fixture.yvDai;
     EvVaultPricePerShare Fixture.yvDai;
     EvZapInApprovalState Fixture.alice Fixture.usdc YEARN;
     EvCreateFork;
     EvZapInApprovalTransaction Fixture.alice Fixture.usdc 0 YEARN;
     EvMakeSimulationRequest Fixture.alice Fixture.usdc (RawData "approve")
       (Opt.mk (Some 0.5%float) None None None None (Some true)) None;
     EvZapIn Fixture.alice Fixture.usdc 1000 Fixture.yvDai 0 0.5%float
             (Some true) (Some YEARN);
     EvSimulateVaultInteraction Fixture.alice "0x2a9" (RawData "zap")
       Fixture.yvDai
       (Opt.mk (Some 0.5%float) (Some "sim-1") (Some "fork-1") (Some 7) None
               (Some false))
       (Some 0);
     EvGetNormalizedValueUsdc Fixture.yvDai 950;
     EvGetNormalizedValueUsdc Fixture.usdc 1000].
Proof. vm_compute. reflexivity. Qed.

(** The sibling paths do what the claim says: [withdraw] and the older
    [deposit] store the new sandbox in the options before they simulate the
    approval. *)
Lemma withdraw_simulates_approval_in_the_sandbox :
  trace_of (V2.withdraw (Fixture.backend routed_scenario)
                        (Fixture.config routed_scenario)
                        Fixture.alice Fixture.yvDai 1000 Fixture.usdc
                        (Fixture.initial half_tolerance))
  = [EvVaultToken Fixture.yvDai;
     EvZapOutApprovalState Fixture.alice Fixture.yvDai;
     EvCreateFork;
     EvZapOutApprovalTransaction Fixture.alice Fixture.yvDai 0;
     EvMakeSimulationRequest Fixture.alice Fixture.yvDai (RawData "approve")
       (Opt.mk (Some 0.5%float) None (Some "fork-1") None None (Some true))
       None;
     EvZapOut Fixture.alice Fixture.usdc 1000 Fixture.yvDai 0 0.5%float
              (Some true);
     EvSimulateVaultInteraction Fixture.alice "0x2a9" (RawData "zap")
       Fixture.usdc
       (Opt.mk (Some 0.5%float) (Some "sim-1") (Some "fork-1") None None
               (Some false))
       (Some 0);
     EvGetNormalizedValueUsdc Fixture.usdc 950;
     EvGetNormalizedValueUsdc Fixture.yvDai 1000].
Proof. vm_compute. reflexivity. Qed.

Lemma older_deposit_simulates_approval_in_the_sandbox :
  trace_of (V1.deposit (Fixture.backend routed_scenario)
                       (Fixture.config routed_scenario)
                       Fixture.alice Fixture.usdc 1000 Fixture.yvDai
                       (Fixture.initial half_tolerance))
  = [EvVaultToken Fixture.yvDai;
     EvZapInApprovalState Fixture.alice Fixture.usdc YEARN;
     EvCreateFork;
     EvZapInApprovalTransaction Fixture.alice Fixture.usdc 0 YEARN;
     EvMakeSimulationRequest Fixture.alice Fixture.usdc (RawData "approve")
       (Opt.mk (Some 0.5%float) None (Some "fork-1") None None (Some true))
       None;
     EvZapIn Fixture.alice Fixture.usdc 1000 Fixture.yvDai 0 0.5%float
             (Some true) (Some YEARN);
     EvSimulateVaultInteraction Fixture.alice "0x2a9" (RawData "zap")
       Fixture.yvDai
       (Opt.mk (Some 0.5%float) (Some "sim-1") (Some "fork-1") (Some 7) None
               (Some false))
       (Some 0);
     EvVaultDecimals Fixture.yvDai; EvVaultPricePerShare Fixture.yvDai;
     EvGetNormalizedValueUsdc Fixture.yvDai 950;
     EvGetNormalizedValueUsdc Fixture.usdc 1000].
Proof. vm_compute. reflexivity. Qed.

(** A direct deposit whose allowance is short of the amount. *)
Definition unapproved_direct_scenario : Fixture.Scenario :=
  Fixture.Build_Scenario Fixture.dai 18 1050000000000000000 0 true 950
                         Fixture.flat_price Fixture.a_quote 0 None.

(** The current direct path hands the ABI coder a promise ([approve] does
    not await [getActionableAddress]): with ethers' coder the deposit fails
    before any approval is simulated. *)
Lemma current_direct_deposit_fails_to_encode_the_approval :
  V2.deposit (Fixture.backend unapproved_direct_scenario)
             (Fixture.config unapproved_direct_scenario)
             Fixture.alice Fixture.dai 1000 Fixture.yvDai Opt.empty
             (Fixture.initial Opt.empty)
  = (Err (Rejected "invalid address"), Fixture.initial Opt.empty,
     [EvGetDynamic Fixture.yvDai; EvFindByAddress Fixture.dai;
      EvAllowance Fixture.dai Fixture.alice Fixture.yvDai]).
Proof. vm_compute. reflexivity. Qed.

(** A coder that resolved the promise would not help: [getApprovalData]
    simulates the approval first and allocates the sandbox afterwards. *)
Definition resolving_config (sc : Fixture.Scenario) : Config := {|
  EthAddress := EthAddress (Fixture.config sc);
  ZeroAddress := ZeroAddress (Fixture.config sc);
  WethAddress := WethAddress (Fixture.config sc);
  chainId := chainId (Fixture.config sc);
  isEthereum := isEthereum (Fixture.config sc);
  isFantom := isFantom (Fixture.config sc);
  getAddress := getAddress (Fixture.config sc);
  getZapProtocol := getZapProtocol (Fixture.config sc);
  isUnderlyingToken := isUnderlyingToken (Fixture.config sc);
  encodeApprove := fun sp amt =>
    match sp with
    | SpenderAddress a | SpenderPromise a => Ok (EncodeApprove a amt)
    end;
  partner := None
|}.

Lemma current_direct_deposit_simulates_approval_before_the_sandbox :
  trace_of (V2.deposit (Fixture.backend unapproved_direct_scenario)
                       (resolving_config unapproved_direct_scenario)
                       Fixture.alice Fixture.dai 1000 Fixture.yvDai Opt.empty
                       (Fixture.initial Opt.empty))
  = [EvGetDynamic Fixture.yvDai; EvFindByAddress Fixture.dai;
     EvAllowance Fixture.dai Fixture.alice Fixture.yvDai;
     EvMakeSimulationRequest Fixture.alice Fixture.dai
       (EncodeApprove Fixture.yvDai 1000)
       (Opt.mk None None None None None (Some true)) None;
     EvCreateFork;
     EvSimulateVaultInteraction Fixture.alice Fixture.yvDai
       (EncodeDeposit 1000) Fixture.yvDai
       (Opt.mk None (Some "sim-1") (Some "fork-1") None None (Some false))
       None;
     EvGetNormalizedValueUsdc Fixture.yvDai 950;
     EvVaultDecimals Fixture.yvDai; EvVaultPricePerShare Fixture.yvDai].
Proof. vm_compute. reflexivity. Qed.

(** ** Routed transfers: conversion rate and slippage *)

Definition slippage_complements_rate (o : TransactionOutcome) : Prop :=
  slippage o = (1 - conversionRate o)%float.

(** The options [zapIn] sends with the primary simulation, given the quote. *)
Definition zapIn_options (o : Opt.t) (q : ZapOutput) (skip : bool) : Opt.t :=
  let o1 :=
    Opt.set_gasPrice
      (match Opt.gasPrice o with
       | Some g => Some g
       | None => Some (zo_gasPrice q)
       end) o in
  if negb skip then Opt.set_gasLimit (Some (zo_gas q)) o1 else o1.

Definition zapOut_options (o : Opt.t) (q : ZapOutput) (skip : bool) : Opt.t :=
  if negb skip then Opt.set_gasLimit (Some (zo_gas q)) o else o.

Definition zapToken_of (cfg : Config) (token : Address) : Address :=
  if String.eqb token (EthAddress cfg) then ZeroAddress cfg else token.

Definition oracleToken_of (cfg : Config) (token : Address) : Address :=
  if String.eqb token (EthAddress cfg) then WethAddress cfg else token.

Definition quote_gasPrice (o : Opt.t) : Integer :=
  match Opt.gasPrice o with Some g => g | None => 0 end.

Section RoutedRate.
Context {W : Type} (B : Backend W) (cfg : Config).

Lemma V2_zapIn_slippage d u skip :
  ensures (V2.zapIn B cfg d u skip) slippage_complements_rate.
Proof.
  unfold V2.zapIn.
  destruct (Opt.slippage (V2.options d)) as [slip|]; [|apply ensures_throw].
  destruct (number_falsy slip); [apply ensures_throw|].
  repeat (apply ensures_bind; intros ?).
  apply ensures_ret. reflexivity.
Qed.

Lemma V2_zapOut_slippage f t u a v skip :
  ensures (V2.zapOut B cfg f t u a v skip) slippage_complements_rate.
Proof.
  unfold V2.zapOut. apply ensures_bind. intros opts.
  destruct (Opt.slippage opts) as [slip|]; [|apply ensures_throw].
  destruct (number_falsy slip); [apply ensures_throw|].
  repeat (apply ensures_bind; intros ?).
  apply ensures_ret. reflexivity.
Qed.

Lemma V1_zapIn_slippage f sl u a v vc p skip :
  ensures (V1.zapIn B cfg f sl u a v vc p skip) slippage_complements_rate.
Proof.
  unfold V1.zapIn. apply ensures_bind. intros opts.
  destruct (Opt.slippage opts) as [slip|]; [|apply ensures_throw].
  destruct (number_falsy slip); [apply ensures_throw|].
  repeat (apply ensures_bind; intros ?).
  apply ensures_ret. reflexivity.
Qed.

(** A complete run of the current [zapIn] on the default route family: the
    rate is the USD value of the tokens received over the USD value of the
    amount sold, both as the oracle reports them. *)
Lemma V2_zapIn_run (d : V2.DepositArgs) u skip s slip q w1 tokens w2 dest w3
      src w4 :
  Opt.slippage (V2.options d) = Some slip ->
  number_falsy slip = false ->
  getZapProtocol cfg (V2.toVault d) = YEARN ->
  zapper_zapIn B (V2.from d) (zapToken_of cfg (V2.sellToken d)) (V2.amount d)
    (V2.toVault d) (quote_gasPrice (V2.options d)) slip (Some skip)
    (Some YEARN) (world s) = (Ok q, w1) ->
  executor_simulateVaultInteraction B (V2.from d) (zo_to q) (zo_data q)
    (V2.toVault d) (zapIn_options (V2.options d) q skip)
    (Some (BN.toFixed0 (toBN (zo_value q)))) w1 = (Ok tokens, w2) ->
  oracle_getNormalizedValueUsdc B (V2.toVault d) tokens w2 = (Ok dest, w3) ->
  oracle_getNormalizedValueUsdc B (oracleToken_of cfg (V2.sellToken d))
    (V2.amount d) w3 = (Ok src, w4) ->
  V2.zapIn B cfg d u skip s
  = (Ok (mkOutcome (V2.sellToken d) (V2.amount d) (zo_buyTokenAddress q)
                   tokens (BN.toFixed0 (toBN dest)) (V2.address u)
                   (BN.toFixed0
                      (BN.multipliedBy
                         (BN.div (toBN tokens)
                                 (BN.pow (toBN 10) (V2.decimals u)))
                         (toBN (V2.pricePerShare u))))
                   (BN.toNumber (BN.div (toBN dest) (toBN src)))
                   (1 - BN.toNumber (BN.div (toBN dest) (toBN src)))%float),
     mkState w4 (callerOptions s),
     [EvZapIn (V2.from d) (zapToken_of cfg (V2.sellToken d)) (V2.amount d)
              (V2.toVault d) (quote_gasPrice (V2.options d)) slip (Some skip)
              (Some YEARN);
      EvSimulateVaultInteraction (V2.from d) (zo_to q) (zo_data q)
        (V2.toVault d) (zapIn_options (V2.options d) q skip)
        (Some (BN.toFixed0 (toBN (zo_value q))));
      EvGetNormalizedValueUsdc (V2.toVault d) tokens;
      EvGetNormalizedValueUsdc (oracleToken_of cfg (V2.sellToken d))
                               (V2.amount d)]).
Proof.
  intros Hs Hf Hp Hq Hsim Hd Hsrc.
  unfold V2.zapIn. rewrite Hs, Hf, Hp.
  unfold bind, orThrow, catch, zapper_zapIn_request, simulateVaultInteraction,
    getNormalizedValueUsdc, request, ret.
  fold (zapToken_of cfg (V2.sellToken d)).
  fold (oracleToken_of cfg (V2.sellToken d)).
  fold (quote_gasPrice (V2.options d)).
  rewrite Hq. exec.
  fold (zapIn_options (V2.options d) q skip).
  rewrite Hsim. exec. rewrite Hd. exec. rewrite Hsrc. reflexivity.
Qed.

(** A complete run of [zapOut] to a token other than the native asset. *)
Lemma V2_zapOut_run frm toToken under amt vault skip s slip q w1 tokens w2
      dest w3 src w4 :
  Opt.slippage (callerOptions s) = Some slip ->
  number_falsy slip = false ->
  String.eqb (zapToken_of cfg toToken) (ZeroAddress cfg) = false ->
  zapper_zapOut B frm (zapToken_of cfg toToken) amt vault 0 slip (Some skip)
    (world s) = (Ok q, w1) ->
  executor_simulateVaultInteraction B frm (zo_to q) (zo_data q) toToken
    (zapOut_options (callerOptions s) q skip) (Some (zo_value q)) w1
  = (Ok tokens, w2) ->
  oracle_getNormalizedValueUsdc B (oracleToken_of cfg toToken) tokens w2
  = (Ok dest, w3) ->
  oracle_getNormalizedValueUsdc B vault amt w3 = (Ok src, w4) ->
  V2.zapOut B cfg frm toToken under amt vault skip s
  = (Ok (mkOutcome vault amt toToken tokens dest under tokens
                   (BN.toNumber (BN.div (toBN dest) (toBN src)))
                   (1 - BN.toNumber (BN.div (toBN dest) (toBN src)))%float),
     mkState w4 (zapOut_options (callerOptions s) q skip),
     [EvZapOut frm (zapToken_of cfg toToken) amt vault 0 slip (Some skip);
      EvSimulateVaultInteraction frm (zo_to q) (zo_data q) toToken
        (zapOut_options (callerOptions s) q skip) (Some (zo_value q));
      EvGetNormalizedValueUsdc (oracleToken_of cfg toToken) tokens;
      EvGetNormalizedValueUsdc vault amt]).
Proof.
  intros Hs Hf Hz Hq Hsim Hd Hsrc.
  unfold V2.zapOut, bind, getOptions. rewrite Hs, Hf.
  fold (zapToken_of cfg toToken). fold (oracleToken_of cfg toToken).
  unfold orThrow, catch, zapper_zapOut_request, request. exec.
  rewrite Hq. exec. rewrite Hz.
  unfold zapOut_options in *.
  destruct skip; cbn [negb modifyOptions ret] in *; exec;
    unfold simulateVaultInteraction, getNormalizedValueUsdc, request, ret;
    exec; rewrite Hsim; exec; rewrite Hd; exec; rewrite Hsrc; reflexivity.
Qed.

End RoutedRate.

(** The legacy service, asked to deposit 1000 USDC into the DAI vault; the
    sandbox reports 500 shares and the oracle values every unit at 2. *)
Definition legacy_scenario : Fixture.Scenario :=
  Fixture.Build_Scenario Fixture.dai 18 1000000000000000000 0 false 500
                         Fixture.flat_price Fixture.a_quote 0
                         (Some "zapperZapIn").

(** C3 on the legacy [zapIn]: the oracle is asked for the sold token at the
    amount received and for the vault token at the amount sold.  The
    destination is worth 1000 and the source 2000, a rate of 0.5; the
    outcome reports 2 (and a slippage of -1). *)
Theorem legacy_zapIn_values_the_amounts_crosswise :
  exists o s t,
    Legacy.deposit (Fixture.backend legacy_scenario)
                   (Fixture.config legacy_scenario)
                   Fixture.alice Fixture.usdc 1000 Fixture.yvDai
                   (Some 0.5%float) (Fixture.initial Opt.empty)
    = (Ok o, s, t)
    /\ Legacy.targetTokenAmount o = 500
    /\ Legacy.conversionRate o = Some 2%float
    /\ Legacy.slippage o = Some (-1)%float
    /\ t = [EvVaultToken Fixture.yvDai;
            EvZapIn Fixture.alice Fixture.usdc 1000 Fixture.yvDai 0 0.5%float
                    None None;
            EvLegacySimulate
              (Legacy.body Fixture.alice "0x2a9" (RawData "zap") 0);
            EvVaultPricePerShare Fixture.yvDai;
            EvGetNormalizedValueUsdc Fixture.usdc 500;
            EvGetNormalizedValueUsdc Fixture.yvDai 1000]
    /\ BN.toNumber
         (BN.div (toBN (Fixture.flat_price Fixture.yvDai 500))
                 (toBN (Fixture.flat_price Fixture.usdc 1000)))
       = 0.5%float.
Proof.
  do 3 eexists. split; [vm_compute; reflexivity|].
  repeat split; vm_compute; reflexivity.
Qed.

(** The current [zapIn], on the same request, reports the rate 0.5; a rate
    above 1 is returned as it is (here 2, slippage -1, when the sandbox
    reports 4000 shares). *)
Lemma current_zapIn_rate_on_the_same_request :
  exists o s t,
    V2.deposit (Fixture.backend legacy_scenario)
               (Fixture.config legacy_scenario)
               Fixture.alice Fixture.usdc 1000 Fixture.yvDai half_tolerance
               (Fixture.initial half_tolerance)
    = (Ok o, s, t)
    /\ conversionRate o = 0.5%float /\ slippage o = 0.5%float.
Proof.
  do 3 eexists. split; [vm_compute; reflexivity|].
  split; vm_compute; reflexivity.
Qed.

Definition generous_scenario : Fixture.Scenario :=
  Fixture.Build_Scenario Fixture.dai 18 1000000000000000000 0 true 4000
                         Fixture.flat_price Fixture.a_quote 0
                         (Some "zapperZapIn").

Lemma current_zapIn_rate_is_not_clamped :
  exists o s t,
    V2.deposit (Fixture.backend generous_scenario)
               (Fixture.config generous_scenario)
               Fixture.alice Fixture.usdc 2000 Fixture.yvDai half_tolerance
               (Fixture.initial half_tolerance)
    = (Ok o, s, t)
    /\ conversionRate o = 2%float /\ slippage o = (-1)%float.
Proof.
  do 3 eexists. split; [vm_compute; reflexivity|].
  split; vm_compute; reflexivity.
Qed.

(** ** The quote follows the approval *)


















(** Symbolic execution of a run: case analysis on each answer in turn. *)
Ltac unfold_run :=
  autounfold with requests;
  unfold orThrow, Promise_all3, Promise_all2;
  unfold bind, catch, request, throw, ret, getOptions, modifyOptions.

Ltac case_answer :=
  match goal with
  | |- context [match ?x with _ => _ end] =>
      lazymatch x with
      | context [match _ with _ => _ end] => fail
      | _ => destruct x eqn:?
      end
  end.

Ltac symex :=
  cbv beta;
  repeat (case_answer;
          cbn [world callerOptions negb fst snd app trace_of result_of
               state_of]).

Section Producers.
Context {W : Type} (B : Backend W) (cfg : Config).










End Producers.


Ltac list_tail l :=
  lazymatch l with
  | _ :: ?r => list_tail r
  | ?t => t
  end.


Section WithdrawRun.
Context {W : Type} (B : Backend W) (cfg : Config).

End WithdrawRun.

Section RoutedRuns.
Context {W : Type} (B : Backend W) (cfg : Config).






End RoutedRuns.



Section GasLimit.
Context {W : Type} (B : Backend W) (cfg : Config).




End GasLimit.


(** A routed withdraw whose approval stands: the quote is requested with
    the gas estimate, and its gas (210000) is the gas limit of the
    simulation. *)
Definition approved_routed_scenario : Fixture.Scenario :=
  Fixture.Build_Scenario Fixture.dai 18 1050000000000000000 0 true 950
                         Fixture.flat_price Fixture.a_quote 0
                         (Some "zapperZapIn").


(** ** Native-asset sources *)







Section NativeSource.
Context {W : Type} (B : Backend W) (cfg : Config).








End NativeSource.


Section NativeRuns.
Context {W : Type} (B : Backend W) (cfg : Config).





End NativeRuns.

Section NativeDeposit.
Context {W : Type} (B : Backend W) (cfg : Config).


End NativeDeposit.





(** ** The caller's options after a routed call *)










Section OptionsEffect.
Context {W : Type} (B : Backend W) (cfg : Config).






End OptionsEffect.

Section OptionsAfter.
Context {W : Type} (B : Backend W) (cfg : Config).



End OptionsAfter.


(** Options a caller might reuse: a tolerance, a sandbox and a root of its
    own, a gas limit. *)
Definition callers_options : Opt.t :=
  Opt.mk (Some 0.5%float) (Some "my-root") (Some "my-fork") None (Some 1) None.


(** The same object handed to a second call: the older [deposit], then
    [withdraw] (whose approval is outstanding here).  The approval
    simulation of the second call carries the gas price and the gas limit
    the first call stored, not the caller's. *)
Lemma second_call_sees_the_overwritten_options :
  trace_of
    (bind (V1.deposit (Fixture.backend approved_routed_scenario)
                      (Fixture.config approved_routed_scenario)
                      Fixture.alice Fixture.usdc 1000 Fixture.yvDai)
          (fun _ =>
             V2.withdraw (Fixture.backend routed_scenario)
                         (Fixture.config routed_scenario)
                         Fixture.alice Fixture.yvDai 1000 Fixture.usdc)
          (Fixture.initial callers_options))
  = [EvVaultToken Fixture.yvDai;
     EvZapInApprovalState Fixture.alice Fixture.usdc YEARN;
     EvZapIn Fixture.alice Fixture.usdc 1000 Fixture.yvDai 0 0.5%float
             (Some false) (Some YEARN);
     EvSimulateVaultInteraction Fixture.alice "0x2a9" (RawData "zap")
       Fixture.yvDai
       (Opt.mk (Some 0.5%float) None None (Some 7) (Some 210000) (Some false))
       (Some 0);
     EvVaultDecimals Fixture.yvDai; EvVaultPricePerShare Fixture.yvDai;
     EvGetNormalizedValueUsdc Fixture.yvDai 950;
     EvGetNormalizedValueUsdc Fixture.usdc 1000;
     EvVaultToken Fixture.yvDai;
     EvZapOutApprovalState Fixture.alice Fixture.yvDai;
     EvCreateFork;
     EvZapOutApprovalTransaction Fixture.alice Fixture.yvDai 0;
     EvMakeSimulationRequest Fixture.alice Fixture.yvDai (RawData "approve")
       (Opt.mk (Some 0.5%float) None (Some "fork-1") (Some 7) (Some 210000)
               (Some true))
       None;
     EvZapOut Fixture.alice Fixture.usdc 1000 Fixture.yvDai 0 0.5%float
              (Some true);
     EvSimulateVaultInteraction Fixture.alice "0x2a9" (RawData "zap")
       Fixture.usdc
       (Opt.mk (Some 0.5%float) (Some "sim-2") (Some "fork-1") (Some 7)
               (Some 210000) (Some false))
       (Some 0);
     EvGetNormalizedValueUsdc Fixture.usdc 950;
     EvGetNormalizedValueUsdc Fixture.yvDai 1000].
Proof. vm_compute. reflexivity. Qed.

(** * Further properties of the simulation engine *)

(** ** Variations of the scripted backend *)

(** The backend [b], with another token registry and vault registry. *)
Definition with_registries {W} (b : Backend W)
           (dyn : Address -> W -> Result (option VaultDynamic) * W)
           (tok : Address -> W -> Result (option Token) * W) : Backend W := {|
  vault_token := vault_token b;
  vault_decimals := vault_decimals b;
  vault_pricePerShare := vault_pricePerShare b;
  vaults_getDynamic := dyn;
  tokens_findByAddress := tok;
  contract_allowance := contract_allowance b;
  zapper_zapInApprovalState := zapper_zapInApprovalState b;
  zapper_zapInApprovalTransaction := zapper_zapInApprovalTransaction b;
  zapper_zapOutApprovalState := zapper_zapOutApprovalState b;
  zapper_zapOutApprovalTransaction := zapper_zapOutApprovalTransaction b;
  zapper_zapIn := zapper_zapIn b;
  zapper_zapOut := zapper_zapOut b;
  executor_createFork := executor_createFork b;
  executor_makeSimulationRequest := executor_makeSimulationRequest b;
  executor_simulateVaultInteraction := executor_simulateVaultInteraction b;
  oracle_getNormalizedValueUsdc := oracle_getNormalizedValueUsdc b;
  pickle_getPriceUsdc := pickle_getPriceUsdc b;
  legacy_makeRequest := legacy_makeRequest b
|}.

(** The configuration [c] on another chain. *)
Definition on_chain (c : Config) (id : Z) : Config := {|
  EthAddress := EthAddress c;
  ZeroAddress := ZeroAddress c;
  WethAddress := WethAddress c;
  chainId := id;
  isEthereum := isEthereum c;
  isFantom := isFantom c;
  getAddress := getAddress c;
  getZapProtocol := getZapProtocol c;
  isUnderlyingToken := isUnderlyingToken c;
  encodeApprove := encodeApprove c;
  partner := partner c
|}.

(** A registry in which every token can be zapped with [zap], and every
    vault names [zapperZapIn]. *)
Definition zappable_with (zap : string) (b : Backend Fixture.World)
  : Backend Fixture.World :=
  with_registries b
    (fun _ => Fixture.answer
                (Some (Build_VaultDynamic
                         (Some (Build_VaultMetadataOverrides
                                  (Some "zapperZapIn"))))))
    (fun a => Fixture.answer (Some (Build_Token a (Some [(zap, true)])))).

(** ** [deposit]: what is rejected before anything is simulated *)

Section DepositRejections.
Context {W : Type} (B : Backend W) (cfg : Config).

Lemma V2_deposit_unknown_token f sl a v o s dyn w1 w2 :
  vaults_getDynamic B v (world s) = (Ok dyn, w1) ->
  tokens_findByAddress B sl w1 = (Ok None, w2) ->
  V2.deposit B cfg f sl a v o s
  = (Err (SdkError ("Could not find the token by address: " ++ sl) None),
     mkState w2 (callerOptions s), [EvGetDynamic v; EvFindByAddress sl]).
Proof.
  intros Hd Ht. unfold V2.deposit. unfold_run. cbv beta.
  rewrite Hd. exec. rewrite Ht. reflexivity.
Qed.

Lemma V2_deposit_unknown_vault f sl a v o s tk w1 w2 :
  vaults_getDynamic B v (world s) = (Ok None, w1) ->
  tokens_findByAddress B sl w1 = (Ok (Some tk), w2) ->
  V2.deposit B cfg f sl a v o s
  = (Err (SdkError ("Could not get dynamic vault: " ++ v) None),
     mkState w2 (callerOptions s), [EvGetDynamic v; EvFindByAddress sl]).
Proof.
  intros Hd Ht. unfold V2.deposit. unfold_run. cbv beta.
  rewrite Hd. exec. rewrite Ht. reflexivity.
Qed.

Lemma V2_deposit_unsupported_token f sl a v o s dyn tk w1 w2 :
  vaults_getDynamic B v (world s) = (Ok (Some dyn), w1) ->
  tokens_findByAddress B sl w1 = (Ok (Some tk), w2) ->
  isZapInSupported (getZapInDetails cfg (Some tk) (vault_metadata dyn))
  = false ->
  isUnderlyingToken cfg v (token_address tk) = false ->
  V2.deposit B cfg f sl a v o s
  = (Err (SdkError ("Deposit of " ++ token_address tk ++ " to " ++ v
                      ++ " is not supported") None),
     mkState w2 (callerOptions s), [EvGetDynamic v; EvFindByAddress sl]).
Proof.
  intros Hd Ht Hz Hu. unfold V2.deposit. unfold_run. cbv beta.
  rewrite Hd. exec. rewrite Ht. exec. rewrite Hz, Hu. reflexivity.
Qed.

Lemma getZapInDetails_fantom tk md zaps :
  isEthereum cfg (chainId cfg) = false ->
  isFantom cfg (chainId cfg) = true ->
  token_supported tk = Some zaps ->
  getZapInDetails cfg (Some tk) (Some md)
  = Build_ZapInDetails (supports "ftmApeZap" zaps) (Some "ftmApeZap").
Proof.
  intros He Hf Hs. unfold getZapInDetails. rewrite Hs, He, Hf. reflexivity.
Qed.

End DepositRejections.

(** X1.  Before anything is simulated, [deposit] looks the vault and the
    token up, in this order, and rejects the request after exactly these two
    lookups: when the token is unknown (also when the vault is unknown too),
    when the vault is unknown, and when the token can neither be zapped in
    nor is the vault's underlying token. *)
Theorem deposit_rejections_follow_the_two_lookups :
  forall (W : Type) (B : Backend W) (cfg : Config) f sl a v o s,
    (forall dyn w1 w2,
        vaults_getDynamic B v (world s) = (Ok dyn, w1) ->
        tokens_findByAddress B sl w1 = (Ok None, w2) ->
        V2.deposit B cfg f sl a v o s
        = (Err (SdkError ("Could not find the token by address: " ++ sl)
                         None),
           mkState w2 (callerOptions s),
           [EvGetDynamic v; EvFindByAddress sl]))
    /\ (forall tk w1 w2,
        vaults_getDynamic B v (world s) = (Ok None, w1) ->
        tokens_findByAddress B sl w1 = (Ok (Some tk), w2) ->
        V2.deposit B cfg f sl a v o s
        = (Err (SdkError ("Could not get dynamic vault: " ++ v) None),
           mkState w2 (callerOptions s),
           [EvGetDynamic v; EvFindByAddress sl]))
    /\ (forall dyn tk w1 w2,
        vaults_getDynamic B v (world s) = (Ok (Some dyn), w1) ->
        tokens_findByAddress B sl w1 = (Ok (Some tk), w2) ->
        isZapInSupported (getZapInDetails cfg (Some tk) (vault_metadata dyn))
        = false ->
        isUnderlyingToken cfg v (token_address tk) = false ->
        V2.deposit B cfg f sl a v o s
        = (Err (SdkError ("Deposit of " ++ token_address tk ++ " to " ++ v
                            ++ " is not supported") None),
           mkState w2 (callerOptions s),
           [EvGetDynamic v; EvFindByAddress sl])).
Proof.
  intros W B cfg f sl a v o s. repeat split; intros.
  - eapply V2_deposit_unknown_token; eassumption.
  - eapply V2_deposit_unknown_vault; eassumption.
  - eapply V2_deposit_unsupported_token; eassumption.
Qed.

(** A registry that knows no token and no vault. *)
Definition empty_registries : Backend Fixture.World :=
  with_registries (Fixture.backend direct_scenario)
                  (fun _ => Fixture.answer None)
                  (fun _ => Fixture.answer None).

Lemma deposit_rejections_follow_the_two_lookups_witness :
  V2.deposit empty_registries (Fixture.config direct_scenario)
             Fixture.alice Fixture.dai 1000 Fixture.yvDai Opt.empty
             (Fixture.initial Opt.empty)
  = (Err (SdkError "Could not find the token by address: 0xDA1" None),
     Fixture.initial Opt.empty,
     [EvGetDynamic Fixture.yvDai; EvFindByAddress Fixture.dai]).
Proof.
  exact (proj1 (deposit_rejections_follow_the_two_lookups
                  Fixture.World empty_registries
                  (Fixture.config direct_scenario)
                  Fixture.alice Fixture.dai 1000 Fixture.yvDai Opt.empty
                  (Fixture.initial Opt.empty))
               None Fixture.start Fixture.start eq_refl eq_refl).
Defined.

(** X2.  On a chain that is Fantom and not Ethereum, [deposit] of a token
    whose [supported] object marks [ftmApeZap] is rejected with
    "ftmApeZap not implemented yet!" right after the two lookups, whatever
    zap the vault's metadata names and whether or not the token is the
    vault's own underlying token: nothing is simulated. *)
Theorem fantom_zap_deposit_is_rejected_unsimulated :
  forall (W : Type) (B : Backend W) (cfg : Config) f sl a v o s
         dyn md tk zaps w1 w2,
    isEthereum cfg (chainId cfg) = false ->
    isFantom cfg (chainId cfg) = true ->
    vaults_getDynamic B v (world s) = (Ok (Some dyn), w1) ->
    vault_metadata dyn = Some md ->
    tokens_findByAddress B sl w1 = (Ok (Some tk), w2) ->
    token_supported tk = Some zaps ->
    supports "ftmApeZap" zaps = true ->
    V2.deposit B cfg f sl a v o s
    = (Err (SdkError "ftmApeZap not implemented yet!" None),
       mkState w2 (callerOptions s), [EvGetDynamic v; EvFindByAddress sl]).
Proof.
  intros W B cfg f sl a v o s dyn md tk zaps w1 w2 He Hf Hd Hm Ht Hs Hz.
  unfold V2.deposit. unfold_run. cbv beta.
  rewrite Hd. exec. rewrite Ht. exec. rewrite Hm.
  rewrite (getZapInDetails_fantom cfg tk md zaps He Hf Hs).
  cbn [isZapInSupported zapInWith_detail]. rewrite Hz.
  reflexivity.
Qed.

Lemma fantom_zap_deposit_is_rejected_unsimulated_witness :
  V2.deposit (zappable_with "ftmApeZap" (Fixture.backend direct_scenario))
             (on_chain (Fixture.config direct_scenario) 250)
             Fixture.alice Fixture.dai 1000 Fixture.yvDai Opt.empty
             (Fixture.initial Opt.empty)
  = (Err (SdkError "ftmApeZap not implemented yet!" None),
     Fixture.initial Opt.empty,
     [EvGetDynamic Fixture.yvDai; EvFindByAddress Fixture.dai]).
Proof.
  exact (fantom_zap_deposit_is_rejected_unsimulated
           Fixture.World
           (zappable_with "ftmApeZap" (Fixture.backend direct_scenario))
           (on_chain (Fixture.config direct_scenario) 250)
           Fixture.alice Fixture.dai 1000 Fixture.yvDai Opt.empty
           (Fixture.initial Opt.empty)
           (Build_VaultDynamic
              (Some (Build_VaultMetadataOverrides (Some "zapperZapIn"))))
           (Build_VaultMetadataOverrides (Some "zapperZapIn"))
           (Build_Token Fixture.dai (Some [("ftmApeZap", true)]))
           [("ftmApeZap", true)] Fixture.start Fixture.start
           eq_refl eq_refl eq_refl eq_refl eq_refl eq_refl eq_refl).
Defined.

(** ** The reads of the underlying token *)

Definition fetched {A W} (x : Result A * W) : bool := is_ok (fst x).


(** ** Allowances *)

Lemma lt_toBN a b : BN.lt (toBN a) (toBN b) = (a <? b).
Proof.
  unfold toBN, BN.of_Z, BN.lt, BN.pow10. cbn [N.of_nat].
  rewrite !N.mul_1_r.
  assert (H : forall z, BN.signed (z <? 0) (Z.abs_N z) = z).
  { intros z. unfold BN.signed. rewrite N2Z.inj_abs_N.
    destruct (Z.ltb_spec z 0); lia. }
  rewrite !H. reflexivity.
Qed.

Section Allowances.
Context {W : Type} (B : Backend W) (cfg : Config).

Lemma V2_depositNeedsApproving_run d s :
  let spender := V2.getActionableAddress cfg (V2.toVault d) in
  let r := contract_allowance B (V2.sellToken d) (V2.from d) spender
                              (world s) in
  trace_of (V2.depositNeedsApproving B cfg d s)
  = [EvAllowance (V2.sellToken d) (V2.from d) spender]
  /\ match fst r with
     | Ok al =>
         result_of (V2.depositNeedsApproving B cfg d s)
         = Ok (al <? V2.amount d)
     | Err _ =>
         exists msg,
           result_of (V2.depositNeedsApproving B cfg d s)
           = Err (SdkError msg None)
     end.
Proof.
  cbv zeta. unfold V2.depositNeedsApproving. unfold_run. cbv beta.
  destruct (contract_allowance B (V2.sellToken d) (V2.from d)
              (V2.getActionableAddress cfg (V2.toVault d)) (world s))
    as [[al|e] w]; exec; split; try reflexivity.
  - unfold result_of. cbn [fst]. rewrite lt_toBN. reflexivity.
  - eexists. reflexivity.
Qed.

Lemma V1_depositNeedsApproving_run f tk v amt s :
  let r := contract_allowance B tk f v (world s) in
  trace_of (V1.depositNeedsApproving B f tk v amt s) = [EvAllowance tk f v]
  /\ match fst r with
     | Ok al =>
         result_of (V1.depositNeedsApproving B f tk v amt s) = Ok (al <? amt)
     | Err _ =>
         exists msg,
           result_of (V1.depositNeedsApproving B f tk v amt s)
           = Err (TypeError msg)
     end.
Proof.
  cbv zeta. unfold V1.depositNeedsApproving. unfold_run. cbv beta.
  destruct (contract_allowance B tk f v (world s)) as [[al|e] w]; exec;
    split; try reflexivity.
  - unfold result_of. cbn [fst]. rewrite lt_toBN. reflexivity.
  - eexists. reflexivity.
Qed.

End Allowances.

(** X4.  A direct deposit needs an approval exactly when the allowance read
    from the token contract is strictly below the amount (an allowance equal
    to the amount needs none).  The current interface reads the allowance of
    the address the deposit is sent to (the partner's when the partner
    service handles the vault) and turns a failed read into an [SdkError];
    the older interface reads the vault's allowance, swallows a failed read
    and then fails with a [TypeError] on the missing result. *)
Theorem deposit_needs_approval_iff_allowance_is_short :
  forall (W : Type) (B : Backend W) (cfg : Config),
    (forall d s,
        let spender := V2.getActionableAddress cfg (V2.toVault d) in
        let r := contract_allowance B (V2.sellToken d) (V2.from d) spender
                                    (world s) in
        trace_of (V2.depositNeedsApproving B cfg d s)
        = [EvAllowance (V2.sellToken d) (V2.from d) spender]
        /\ match fst r with
           | Ok al =>
               result_of (V2.depositNeedsApproving B cfg d s)
               = Ok (al <? V2.amount d)
           | Err _ =>
               exists msg,
                 result_of (V2.depositNeedsApproving B cfg d s)
                 = Err (SdkError msg None)
           end)
    /\ (forall f tk v amt s,
        let r := contract_allowance B tk f v (world s) in
        trace_of (V1.depositNeedsApproving B f tk v amt s)
        = [EvAllowance tk f v]
        /\ match fst r with
           | Ok al =>
               result_of (V1.depositNeedsApproving B f tk v amt s)
               = Ok (al <? amt)
           | Err _ =>
               exists msg,
                 result_of (V1.depositNeedsApproving B f tk v amt s)
                 = Err (TypeError msg)
           end).
Proof.
  intros W B cfg. split; intros.
  - apply V2_depositNeedsApproving_run.
  - apply V1_depositNeedsApproving_run.
Qed.

(** ** The legacy service *)

Definition missing_slippage_legacy : Error :=
  SdkError "slippage needs to be specified for a zap" None.

Section LegacySlippage.
Context {W : Type} (B : Backend W) (cfg : Config).

Lemma Legacy_deposit_without_slippage f tk a v s u w1 :
  vault_token B v (world s) = (Ok u, w1) ->
  String.eqb u (getAddress cfg tk) = false ->
  Legacy.deposit B cfg f tk a v None s
  = (Err missing_slippage_legacy, mkState w1 (callerOptions s),
     [EvVaultToken v]).
Proof.
  intros Hu Hz. unfold Legacy.deposit. unfold_run. cbv beta.
  rewrite Hu. exec. rewrite Hz. reflexivity.
Qed.

Lemma Legacy_withdraw_without_slippage f tk a v s u w1 :
  vault_token B v (world s) = (Ok u, w1) ->
  String.eqb u (getAddress cfg tk) = false ->
  Legacy.withdraw B cfg f tk a v None s
  = (Err missing_slippage_legacy, mkState w1 (callerOptions s),
     [EvVaultToken v]).
Proof.
  intros Hu Hz. unfold Legacy.withdraw. unfold_run. cbv beta.
  rewrite Hu. exec. rewrite Hz. reflexivity.
Qed.

Lemma Legacy_deposit_with_slippage f tk a v s u w1 sl :
  vault_token B v (world s) = (Ok u, w1) ->
  String.eqb u (getAddress cfg tk) = false ->
  exists rest,
    trace_of (Legacy.deposit B cfg f tk a v (Some sl) s)
    = EvVaultToken v :: EvZapIn f tk a v 0 sl None None :: rest.
Proof.
  intros Hu Hz. unfold Legacy.deposit, Legacy.zapIn. unfold_run. cbv beta.
  rewrite Hu. exec. rewrite Hz. exec.
  symex; eexists; reflexivity.
Qed.

Lemma Legacy_withdraw_with_slippage f tk a v s u w1 sl :
  vault_token B v (world s) = (Ok u, w1) ->
  String.eqb u (getAddress cfg tk) = false ->
  exists rest,
    trace_of (Legacy.withdraw B cfg f tk a v (Some sl) s)
    = EvVaultToken v :: EvZapOut f tk a v 0 sl None :: rest.
Proof.
  intros Hu Hz. unfold Legacy.withdraw, Legacy.zapOut. unfold_run. cbv beta.
  rewrite Hu. exec. rewrite Hz. exec.
  symex; eexists; reflexivity.
Qed.

End LegacySlippage.

(** X5.  The legacy service rejects a routed deposit or withdrawal only
    when no slippage is given at all: the request then fails right after the
    read of the vault's token.  Any number that is given, zero and NaN
    included, is passed to the zapper as it is, in a quote requested at gas
    price 0 (the later interfaces reject zero as missing). *)
Theorem legacy_rejects_only_an_absent_slippage :
  forall (W : Type) (B : Backend W) (cfg : Config) f tk a v s u w1,
    vault_token B v (world s) = (Ok u, w1) ->
    String.eqb u (getAddress cfg tk) = false ->
    Legacy.deposit B cfg f tk a v None s
    = (Err missing_slippage_legacy, mkState w1 (callerOptions s),
       [EvVaultToken v])
    /\ Legacy.withdraw B cfg f tk a v None s
       = (Err missing_slippage_legacy, mkState w1 (callerOptions s),
          [EvVaultToken v])
    /\ (forall sl, exists rest,
           trace_of (Legacy.deposit B cfg f tk a v (Some sl) s)
           = EvVaultToken v :: EvZapIn f tk a v 0 sl None None :: rest)
    /\ (forall sl, exists rest,
           trace_of (Legacy.withdraw B cfg f tk a v (Some sl) s)
           = EvVaultToken v :: EvZapOut f tk a v 0 sl None :: rest).
Proof.
  intros W B cfg f tk a v s u w1 Hu Hz. repeat split; intros.
  - eapply Legacy_deposit_without_slippage; eassumption.
  - eapply Legacy_withdraw_without_slippage; eassumption.
  - eapply Legacy_deposit_with_slippage; eassumption.
  - eapply Legacy_withdraw_with_slippage; eassumption.
Qed.

Lemma legacy_rejects_only_an_absent_slippage_witness :
  exists rest,
    trace_of (Legacy.deposit (Fixture.backend legacy_scenario)
                             (Fixture.config legacy_scenario)
                             Fixture.alice Fixture.usdc 1000 Fixture.yvDai
                             (Some 0%float) (Fixture.initial Opt.empty))
    = EvVaultToken Fixture.yvDai
      :: EvZapIn Fixture.alice Fixture.usdc 1000 Fixture.yvDai 0 0%float
                 None None
      :: rest.
Proof.
  exact (proj1 (proj2 (proj2
           (legacy_rejects_only_an_absent_slippage
              Fixture.World (Fixture.backend legacy_scenario)
              (Fixture.config legacy_scenario)
              Fixture.alice Fixture.usdc 1000 Fixture.yvDai
              (Fixture.initial Opt.empty) Fixture.dai Fixture.start
              eq_refl eq_refl))) 0%float).
Defined.

(** The legacy underlying amount: the product by the price per share is
    taken first and divided by [10^18]; the division is exact at 20 decimal
    places, so the amount is rounded once. *)
Lemma legacy_underlying_amount_half_up tokens p :
  0 <= tokens -> 0 <= p ->
  BN.toFixed0
    (BN.div (BN.multipliedBy (toBN tokens) (toBN p)) (BN.pow (toBN 10) 18))
  = (2 * tokens * p + 10 ^ 18) / (2 * 10 ^ 18).
Proof.
  intros Ht Hp.
  rewrite (toBN_nonneg tokens Ht), (toBN_nonneg p Hp), BN_pow_ten.
  cbn [BN.multipliedBy xorb Nat.add]. unfold BN.div.
  destruct (N.eqb_spec (BN.pow10 18) 0) as [E|_];
    [exfalso; exact (pow10_nonzero 18 E)|].
  cbn [xorb]. rewrite Nat.add_0_r.
  change (BN.pow10 0) with 1%N. rewrite N.mul_1_r.
  assert (K : BN.pow10 BN.DECIMAL_PLACES = (BN.pow10 2 * BN.pow10 18)%N)
    by reflexivity.
  rewrite K at 1.
  replace (Z.to_N tokens * Z.to_N p * (BN.pow10 2 * BN.pow10 18))%N
    with (Z.to_N tokens * Z.to_N p * BN.pow10 2 * BN.pow10 18)%N by lia.
  rewrite round_half_up_exact by apply pow10_nonzero.
  cbn [BN.toFixed0 BN.signed]. rewrite K.
  replace (Z.to_N tokens * Z.to_N p * BN.pow10 2)%N
    with (BN.pow10 2 * (Z.to_N tokens * Z.to_N p))%N by lia.
  rewrite round_half_up_cancel by apply pow10_nonzero.
  unfold BN.round_half_up, BN.pow10.
  rewrite N2Z.inj_div, N2Z.inj_add, !N2Z.inj_mul, N2Z.inj_pow, !Z2N.id
    by assumption.
  change (Z.of_N 2) with 2. change (Z.of_N 10) with 10.
  change (Z.of_N (N.of_nat 18)) with 18.
  rewrite Z.mul_assoc. reflexivity.
Qed.

Definition not_a_decimals_read (ev : Event) : Prop :=
  match ev with EvVaultDecimals _ => False | _ => True end.

Section LegacyAmount.
Context {W : Type} (B : Backend W) (cfg : Config).

Lemma Legacy_zapIn_run f tk u a v sl s q w1 resp w2 p w3 x w4 y w5 :
  zapper_zapIn B f tk a v 0 sl None None (world s) = (Ok q, w1) ->
  legacy_makeRequest B (Legacy.body f (zo_to q) (zo_data q) (zo_value q)) w1
  = (Ok resp, w2) ->
  vault_pricePerShare B v w2 = (Ok p, w3) ->
  oracle_getNormalizedValueUsdc B tk (call_trace_output resp) w3
  = (Ok x, w4) ->
  oracle_getNormalizedValueUsdc B v a w4 = (Ok y, w5) ->
  exists o t,
    Legacy.zapIn B f tk u a v sl s = (Ok o, mkState w5 (callerOptions s), t)
    /\ Legacy.targetTokenAmount o = call_trace_output resp
    /\ Legacy.targetUnderlyingTokenAmount o
       = Some (BN.toFixed0
                 (BN.div (BN.multipliedBy (toBN (call_trace_output resp))
                                          (toBN p))
                         (BN.pow (toBN 10) 18))).
Proof.
  intros Hq Hs Hp Hx Hy. unfold Legacy.zapIn. unfold_run. cbv beta.
  rewrite Hq. exec. rewrite Hs. exec. rewrite Hp. exec. rewrite Hx. exec.
  rewrite Hy. exec. do 2 eexists. repeat split.
Qed.

Lemma Legacy_zapOut_run f tk u a v sl s q w1 resp w2 p w3 x w4 y w5 :
  zapper_zapOut B f tk a v 0 sl None (world s) = (Ok q, w1) ->
  legacy_makeRequest B (Legacy.body (zo_from q) (zo_to q) (zo_data q) 0) w1
  = (Ok resp, w2) ->
  vault_pricePerShare B v w2 = (Ok p, w3) ->
  oracle_getNormalizedValueUsdc B tk
    (BN.toFixed0 (toBN (call_trace_output resp))) w3 = (Ok x, w4) ->
  oracle_getNormalizedValueUsdc B v a w4 = (Ok y, w5) ->
  exists o t,
    Legacy.zapOut B f tk u a v sl s = (Ok o, mkState w5 (callerOptions s), t)
    /\ Legacy.targetUnderlyingTokenAmount o
       = Some (BN.toFixed0
                 (BN.div (BN.multipliedBy (toBN a) (toBN p))
                         (BN.pow (toBN 10) 18))).
Proof.
  intros Hq Hs Hp Hx Hy. unfold Legacy.zapOut. unfold_run. cbv beta.
  rewrite Hq. exec. rewrite Hs. exec. rewrite Hp. exec. rewrite Hx. exec.
  rewrite Hy. exec. do 2 eexists. repeat split.
Qed.

Lemma Legacy_deposit_reads_no_decimals f tk a v sl :
  emits (Legacy.deposit B cfg f tk a v sl) not_a_decimals_read.
Proof.
  unfold Legacy.deposit, Legacy.zapIn, Legacy.directDeposit.
  emits_auto; exact I.
Qed.

Lemma Legacy_withdraw_reads_no_decimals f tk a v sl :
  emits (Legacy.withdraw B cfg f tk a v sl) not_a_decimals_read.
Proof.
  unfold Legacy.withdraw, Legacy.zapOut, Legacy.directWithdraw.
  emits_auto; exact I.
Qed.

End LegacyAmount.

(** X6.  The legacy service never reads a vault's decimals: a routed
    deposit values the shares the simulation reports, and a routed
    withdrawal the shares sold, at the price per share over a fixed
    [10^18], the quotient rounded to the nearest integer with a half
    rounding up. *)
Theorem legacy_underlying_amount_assumes_18_decimals :
  forall (W : Type) (B : Backend W) (cfg : Config),
    (forall f tk a v sl,
        emits (Legacy.deposit B cfg f tk a v sl) not_a_decimals_read
        /\ emits (Legacy.withdraw B cfg f tk a v sl) not_a_decimals_read)
    /\ (forall f tk u a v sl s q w1 resp w2 p w3 x w4 y w5,
        zapper_zapIn B f tk a v 0 sl None None (world s) = (Ok q, w1) ->
        legacy_makeRequest B
          (Legacy.body f (zo_to q) (zo_data q) (zo_value q)) w1
        = (Ok resp, w2) ->
        vault_pricePerShare B v w2 = (Ok p, w3) ->
        oracle_getNormalizedValueUsdc B tk (call_trace_output resp) w3
        = (Ok x, w4) ->
        oracle_getNormalizedValueUsdc B v a w4 = (Ok y, w5) ->
        0 <= call_trace_output resp -> 0 <= p ->
        exists o t,
          Legacy.zapIn B f tk u a v sl s
          = (Ok o, mkState w5 (callerOptions s), t)
          /\ Legacy.targetUnderlyingTokenAmount o
             = Some ((2 * call_trace_output resp * p + 10 ^ 18)
                     / (2 * 10 ^ 18)))
    /\ (forall f tk u a v sl s q w1 resp w2 p w3 x w4 y w5,
        zapper_zapOut B f tk a v 0 sl None (world s) = (Ok q, w1) ->
        legacy_makeRequest B
          (Legacy.body (zo_from q) (zo_to q) (zo_data q) 0) w1
        = (Ok resp, w2) ->
        vault_pricePerShare B v w2 = (Ok p, w3) ->
        oracle_getNormalizedValueUsdc B tk
          (BN.toFixed0 (toBN (call_trace_output resp))) w3 = (Ok x, w4) ->
        oracle_getNormalizedValueUsdc B v a w4 = (Ok y, w5) ->
        0 <= a -> 0 <= p ->
        exists o t,
          Legacy.zapOut B f tk u a v sl s
          = (Ok o, mkState w5 (callerOptions s), t)
          /\ Legacy.targetUnderlyingTokenAmount o
             = Some ((2 * a * p + 10 ^ 18) / (2 * 10 ^ 18))).
Proof.
  intros W B cfg. split; [|split].
  - intros. split.
    + apply Legacy_deposit_reads_no_decimals.
    + apply Legacy_withdraw_reads_no_decimals.
  - intros f tk u a v sl s q w1 resp w2 p w3 x w4 y w5 Hq Hs Hp Hx Hy H1 H2.
    destruct (Legacy_zapIn_run B f tk u a v sl s q w1 resp w2 p w3 x w4 y w5
                Hq Hs Hp Hx Hy) as (o & t & E & _ & Hu).
    exists o, t. split; [exact E|]. rewrite Hu.
    rewrite legacy_underlying_amount_half_up by assumption. reflexivity.
  - intros f tk u a v sl s q w1 resp w2 p w3 x w4 y w5 Hq Hs Hp Hx Hy H1 H2.
    destruct (Legacy_zapOut_run B f tk u a v sl s q w1 resp w2 p w3 x w4 y w5
                Hq Hs Hp Hx Hy) as (o & t & E & Hu).
    exists o, t. split; [exact E|]. rewrite Hu.
    rewrite legacy_underlying_amount_half_up by assumption. reflexivity.
Qed.

(** A vault of 6 decimals whose share is worth 1.5 units: the legacy
    service reports an underlying amount of 0 for 500 shares. *)
Definition six_decimals_scenario : Fixture.Scenario :=
  Fixture.Build_Scenario Fixture.dai 6 1500000 0 false 500
                         Fixture.flat_price Fixture.a_quote 0
                         (Some "zapperZapIn").

Lemma legacy_underlying_amount_assumes_18_decimals_witness :
  exists o t,
    Legacy.zapIn (Fixture.backend six_decimals_scenario)
                 Fixture.alice Fixture.usdc Fixture.dai 1000 Fixture.yvDai
                 0.5%float (Fixture.initial Opt.empty)
    = (Ok o, mkState (Fixture.Build_World 0 1) Opt.empty, t)
    /\ Legacy.targetUnderlyingTokenAmount o
       = Some ((2 * 500 * 1500000 + 10 ^ 18) / (2 * 10 ^ 18)).
Proof.
  exact (proj1 (proj2
           (legacy_underlying_amount_assumes_18_decimals
              Fixture.World (Fixture.backend six_decimals_scenario)
              (Fixture.config six_decimals_scenario)))
           Fixture.alice Fixture.usdc Fixture.dai 1000 Fixture.yvDai
           0.5%float (Fixture.initial Opt.empty)
           Fixture.a_quote Fixture.start
           (Build_SimulationResponse "sim-1" 500 [500])
           (Fixture.Build_World 0 1) 1500000 (Fixture.Build_World 0 1)
           1000 (Fixture.Build_World 0 1) 2000 (Fixture.Build_World 0 1)
           eq_refl eq_refl eq_refl eq_refl eq_refl
           ltac:(vm_compute; discriminate) ltac:(vm_compute; discriminate)).
Defined.

(** ** The gas price of the quotes *)

(** A zap-out quote is requested at gas price 0. *)
Definition zapOut_quoted_at_zero (ev : Event) : Prop :=
  match ev with
  | EvZapOut _ _ _ _ g _ _ => g = 0
  | _ => True
  end.

(** A zap-in quote is requested at the gas price [g]. *)
Definition zapIn_quoted_at (g : Integer) (ev : Event) : Prop :=
  match ev with
  | EvZapIn _ _ _ _ g' _ _ _ => g' = g
  | _ => True
  end.

Section QuoteGasPrice.
Context {W : Type} (B : Backend W) (cfg : Config).

Lemma V2_withdraw_quotes_at_zero f v a t :
  emits (V2.withdraw B cfg f v a t) zapOut_quoted_at_zero.
Proof.
  unfold V2.withdraw, V2.withdraw_needsApproving,
    V2.zapOut_simulateWithdrawal, V2.direct_simulateWithdrawal,
    V2.zapOut, V2.directWithdraw.
  emits_auto; try exact I; reflexivity.
Qed.

Lemma V1_withdraw_quotes_at_zero f v a t :
  emits (V1.withdraw B cfg f v a t) zapOut_quoted_at_zero.
Proof.
  unfold V1.withdraw, V1.withdraw_needsApproving,
    V1.simulateZapApprovalTransaction,
    V1.zapOut_simulateWithdrawal, V1.direct_simulateWithdrawal,
    V1.zapOut, V1.directWithdraw.
  emits_auto; try exact I; reflexivity.
Qed.

Lemma emits_bind_with {A C} (m : M W A) (k : A -> M W C) P (Q : A -> Prop) :
  emits m P -> ensures m Q -> (forall a, Q a -> emits (k a) P) ->
  emits (bind m k) P.
Proof.
  intros Hm Hq Hk s. specialize (Hm s). unfold bind.
  destruct (m s) as [[[a|e] s1] t1] eqn:R; cbn in *; [|exact Hm].
  specialize (Hk a (Hq _ _ _ _ R) s1).
  destruct (k a s1) as [[r s2] t2]. cbn in *.
  apply Forall_app. split; assumption.
Qed.

Lemma V2_zapIn_quotes_at_the_callers_price d u skip :
  emits (V2.zapIn B cfg d u skip)
        (zapIn_quoted_at (quote_gasPrice (V2.options d))).
Proof. unfold V2.zapIn. emits_auto; try exact I; reflexivity. Qed.

Lemma V2_handleZapIn_quotes_at_the_callers_price z vc d :
  emits (V2.handleZapInSimulationDeposit B cfg z vc d)
        (zapIn_quoted_at (quote_gasPrice (V2.options d))).
Proof.
  unfold V2.handleZapInSimulationDeposit.
  destruct (String.eqb z "zapperZapIn"); [|emits_auto].
  apply emits_bind; [unfold V2.getUnderlyingToken; emits_auto; exact I|].
  intros u.
  apply emits_bind_with
    with (Q := fun args : (bool -> M W TransactionOutcome) * option string =>
                 forall sv,
                   emits (fst args sv)
                         (zapIn_quoted_at (quote_gasPrice (V2.options d)))).
  - unfold V2.getZapperZapInSimulationArgs, V2.getZapperZapInApprovalData.
    emits_auto; exact I.
  - unfold V2.getZapperZapInSimulationArgs.
    destruct (negb (isEthereum cfg (chainId cfg))); [apply ensures_throw|].
    destruct (Opt.slippage_missing (V2.options d)); [apply ensures_throw|].
    apply ensures_bind. intros ad. apply ensures_ret. intros sv.
    cbn [fst]. unfold V2.zapIn_simulateFn.
    apply (V2_zapIn_quotes_at_the_callers_price
             (V2.with_options d
                (V2.spread_options (V2.options d) (V2.forkId (V2.approval ad))
                   sv (V2.approvalTransactionId (V2.approval ad))))).
  - intros args H. apply emits_executeSimulation; [exact I|exact H].
Qed.

Lemma V2_deposit_quotes_at_the_callers_price f sl a v o :
  emits (V2.deposit B cfg f sl a v o) (zapIn_quoted_at (quote_gasPrice o)).
Proof.
  unfold V2.deposit, V2.handleDirectSimulationDeposit, V2.getApprovalData,
    V2.depositNeedsApproving, V2.approve,
    V2.directDeposit_simulateFn, V2.directDeposit.
  emits_auto; try exact I.
  all: apply (V2_handleZapIn_quotes_at_the_callers_price _ _
                (V2.Build_DepositArgs f sl a v o)).
Qed.

End QuoteGasPrice.

(** X7.  [withdraw], in both generations of the interface, requests every
    zap-out quote at gas price 0: a gas price set in the caller's options is
    not passed to the zapper.  The current [deposit] requests its zap-in
    quotes at the caller's gas price, or at 0 when there is none. *)
Theorem withdraw_quotes_ignore_the_callers_gas_price :
  forall (W : Type) (B : Backend W) (cfg : Config),
    (forall f v a t, emits (V2.withdraw B cfg f v a t) zapOut_quoted_at_zero)
    /\ (forall f v a t,
           emits (V1.withdraw B cfg f v a t) zapOut_quoted_at_zero)
    /\ (forall f sl a v o,
           emits (V2.deposit B cfg f sl a v o)
                 (zapIn_quoted_at (quote_gasPrice o))).
Proof.
  intros W B cfg. repeat split; intros.
  - apply V2_withdraw_quotes_at_zero.
  - apply V1_withdraw_quotes_at_zero.
  - apply V2_deposit_quotes_at_the_callers_price.
Qed.

(** ** Direct withdrawals and the caller's options *)

(** A simulation sent with the options [o]. *)
Definition simulated_with (o : Opt.t) (ev : Event) : Prop :=
  match ev with
  | EvSimulateVaultInteraction _ _ _ _ o' _
  | EvMakeSimulationRequest _ _ _ o' _ => o' = o
  | _ => True
  end.

Section DirectWithdrawal.
Context {W : Type} (B : Backend W) (cfg : Config).

Lemma V2_direct_withdraw_options f v a t s u w1 :
  vault_token B v (world s) = (Ok u, w1) ->
  String.eqb u (getAddress cfg t) = true ->
  callerOptions (state_of (V2.withdraw B cfg f v a t s))
  = Opt.set_save (Some false) (callerOptions s)
  /\ Forall (simulated_with (Opt.set_save (Some false) (callerOptions s)))
            (trace_of (V2.withdraw B cfg f v a t s)).
Proof.
  intros Hu Hz.
  unfold V2.withdraw, executeSimulationWithReSimulationOnFailure,
    V2.direct_simulateWithdrawal, V2.directWithdraw.
  unfold_run. cbv beta. rewrite Hu. exec. rewrite Hz. exec.
  symex; (split; [reflexivity|repeat constructor]).
Qed.

Lemma V1_direct_withdraw_options f v a t s u w1 :
  vault_token B v (world s) = (Ok u, w1) ->
  String.eqb u (getAddress cfg t) = true ->
  callerOptions (state_of (V1.withdraw B cfg f v a t s))
  = Opt.set_save (Some false) (callerOptions s)
  /\ Forall (simulated_with (Opt.set_save (Some false) (callerOptions s)))
            (trace_of (V1.withdraw B cfg f v a t s)).
Proof.
  intros Hu Hz.
  unfold V1.withdraw, executeSimulationWithReSimulationOnFailure,
    V1.direct_simulateWithdrawal, V1.directWithdraw.
  unfold_run. cbv beta. rewrite Hu. exec. rewrite Hz. exec.
  symex; (split; [reflexivity|repeat constructor]).
Qed.

End DirectWithdrawal.

(** X25.  A direct withdrawal, in both generations of the interface, writes
    nothing but [save = false] into the caller's options, and sends every
    simulation with these options: the sandbox and the root simulation a
    previous routed call left in the object are used again, as are the gas
    price and the gas limit. *)
Theorem direct_withdrawal_reuses_the_callers_options :
  forall (W : Type) (B : Backend W) (cfg : Config) f v a t s u w1,
    vault_token B v (world s) = (Ok u, w1) ->
    String.eqb u (getAddress cfg t) = true ->
    (callerOptions (state_of (V2.withdraw B cfg f v a t s))
     = Opt.set_save (Some false) (callerOptions s)
     /\ Forall (simulated_with (Opt.set_save (Some false) (callerOptions s)))
               (trace_of (V2.withdraw B cfg f v a t s)))
    /\ (callerOptions (state_of (V1.withdraw B cfg f v a t s))
        = Opt.set_save (Some false) (callerOptions s)
        /\ Forall (simulated_with (Opt.set_save (Some false) (callerOptions s)))
                  (trace_of (V1.withdraw B cfg f v a t s))).
Proof.
  intros W B cfg f v a t s u w1 Hu Hz. split.
  - eapply V2_direct_withdraw_options; eassumption.
  - eapply V1_direct_withdraw_options; eassumption.
Qed.

(** The options a routed call left behind. *)
Definition stale_options : Opt.t :=
  Opt.mk (Some 0.5%float) (Some "sim-9") (Some "fork-9") None (Some 210000)
         (Some false).

Lemma direct_withdrawal_reuses_the_callers_options_witness :
  trace_of (V2.withdraw (Fixture.backend direct_scenario)
                        (Fixture.config direct_scenario)
                        Fixture.alice Fixture.yvDai 1000 Fixture.dai
                        (Fixture.initial stale_options))
  = [EvVaultToken Fixture.yvDai;
     EvSimulateVaultInteraction Fixture.alice Fixture.yvDai
                                (EncodeWithdraw 1000) Fixture.dai
                                stale_options None;
     EvGetNormalizedValueUsdc Fixture.dai 950]
  /\ Forall (simulated_with stale_options)
            (trace_of (V2.withdraw (Fixture.backend direct_scenario)
                                   (Fixture.config direct_scenario)
                                   Fixture.alice Fixture.yvDai 1000 Fixture.dai
                                   (Fixture.initial stale_options))).
Proof.
  split; [reflexivity|].
  exact (proj2 (proj1 (direct_withdrawal_reuses_the_callers_options
                         Fixture.World (Fixture.backend direct_scenario)
                         (Fixture.config direct_scenario)
                         Fixture.alice Fixture.yvDai 1000 Fixture.dai
                         (Fixture.initial stale_options) Fixture.dai
                         Fixture.start eq_refl eq_refl))).
Defined.

(** ** The legacy direct transfers *)

(** X26.  On the direct path the legacy service ignores the slippage and
    sends one simulation.  A deposit reports the output of the simulated
    call itself; a withdrawal reports the output of its first nested call,
    and fails with a [TypeError], after the simulation was made, when the
    trace has no nested call.  Neither reports a conversion rate, a
    slippage or an underlying amount. *)
Theorem legacy_direct_withdrawal_reads_the_first_nested_call :
  forall (W : Type) (B : Backend W) (cfg : Config) f tk a v slip s u w1,
    vault_token B v (world s) = (Ok u, w1) ->
    String.eqb u (getAddress cfg tk) = true ->
    (forall resp w2,
        legacy_makeRequest B (Legacy.body f v (EncodeWithdraw a) 0) w1
        = (Ok resp, w2) ->
        Legacy.withdraw B cfg f tk a v slip s
        = (match call_trace_calls resp with
           | output :: _ =>
               Ok (Legacy.Build_Outcome v a tk output None None None None)
           | [] => Err (TypeError "Cannot read properties of undefined")
           end,
           mkState w2 (callerOptions s),
           [EvVaultToken v;
            EvLegacySimulate (Legacy.body f v (EncodeWithdraw a) 0)]))
    /\ (forall resp w2,
        legacy_makeRequest B (Legacy.body f v (EncodeDeposit a) 0) w1
        = (Ok resp, w2) ->
        Legacy.deposit B cfg f tk a v slip s
        = (Ok (Legacy.Build_Outcome tk a v (call_trace_output resp)
                                    None None None None),
           mkState w2 (callerOptions s),
           [EvVaultToken v;
            EvLegacySimulate (Legacy.body f v (EncodeDeposit a) 0)])).
Proof.
  intros W B cfg f tk a v slip s u w1 Hu Hz. split; intros resp w2 Hr.
  - unfold Legacy.withdraw, Legacy.directWithdraw. unfold_run. cbv beta.
    rewrite Hu. exec. rewrite Hz. exec. rewrite Hr. exec.
    destruct (call_trace_calls resp); reflexivity.
  - unfold Legacy.deposit, Legacy.directDeposit. unfold_run. cbv beta.
    rewrite Hu. exec. rewrite Hz. exec. rewrite Hr. reflexivity.
Qed.

(** A simulation backend whose traces have no nested call. *)
Definition flat_traces (b : Backend Fixture.World) : Backend Fixture.World := {|
  vault_token := vault_token b;
  vault_decimals := vault_decimals b;
  vault_pricePerShare := vault_pricePerShare b;
  vaults_getDynamic := vaults_getDynamic b;
  tokens_findByAddress := tokens_findByAddress b;
  contract_allowance := contract_allowance b;
  zapper_zapInApprovalState := zapper_zapInApprovalState b;
  zapper_zapInApprovalTransaction := zapper_zapInApprovalTransaction b;
  zapper_zapOutApprovalState := zapper_zapOutApprovalState b;
  zapper_zapOutApprovalTransaction := zapper_zapOutApprovalTransaction b;
  zapper_zapIn := zapper_zapIn b;
  zapper_zapOut := zapper_zapOut b;
  executor_createFork := executor_createFork b;
  executor_makeSimulationRequest := executor_makeSimulationRequest b;
  executor_simulateVaultInteraction := executor_simulateVaultInteraction b;
  oracle_getNormalizedValueUsdc := oracle_getNormalizedValueUsdc b;
  pickle_getPriceUsdc := pickle_getPriceUsdc b;
  legacy_makeRequest := fun _ w =>
    (Ok (Build_SimulationResponse "sim-1" 950 []), w)
|}.

Lemma legacy_direct_withdrawal_reads_the_first_nested_call_witness :
  Legacy.withdraw (flat_traces (Fixture.backend direct_scenario))
                  (Fixture.config direct_scenario)
                  Fixture.alice Fixture.dai 1000 Fixture.yvDai None
                  (Fixture.initial Opt.empty)
  = (Err (TypeError "Cannot read properties of undefined"),
     Fixture.initial Opt.empty,
     [EvVaultToken Fixture.yvDai;
      EvLegacySimulate
        (Legacy.body Fixture.alice Fixture.yvDai (EncodeWithdraw 1000) 0)]).
Proof.
  exact (proj1 (legacy_direct_withdrawal_reads_the_first_nested_call
                  Fixture.World (flat_traces (Fixture.backend direct_scenario))
                  (Fixture.config direct_scenario)
                  Fixture.alice Fixture.dai 1000 Fixture.yvDai None
                  (Fixture.initial Opt.empty) Fixture.dai Fixture.start
                  eq_refl eq_refl)
               (Build_SimulationResponse "sim-1" 950 []) Fixture.start
               eq_refl).
Defined.

(** * Properties of the token interface *)

(** ** Merging token lists *)

(** The first entry of a list under an address. *)
Definition lookup_by {T : Type} (addr : T -> Address) (a : Address)
           (l : list T) : option T :=
  find (fun x => String.eqb (addr x) a) l.

Section Merge.
Context {T : Type} (addr : T -> Address).

Lemma includes_address_In l a : includes_address l a = true <-> In a l.
Proof.
  unfold includes_address. rewrite existsb_exists. split.
  - intros (x & Hx & E). apply String.eqb_eq in E. subst. exact Hx.
  - intros H. exists a. split; [exact H|apply String.eqb_refl].
Qed.

Lemma includes_address_not_In l a : includes_address l a = false <-> ~ In a l.
Proof.
  rewrite <- includes_address_In.
  destruct (includes_address l a); split; intros; congruence.
Qed.

Lemma lookup_by_app a (l1 l2 : list T) :
  lookup_by addr a (l1 ++ l2)
  = match lookup_by addr a l1 with
    | Some t => Some t
    | None => lookup_by addr a l2
    end.
Proof.
  unfold lookup_by. induction l1 as [|x l1 IH]; [reflexivity|].
  cbn. destruct (String.eqb (addr x) a); [reflexivity|exact IH].
Qed.

Lemma lookup_by_None a (l : list T) :
  lookup_by addr a l = None <-> ~ In a (map addr l).
Proof.
  unfold lookup_by. induction l as [|x l IH]; cbn.
  - split; [intros _ []|reflexivity].
  - destruct (String.eqb_spec (addr x) a) as [E|N].
    + split; [discriminate|]. intros H. exfalso. apply H. left. exact E.
    + rewrite IH. split.
      * intros H [E|I]; [exact (N E)|exact (H I)].
      * intros H I. apply H. right. exact I.
Qed.

Lemma lookup_by_filter a (keep : Address -> bool) (l : list T) :
  keep a = true ->
  lookup_by addr a (List.filter (fun x => keep (addr x)) l)
  = lookup_by addr a l.
Proof.
  intros K. unfold lookup_by. induction l as [|x l IH]; [reflexivity|].
  cbn. destruct (String.eqb_spec (addr x) a) as [E|N].
  - rewrite E, K. cbn. rewrite E, String.eqb_refl. reflexivity.
  - destruct (keep (addr x)); [|exact IH].
    cbn. destruct (String.eqb_spec (addr x) a); [contradiction|exact IH].
Qed.

Lemma merge_lookup a b x :
  lookup_by addr x (TokenInterface.mergeAddressables addr a b)
  = match lookup_by addr x a with
    | Some t => Some t
    | None => lookup_by addr x b
    end.
Proof.
  unfold TokenInterface.mergeAddressables. cbv zeta. rewrite lookup_by_app.
  destruct (lookup_by addr x a) eqn:E; [reflexivity|].
  apply lookup_by_None in E.
  apply (lookup_by_filter x
           (fun y => negb (includes_address (map addr a) y))).
  apply includes_address_not_In in E. rewrite E. reflexivity.
Qed.

Lemma merge_addresses a b :
  map addr (TokenInterface.mergeAddressables addr a b)
  = map addr a
    ++ List.filter (fun y => negb (includes_address (map addr a) y))
                   (map addr b).
Proof.
  unfold TokenInterface.mergeAddressables. cbv zeta. rewrite map_app.
  f_equal. induction b as [|x b IH]; [reflexivity|].
  cbn. destruct (negb (includes_address (map addr a) (addr x))); cbn;
    rewrite IH; reflexivity.
Qed.

Lemma merge_NoDup a b :
  NoDup (map addr a) -> NoDup (map addr b) ->
  NoDup (map addr (TokenInterface.mergeAddressables addr a b)).
Proof.
  intros Ha Hb. rewrite merge_addresses. apply NoDup_app.
  - exact Ha.
  - apply NoDup_filter. exact Hb.
  - intros y Hy Hf. apply filter_In in Hf. destruct Hf as [_ Hf].
    apply includes_address_In in Hy. rewrite Hy in Hf. discriminate Hf.
Qed.

Lemma merge_In a b x :
  In x (TokenInterface.mergeAddressables addr a b)
  <-> In x a \/ (In x b /\ ~ In (addr x) (map addr a)).
Proof.
  unfold TokenInterface.mergeAddressables. cbv zeta.
  rewrite in_app_iff, filter_In, Bool.negb_true_iff,
    includes_address_not_In.
  reflexivity.
Qed.

End Merge.

(** X8.  [mergeAddressables(a, b)] gives priority to [a]: looking an
    address up in the merged list finds the entry of [a] when [a] has one,
    and the entry of [b] otherwise; an entry of [b] is kept exactly when
    [a] has no entry for its address.  The result is free of duplicate
    addresses when [a] and [b] each are (duplicates inside one of the lists
    are not removed). *)
Theorem merge_gives_priority_to_the_first_list :
  forall (T : Type) (addr : T -> Address) (a b : list T),
    (forall x,
        lookup_by addr x (TokenInterface.mergeAddressables addr a b)
        = match lookup_by addr x a with
          | Some t => Some t
          | None => lookup_by addr x b
          end)
    /\ (forall x,
        In x (TokenInterface.mergeAddressables addr a b)
        <-> In x a \/ (In x b /\ ~ In (addr x) (map addr a)))
    /\ (NoDup (map addr a) -> NoDup (map addr b) ->
        NoDup (map addr (TokenInterface.mergeAddressables addr a b))).
Proof.
  intros T addr a b. split; [|split].
  - apply merge_lookup.
  - apply merge_In.
  - apply merge_NoDup.
Qed.

(** Two small registries: the vault's DAI, and zapper's DAI and USDC. *)
Definition a_token (a : Address) (src : TokenInterface.DataSource)
  : TokenInterface.Token :=
  TokenInterface.Build_Token a a a 18 1000000 None [] src.

Definition vault_registry : list TokenInterface.Token :=
  [a_token Fixture.dai TokenInterface.vaults].

Definition zapper_registry : list TokenInterface.Token :=
  [a_token Fixture.dai TokenInterface.zapper;
   a_token Fixture.usdc TokenInterface.zapper].

Lemma NoDup_by_nodup (l : list Address) :
  nodup string_dec l = l -> NoDup l.
Proof. intros E. rewrite <- E. apply NoDup_nodup. Qed.

Lemma merge_gives_priority_to_the_first_list_witness :
  NoDup (map TokenInterface.address
             (TokenInterface.mergeAddressables TokenInterface.address
                vault_registry zapper_registry)).
Proof.
  apply (proj2 (proj2 (merge_gives_priority_to_the_first_list
                         TokenInterface.Token TokenInterface.address
                         vault_registry zapper_registry))).
  - apply NoDup_by_nodup. vm_compute. reflexivity.
  - apply NoDup_by_nodup. vm_compute. reflexivity.
Defined.

(** ** The supported tokens *)

Ltac svc_run :=
  unfold Svc.bind, Svc.catch, Svc.call, Svc.ret, Svc.throw, Svc.lift;
  cbv beta.

Ltac svc_exec := cbn [fst snd app Svc.result_of Svc.world_of Svc.trace_of].

Definition mainnet_chains : list Z := [1; 1337].
Definition supported_chains : list Z := [1; 1337; 250; 42161].

Lemma unsupported_chain_is_not_mainnet c :
  includes_chain supported_chains c = false ->
  includes_chain mainnet_chains c = false.
Proof.
  unfold includes_chain, supported_chains, mainnet_chains. cbn.
  destruct (c =? 1), (c =? 1337); cbn; congruence.
Qed.

(** The requests that reach zapper or the icon store. *)
Definition is_zapper_request (ev : TokenInterface.Event) : bool :=
  match ev with
  | TokenInterface.EvZapperSupportedTokens
  | TokenInterface.EvAssetIcon _
  | TokenInterface.EvZapperBalances _ => true
  | _ => false
  end.

(** What [supported] makes of the three token lists. *)
Definition combined_tokens (v ib zt : list TokenInterface.Token)
  : list TokenInterface.Token :=
  match zt with
  | [] => TokenInterface.mergeAddressables TokenInterface.address v ib
  | _ :: _ =>
      TokenInterface.markZapperTokens zt
        (TokenInterface.mergeAddressables TokenInterface.address
           (TokenInterface.mergeAddressables TokenInterface.address v ib) zt)
  end.

Section Supported.
Context {W : Type} (B : TokenInterface.Backend W) (chain : Z).

Lemma supported_cached w c w1 :
  TokenInterface.cachedFetcherSupported_fetch B w = (Ok (Some c), w1) ->
  TokenInterface.supported B chain w
  = (Ok c, w1, [TokenInterface.EvCachedSupported]).
Proof.
  intros H. unfold TokenInterface.supported. svc_run. rewrite H. reflexivity.
Qed.

Lemma supported_unknown_chain w w1 :
  TokenInterface.cachedFetcherSupported_fetch B w = (Ok None, w1) ->
  includes_chain supported_chains chain = false ->
  TokenInterface.supported B chain w
  = (Ok [], w1, [TokenInterface.EvCachedSupported]).
Proof.
  intros H Hc. unfold TokenInterface.supported. svc_run. rewrite H.
  fold mainnet_chains supported_chains.
  rewrite (unsupported_chain_is_not_mainnet _ Hc), Hc. reflexivity.
Qed.

Lemma supported_off_mainnet w :
  includes_chain mainnet_chains chain = false ->
  existsb is_zapper_request
          (Svc.trace_of (TokenInterface.supported B chain w)) = false.
Proof.
  intros Hc. unfold TokenInterface.supported. svc_run.
  fold mainnet_chains supported_chains. rewrite Hc.
  destruct (TokenInterface.cachedFetcherSupported_fetch B w)
    as [[[c|]|e] w1]; try reflexivity.
  destruct (includes_chain supported_chains chain); [|reflexivity].
  destruct (TokenInterface.vaults_tokens B w1) as [[v|e] w2];
    [|reflexivity].
  destruct (TokenInterface.ironBank_tokens B w2) as [[ib|e] w3];
    reflexivity.
Qed.

(** A complete run on a chain with zapper: whatever the zapper step
    returned, and however it ended. *)
Lemma supported_run w w1 rz w2 t2 v w3 ib w4 :
  TokenInterface.cachedFetcherSupported_fetch B w = (Ok None, w1) ->
  includes_chain mainnet_chains chain = true ->
  TokenInterface.getZapperTokensWithIcons B w1 = (rz, w2, t2) ->
  TokenInterface.vaults_tokens B w2 = (Ok v, w3) ->
  TokenInterface.ironBank_tokens B w3 = (Ok ib, w4) ->
  TokenInterface.supported B chain w
  = (Ok (combined_tokens v ib match rz with Ok zt => zt | Err _ => [] end),
     w4,
     TokenInterface.EvCachedSupported
       :: t2 ++ [TokenInterface.EvVaultsTokens;
                 TokenInterface.EvIronBankTokens]).
Proof.
  intros H Hc Hz Hv Hi. unfold TokenInterface.supported. svc_run.
  rewrite H. fold mainnet_chains supported_chains. rewrite Hc.
  assert (Hs : includes_chain supported_chains chain = true).
  { revert Hc. unfold includes_chain, supported_chains, mainnet_chains.
    cbn. destruct (chain =? 1), (chain =? 1337); cbn; congruence. }
  rewrite Hs.
  unfold Svc.bind, Svc.catch, Svc.call, Svc.ret in Hz. rewrite Hz.
  destruct rz as [zt|e]; svc_exec; rewrite ?app_nil_r, Hv; svc_exec;
    rewrite Hi; svc_exec.
  - destruct zt; reflexivity.
  - reflexivity.
Qed.

End Supported.

Section Marking.

Lemma set_key_lookup k v o : lookup_supported k (TokenInterface.set_key k v o) = Some v.
Proof.
  induction o as [|[k' v'] o IH]; cbn.
  - rewrite String.eqb_refl. reflexivity.
  - destruct (String.eqb k' k) eqn:E; cbn.
    + rewrite String.eqb_refl. reflexivity.
    + rewrite E. exact IH.
Qed.

Lemma markZapperTokens_addresses zt l :
  map TokenInterface.address (TokenInterface.markZapperTokens zt l)
  = map TokenInterface.address l.
Proof.
  unfold TokenInterface.markZapperTokens. cbv zeta. rewrite map_map.
  apply map_ext. intros t.
  destruct (includes_address (map TokenInterface.address zt)
                             (TokenInterface.address t)); reflexivity.
Qed.

Lemma combined_tokens_addresses v ib zt :
  map TokenInterface.address (combined_tokens v ib zt)
  = map TokenInterface.address
        (TokenInterface.mergeAddressables TokenInterface.address
           (TokenInterface.mergeAddressables TokenInterface.address v ib) zt).
Proof.
  destruct zt as [|z zt].
  - cbn [combined_tokens]. unfold TokenInterface.mergeAddressables at 2.
    cbn. rewrite app_nil_r. reflexivity.
  - cbn [combined_tokens]. apply markZapperTokens_addresses.
Qed.

Lemma combined_tokens_marked v ib zt t :
  In t (combined_tokens v ib zt) ->
  In (TokenInterface.address t) (map TokenInterface.address zt) ->
  lookup_supported "zapper" (TokenInterface.token_supported t) = Some true.
Proof.
  destruct zt as [|z zt]; [intros _ []|].
  cbn [combined_tokens]. unfold TokenInterface.markZapperTokens. cbv zeta.
  rewrite in_map_iff. intros (t0 & E & _) Hz. subst t.
  destruct (includes_address (map TokenInterface.address (z :: zt))
                             (TokenInterface.address t0)) eqn:I.
  - cbn [TokenInterface.token_supported TokenInterface.with_supported].
    apply set_key_lookup.
  - apply includes_address_not_In in I.
    cbn [TokenInterface.address] in Hz. contradiction.
Qed.

Lemma combined_tokens_unmarked v ib zt t :
  In t (combined_tokens v ib zt) ->
  ~ In (TokenInterface.address t) (map TokenInterface.address zt) ->
  In t v \/ In t ib.
Proof.
  intros Ht Hz.
  assert (Hm : In t (TokenInterface.mergeAddressables TokenInterface.address
                       (TokenInterface.mergeAddressables
                          TokenInterface.address v ib) zt)).
  { destruct zt as [|z zt].
    - cbn [combined_tokens] in Ht. apply merge_In. left. exact Ht.
    - cbn [combined_tokens] in Ht.
      unfold TokenInterface.markZapperTokens in Ht. cbv zeta in Ht.
      apply in_map_iff in Ht. destruct Ht as (t0 & E & Ht0).
      destruct (includes_address (map TokenInterface.address (z :: zt))
                                 (TokenInterface.address t0)) eqn:I.
      + exfalso. apply Hz. subst t. cbn [TokenInterface.address
          TokenInterface.with_supported].
        apply includes_address_In. exact I.
      + subst t0. exact Ht0. }
  apply merge_In in Hm. destruct Hm as [Hm|[Hm _]].
  - apply merge_In in Hm. tauto.
  - exfalso. apply Hz. apply in_map. exact Hm.
Qed.

End Marking.

(** X9.  [supported] returns the cached list when the cache holds one, and
    then asks nobody else.  On a chain outside 1, 1337, 250 and 42161 it
    returns the empty list after the cache miss alone; on a chain other
    than 1 and 1337 it never contacts zapper or the icon store. *)
Theorem supported_tokens_are_gated_by_cache_and_chain :
  forall (W : Type) (B : TokenInterface.Backend W) (chain : Z) (w : W),
    (forall c w1,
        TokenInterface.cachedFetcherSupported_fetch B w = (Ok (Some c), w1) ->
        TokenInterface.supported B chain w
        = (Ok c, w1, [TokenInterface.EvCachedSupported]))
    /\ (forall w1,
        TokenInterface.cachedFetcherSupported_fetch B w = (Ok None, w1) ->
        includes_chain supported_chains chain = false ->
        TokenInterface.supported B chain w
        = (Ok [], w1, [TokenInterface.EvCachedSupported]))
    /\ (includes_chain mainnet_chains chain = false ->
        existsb is_zapper_request
                (Svc.trace_of (TokenInterface.supported B chain w)) = false).
Proof.
  intros W B chain w. split; [|split].
  - intros c w1. apply supported_cached.
  - intros w1. apply supported_unknown_chain.
  - apply supported_off_mainnet.
Qed.

Lemma supported_tokens_are_gated_by_cache_and_chain_witness :
  TokenInterface.supported (TokenFixture.backend TokenFixture.mainnet) 10 0%nat
  = (Ok [], 1%nat, [TokenInterface.EvCachedSupported])
  /\ existsb is_zapper_request
       (Svc.trace_of
          (TokenInterface.supported
             (TokenFixture.backend TokenFixture.mainnet) 250 0%nat)) = false.
Proof.
  split.
  - exact (proj1 (proj2 (supported_tokens_are_gated_by_cache_and_chain
                           TokenFixture.World
                           (TokenFixture.backend TokenFixture.mainnet) 10 0%nat))
                 1%nat eq_refl eq_refl).
  - exact (proj2 (proj2 (supported_tokens_are_gated_by_cache_and_chain
                           TokenFixture.World
                           (TokenFixture.backend TokenFixture.mainnet) 250 0%nat))
                 eq_refl).
Defined.

(** X10.  On chains 1 and 1337, when zapper's tokens could be loaded,
    [supported] lists the addresses of the vaults' tokens, then those of the
    Iron Bank's tokens the vaults do not list, then those of zapper's tokens
    neither lists.  Every entry whose address zapper lists carries
    [supported.zapper = true], and every other entry is a vault or Iron
    Bank token returned as it was. *)
Theorem supported_marks_the_tokens_zapper_lists :
  forall (W : Type) (B : TokenInterface.Backend W) (chain : Z)
         w w1 zt w2 t2 v w3 ib w4,
    TokenInterface.cachedFetcherSupported_fetch B w = (Ok None, w1) ->
    includes_chain mainnet_chains chain = true ->
    TokenInterface.getZapperTokensWithIcons B w1 = (Ok zt, w2, t2) ->
    TokenInterface.vaults_tokens B w2 = (Ok v, w3) ->
    TokenInterface.ironBank_tokens B w3 = (Ok ib, w4) ->
    exists l,
      TokenInterface.supported B chain w
      = (Ok l, w4,
         TokenInterface.EvCachedSupported
           :: t2 ++ [TokenInterface.EvVaultsTokens;
                     TokenInterface.EvIronBankTokens])
      /\ map TokenInterface.address l
         = map TokenInterface.address
               (TokenInterface.mergeAddressables TokenInterface.address
                  (TokenInterface.mergeAddressables TokenInterface.address
                     v ib) zt)
      /\ (forall t,
             In t l ->
             In (TokenInterface.address t) (map TokenInterface.address zt) ->
             lookup_supported "zapper" (TokenInterface.token_supported t)
             = Some true)
      /\ (forall t,
             In t l ->
             ~ In (TokenInterface.address t) (map TokenInterface.address zt) ->
             In t v \/ In t ib).
Proof.
  intros W B chain w w1 zt w2 t2 v w3 ib w4 H Hc Hz Hv Hi.
  exists (combined_tokens v ib zt). split; [|split; [|split]].
  - exact (supported_run B chain w w1 (Ok zt) w2 t2 v w3 ib w4 H Hc Hz Hv Hi).
  - apply combined_tokens_addresses.
  - apply combined_tokens_marked.
  - apply combined_tokens_unmarked.
Qed.

Lemma supported_marks_the_tokens_zapper_lists_witness :
  exists l,
    TokenInterface.supported (TokenFixture.backend TokenFixture.mainnet) 1
                             0%nat
    = (Ok l, 5%nat,
       TokenInterface.EvCachedSupported
         :: [TokenInterface.EvZapperSupportedTokens;
             TokenInterface.EvAssetIcon [Fixture.dai; Fixture.usdc]]
         ++ [TokenInterface.EvVaultsTokens; TokenInterface.EvIronBankTokens])
    /\ map TokenInterface.address l = [Fixture.dai; Fixture.usdc].
Proof.
  destruct (supported_marks_the_tokens_zapper_lists
              TokenFixture.World (TokenFixture.backend TokenFixture.mainnet)
              1 0%nat 1%nat
              [TokenFixture.token Fixture.dai TokenInterface.zapper;
               TokenInterface.with_icon "usdc.png"
                 (TokenFixture.token Fixture.usdc TokenInterface.zapper)]
              3%nat [TokenInterface.EvZapperSupportedTokens;
                 TokenInterface.EvAssetIcon [Fixture.dai; Fixture.usdc]]
              [TokenFixture.token Fixture.dai TokenInterface.vaults] 4%nat [] 5%nat
              eq_refl eq_refl eq_refl eq_refl eq_refl)
    as (l & E & Ha & _).
  exists l. split; [exact E|]. rewrite Ha. reflexivity.
Defined.

Section ZapperFailure.
Context {W : Type} (B : TokenInterface.Backend W) (chain : Z).

Lemma supported_without_zapper_tokens w w1 e w2 v w3 ib w4 :
  TokenInterface.cachedFetcherSupported_fetch B w = (Ok None, w1) ->
  includes_chain mainnet_chains chain = true ->
  TokenInterface.zapper_supportedTokens B w1 = (Err e, w2) ->
  TokenInterface.vaults_tokens B w2 = (Ok v, w3) ->
  TokenInterface.ironBank_tokens B w3 = (Ok ib, w4) ->
  TokenInterface.supported B chain w
  = (Ok (TokenInterface.mergeAddressables TokenInterface.address v ib), w4,
     [TokenInterface.EvCachedSupported;
      TokenInterface.EvZapperSupportedTokens;
      TokenInterface.EvVaultsTokens; TokenInterface.EvIronBankTokens]).
Proof.
  intros H Hc Hz Hv Hi.
  rewrite (supported_run B chain w w1 (Err e) w2
             [TokenInterface.EvZapperSupportedTokens] v w3 ib w4 H Hc);
    try assumption; [reflexivity|].
  unfold TokenInterface.getZapperTokensWithIcons. svc_run. rewrite Hz.
  reflexivity.
Qed.

Lemma supported_without_icons w w1 zs w' e w2 v w3 ib w4 :
  TokenInterface.cachedFetcherSupported_fetch B w = (Ok None, w1) ->
  includes_chain mainnet_chains chain = true ->
  TokenInterface.zapper_supportedTokens B w1 = (Ok zs, w') ->
  TokenInterface.asset_icon B (map TokenInterface.address zs) w'
  = (Err e, w2) ->
  TokenInterface.vaults_tokens B w2 = (Ok v, w3) ->
  TokenInterface.ironBank_tokens B w3 = (Ok ib, w4) ->
  TokenInterface.supported B chain w
  = (Ok (TokenInterface.mergeAddressables TokenInterface.address v ib), w4,
     [TokenInterface.EvCachedSupported;
      TokenInterface.EvZapperSupportedTokens;
      TokenInterface.EvAssetIcon (map TokenInterface.address zs);
      TokenInterface.EvVaultsTokens; TokenInterface.EvIronBankTokens]).
Proof.
  intros H Hc Hz Ha Hv Hi.
  rewrite (supported_run B chain w w1 (Err e) w2
             [TokenInterface.EvZapperSupportedTokens;
              TokenInterface.EvAssetIcon (map TokenInterface.address zs)]
             v w3 ib w4 H Hc);
    try assumption; [reflexivity|].
  unfold TokenInterface.getZapperTokensWithIcons. svc_run. rewrite Hz.
  svc_exec. rewrite Ha. reflexivity.
Qed.

End ZapperFailure.

(** X11.  On chains 1 and 1337 a failure of zapper does not fail
    [supported]: the vault and Iron Bank tokens are returned, unmarked.  A
    failure to load the icons has the same effect: the tokens zapper did
    list are dropped with it. *)
Theorem supported_survives_a_failure_of_zapper :
  forall (W : Type) (B : TokenInterface.Backend W) (chain : Z)
         w w1 v ib w4,
    TokenInterface.cachedFetcherSupported_fetch B w = (Ok None, w1) ->
    includes_chain mainnet_chains chain = true ->
    (forall e w2 w3,
        TokenInterface.zapper_supportedTokens B w1 = (Err e, w2) ->
        TokenInterface.vaults_tokens B w2 = (Ok v, w3) ->
        TokenInterface.ironBank_tokens B w3 = (Ok ib, w4) ->
        TokenInterface.supported B chain w
        = (Ok (TokenInterface.mergeAddressables TokenInterface.address v ib),
           w4,
           [TokenInterface.EvCachedSupported;
            TokenInterface.EvZapperSupportedTokens;
            TokenInterface.EvVaultsTokens; TokenInterface.EvIronBankTokens]))
    /\ (forall zs w' e w2 w3,
        TokenInterface.zapper_supportedTokens B w1 = (Ok zs, w') ->
        TokenInterface.asset_icon B (map TokenInterface.address zs) w'
        = (Err e, w2) ->
        TokenInterface.vaults_tokens B w2 = (Ok v, w3) ->
        TokenInterface.ironBank_tokens B w3 = (Ok ib, w4) ->
        TokenInterface.supported B chain w
        = (Ok (TokenInterface.mergeAddressables TokenInterface.address v ib),
           w4,
           [TokenInterface.EvCachedSupported;
            TokenInterface.EvZapperSupportedTokens;
            TokenInterface.EvAssetIcon (map TokenInterface.address zs);
            TokenInterface.EvVaultsTokens; TokenInterface.EvIronBankTokens])).
Proof.
  intros W B chain w w1 v ib w4 H Hc. split; intros.
  - eapply supported_without_zapper_tokens; eassumption.
  - eapply supported_without_icons; eassumption.
Qed.

Lemma supported_survives_a_failure_of_zapper_witness :
  TokenInterface.supported (TokenFixture.backend TokenFixture.zapper_down) 1
                           0%nat
  = (Ok [TokenFixture.token Fixture.dai TokenInterface.vaults], 4%nat,
     [TokenInterface.EvCachedSupported;
      TokenInterface.EvZapperSupportedTokens;
      TokenInterface.EvVaultsTokens; TokenInterface.EvIronBankTokens]).
Proof.
  exact (proj1 (supported_survives_a_failure_of_zapper
                  TokenFixture.World
                  (TokenFixture.backend TokenFixture.zapper_down) 1 0%nat
                  1%nat
                  [TokenFixture.token Fixture.dai TokenInterface.vaults] []
                  4%nat
                  eq_refl eq_refl)
               (Rejected "503") 2%nat 3%nat eq_refl eq_refl eq_refl).
Defined.

(** ** Balances *)

Definition requested (ta : option (list Address)) (a : Address) : Prop :=
  match ta with
  | Some l => In a l
  | None => True
  end.

Definition requested_tokens (ta : option (list Address))
           (toks : list TokenInterface.Token) : list TokenInterface.Token :=
  match ta with
  | Some l =>
      List.filter (fun t => includes_address l (TokenInterface.address t)) toks
  | None => toks
  end.

Lemma sourceAddresses_sound ta toks src a :
  In a (TokenInterface.sourceAddresses (requested_tokens ta toks) src) ->
  In a (map TokenInterface.address toks) /\ requested ta a.
Proof.
  unfold TokenInterface.sourceAddresses. rewrite in_map_iff.
  intros (t & E & Ht). apply filter_In in Ht. destruct Ht as [Ht _].
  subst a. destruct ta as [l|]; cbn [requested_tokens requested] in *.
  - apply filter_In in Ht. destruct Ht as [Ht Hl]. split.
    + apply in_map. exact Ht.
    + apply includes_address_In. exact Hl.
  - split; [apply in_map; exact Ht|exact I].
Qed.

Lemma filtered_balances_sound ta toks src (keep : TokenInterface.Balance -> bool)
      (bs : list TokenInterface.Balance) :
  (forall b, keep b = true ->
             includes_address
               (TokenInterface.sourceAddresses (requested_tokens ta toks) src)
               (TokenInterface.b_address b) = true) ->
  Forall (fun b => In (TokenInterface.b_address b)
                      (map TokenInterface.address toks)
                   /\ requested ta (TokenInterface.b_address b))
         (List.filter keep bs).
Proof.
  intros H. apply Forall_forall. intros b Hb. apply filter_In in Hb.
  destruct Hb as [_ Hk]. apply H in Hk. apply includes_address_In in Hk.
  eapply sourceAddresses_sound. exact Hk.
Qed.

Section SvcLaws.
Context {E W : Type}.

Lemma svc_bind_Ok {A C} (m : Svc.M (E := E) (W := W) A)
      (k : A -> Svc.M (E := E) (W := W) C) w c w' t :
  Svc.bind m k w = (Ok c, w', t) ->
  exists a w1 t1 t2,
    m w = (Ok a, w1, t1) /\ k a w1 = (Ok c, w', t2) /\ t = t1 ++ t2.
Proof.
  unfold Svc.bind. destruct (m w) as [[[a|e] w1] t1]; [|discriminate].
  destruct (k a w1) as [[r w2] t2] eqn:K. intros H. inversion H; subst.
  exists a, w1, t1, t2. auto.
Qed.

(** [svc_ensures m Q]: every value [m] returns satisfies [Q]. *)
Definition svc_ensures {A} (m : Svc.M (E := E) (W := W) A) (Q : A -> Prop)
  : Prop :=
  forall w a w' t, m w = (Ok a, w', t) -> Q a.

Lemma svc_ensures_ret {A} (a : A) (Q : A -> Prop) :
  Q a -> svc_ensures (Svc.ret a) Q.
Proof. intros H w a' w' t R. inversion R; subst. exact H. Qed.

Lemma svc_ensures_bind {A C} (m : Svc.M A) (k : A -> Svc.M C)
      (Q : C -> Prop) :
  (forall a, svc_ensures (k a) Q) -> svc_ensures (Svc.bind m k) Q.
Proof.
  intros H w c w' t R. apply svc_bind_Ok in R.
  destruct R as (a & w1 & t1 & t2 & _ & K & _). eapply H. exact K.
Qed.

Lemma svc_ensures_catch {A} (m : Svc.M A) (h : Error -> Svc.M A)
      (Q : A -> Prop) :
  svc_ensures m Q -> (forall e, svc_ensures (h e) Q) ->
  svc_ensures (Svc.catch m h) Q.
Proof.
  intros Hm Hh w a w' t. unfold Svc.catch.
  destruct (m w) as [[[x|e] w1] t1] eqn:R.
  - intros H. inversion H; subst. eapply Hm. exact R.
  - destruct (h e w1) as [[r w2] t2] eqn:K. intros H. inversion H; subst.
    eapply Hh. exact K.
Qed.

Lemma svc_ensures_bind_post {A C} (m : Svc.M A) (k : A -> Svc.M C)
      (P : A -> Prop) (Q : C -> Prop) :
  svc_ensures m P -> (forall a, P a -> svc_ensures (k a) Q) ->
  svc_ensures (Svc.bind m k) Q.
Proof.
  intros Hm H w c w' t R. apply svc_bind_Ok in R.
  destruct R as (a & w1 & t1 & t2 & M1 & K & _).
  eapply H; [eapply Hm; exact M1|exact K].
Qed.

End SvcLaws.

Section Balances.
Context {W : Type} (B : TokenInterface.Backend W) (chain : Z).

Lemma balances_sound account ta w toks w1 t1 l w' t :
  TokenInterface.supported B chain w = (Ok toks, w1, t1) ->
  TokenInterface.balances B chain account ta w = (Ok l, w', t) ->
  Forall (fun b => In (TokenInterface.b_address b)
                      (map TokenInterface.address toks)
                   /\ requested ta (TokenInterface.b_address b)) l.
Proof.
  intros Hs Hb. unfold TokenInterface.balances in Hb.
  apply svc_bind_Ok in Hb.
  destruct Hb as (toks' & w2 & t2 & t3 & Hs' & Hb & _).
  rewrite Hs in Hs'. inversion Hs'; subst toks' w2 t2. clear Hs' Hs.
  cbv zeta in Hb. fold (requested_tokens ta toks) in Hb.
  revert Hb. generalize w1, l, w', t3.
  apply svc_ensures_bind_post
    with (P := Forall (fun b => In (TokenInterface.b_address b)
                                   (map TokenInterface.address toks)
                                /\ requested ta (TokenInterface.b_address b))).
  - destruct (includes_chain [1; 1337] chain);
      [|apply svc_ensures_ret; constructor].
    apply svc_ensures_catch;
      [|intros e; apply svc_ensures_ret; constructor].
    apply svc_ensures_bind. intros zb. apply svc_ensures_ret.
    apply (filtered_balances_sound ta toks TokenInterface.zapper).
    intros b Hb. exact Hb.
  - intros bz Hbz.
    destruct (includes_chain [1; 1337; 250; 42161] chain);
      [|apply svc_ensures_ret; constructor].
    apply svc_ensures_bind. intros vb.
    apply svc_ensures_bind. intros ib. apply svc_ensures_ret.
    apply Forall_app. split; [|apply Forall_app; split; [|exact Hbz]].
    + apply (filtered_balances_sound ta toks TokenInterface.vaults).
      intros b Hb. apply Bool.andb_true_iff in Hb. exact (proj2 Hb).
    + apply (filtered_balances_sound ta toks TokenInterface.ironBank).
      intros b Hb. exact Hb.
Qed.

Lemma balances_unknown_chain account ta w l w' t :
  includes_chain supported_chains chain = false ->
  TokenInterface.balances B chain account ta w = (Ok l, w', t) ->
  l = [].
Proof.
  intros Hc. unfold TokenInterface.balances. svc_run.
  fold mainnet_chains supported_chains.
  rewrite (unsupported_chain_is_not_mainnet _ Hc), Hc.
  destruct (TokenInterface.supported B chain w) as [[[toks|e] w1] t1];
    intros E; inversion E; reflexivity.
Qed.

End Balances.

(** X12.  Every balance [balances] returns is the balance of a supported
    token, and of one of the requested addresses when a list of addresses
    is given; on a chain outside 1, 1337, 250 and 42161 it returns no
    balance at all. *)
Theorem balances_only_report_supported_tokens :
  forall (W : Type) (B : TokenInterface.Backend W) (chain : Z)
         account ta w toks w1 t1 l w' t,
    TokenInterface.supported B chain w = (Ok toks, w1, t1) ->
    TokenInterface.balances B chain account ta w = (Ok l, w', t) ->
    Forall (fun b => In (TokenInterface.b_address b)
                        (map TokenInterface.address toks)
                     /\ requested ta (TokenInterface.b_address b)) l
    /\ (includes_chain supported_chains chain = false -> l = []).
Proof.
  intros W B chain account ta w toks w1 t1 l w' t Hs Hb. split.
  - eapply balances_sound; eassumption.
  - intros Hc. eapply balances_unknown_chain; eassumption.
Qed.

Lemma balances_only_report_supported_tokens_witness :
  Forall (fun b => In (TokenInterface.b_address b) [Fixture.dai; Fixture.usdc]
                   /\ requested None (TokenInterface.b_address b))
         [TokenFixture.balance Fixture.dai 10;
          TokenFixture.balance Fixture.usdc 5].
Proof.
  exact (proj1 (balances_only_report_supported_tokens
                  TokenFixture.World
                  (TokenFixture.backend TokenFixture.mainnet) 1
                  Fixture.alice None 0%nat _ _ _ _ _ _ eq_refl eq_refl)).
Defined.

(** ** Allowances and approvals for a spender *)

Section SpenderAllowance.
Context {W : Type} (B : TokenInterface.Backend W).
Context (isNativeToken : Address -> bool).

Lemma allowance_unlimited o tk sp w :
  isNativeToken tk = true \/ tk = sp ->
  TokenInterface.allowance B isNativeToken o tk sp w
  = (Ok (TokenInterface.Build_TokenAllowance o tk sp MaxUint256), w, []).
Proof.
  intros H. unfold TokenInterface.allowance. cbv zeta.
  assert (E : isNativeToken tk || String.eqb tk sp = true).
  { destruct H as [H|H]; [rewrite H; reflexivity|].
    subst. rewrite String.eqb_refl. apply Bool.orb_true_r. }
  rewrite E. reflexivity.
Qed.

Lemma approve_refused o tk sp amt w :
  isNativeToken tk = true \/ tk = sp ->
  exists msg,
    TokenInterface.approve B isNativeToken o tk sp amt w
    = (Err (SdkError msg None), w, []).
Proof.
  intros H. unfold TokenInterface.approve.
  destruct (isNativeToken tk) eqn:N; [eexists; reflexivity|].
  destruct H as [H|H]; [discriminate H|]. subst.
  rewrite String.eqb_refl. eexists. reflexivity.
Qed.

Lemma allowance_read o tk sp w :
  isNativeToken tk = false -> tk <> sp ->
  Svc.trace_of (TokenInterface.allowance B isNativeToken o tk sp w)
  = [TokenInterface.EvContractAllowance tk o sp]
  /\ forall a w1,
       TokenInterface.contract_allowance B tk o sp w = (Ok a, w1) ->
       Svc.result_of (TokenInterface.allowance B isNativeToken o tk sp w)
       = Ok (TokenInterface.Build_TokenAllowance o tk sp a).
Proof.
  intros N D. apply String.eqb_neq in D.
  unfold TokenInterface.allowance. cbv zeta. rewrite N, D. svc_run.
  cbn [orb].
  destruct (TokenInterface.contract_allowance B tk o sp w) as [[a|e] w1];
    split; try reflexivity; intros a' w' E; inversion E; reflexivity.
Qed.

End SpenderAllowance.

(** X13.  In the later revision of the token interface, the allowance of a
    native token, and of a token towards itself, is reported as
    [MaxUint256] without reading anything, and [approve] refuses both cases
    before anything is sent; in every other case [allowance] reads the
    token contract once, for exactly the owner and spender given, and
    reports what it read. *)
Theorem native_and_self_allowances_never_reach_the_chain :
  forall (W : Type) (B : TokenInterface.Backend W)
         (isNativeToken : Address -> bool) o tk sp w,
    (isNativeToken tk = true \/ tk = sp ->
     TokenInterface.allowance B isNativeToken o tk sp w
     = (Ok (TokenInterface.Build_TokenAllowance o tk sp MaxUint256), w, [])
     /\ forall amt, exists msg,
          TokenInterface.approve B isNativeToken o tk sp amt w
          = (Err (SdkError msg None), w, []))
    /\ (isNativeToken tk = false -> tk <> sp ->
        Svc.trace_of (TokenInterface.allowance B isNativeToken o tk sp w)
        = [TokenInterface.EvContractAllowance tk o sp]
        /\ forall a w1,
             TokenInterface.contract_allowance B tk o sp w = (Ok a, w1) ->
             Svc.result_of (TokenInterface.allowance B isNativeToken o tk sp w)
             = Ok (TokenInterface.Build_TokenAllowance o tk sp a)).
Proof.
  intros W B isNativeToken o tk sp w. split.
  - intros H. split.
    + apply allowance_unlimited. exact H.
    + intros amt. apply approve_refused. exact H.
  - apply allowance_read.
Qed.

Definition is_eth (a : Address) : bool := String.eqb a Fixture.eth.

Lemma native_and_self_allowances_never_reach_the_chain_witness :
  TokenInterface.allowance (TokenFixture.backend TokenFixture.mainnet) is_eth
                           Fixture.alice Fixture.eth Fixture.yvDai 0%nat
  = (Ok (TokenInterface.Build_TokenAllowance Fixture.alice Fixture.eth
                                             Fixture.yvDai MaxUint256),
     0%nat, [])
  /\ Svc.trace_of
       (TokenInterface.allowance (TokenFixture.backend TokenFixture.mainnet)
                                 is_eth Fixture.alice Fixture.dai
                                 Fixture.yvDai 0%nat)
     = [TokenInterface.EvContractAllowance Fixture.dai Fixture.alice
                                           Fixture.yvDai].
Proof.
  split.
  - exact (proj1 (proj1 (native_and_self_allowances_never_reach_the_chain
                           TokenFixture.World
                           (TokenFixture.backend TokenFixture.mainnet) is_eth
                           Fixture.alice Fixture.eth Fixture.yvDai 0%nat)
                        (or_introl eq_refl))).
  - exact (proj1 (proj2 (native_and_self_allowances_never_reach_the_chain
                           TokenFixture.World
                           (TokenFixture.backend TokenFixture.mainnet) is_eth
                           Fixture.alice Fixture.dai Fixture.yvDai 0%nat)
                        eq_refl
                        ltac:(intros E; vm_compute in E; discriminate E))).
Defined.

(** ** Allowances and approvals for a vault (earlier revision) *)

Lemma addressToApprove_is_the_actionable_address cfg vault :
  TokenInterface.addressToApprove (partner cfg) vault
  = V2.getActionableAddress cfg vault.
Proof.
  unfold TokenInterface.addressToApprove, V2.getActionableAddress,
    TokenInterface.shouldUsePartnerService, V2.shouldUsePartnerService.
  destruct (partner cfg) as [p|]; [|reflexivity].
  destruct (partner_isAllowed p vault); reflexivity.
Qed.

(** X14.  For a deposit of the vault's own token (and not the native
    asset), the earlier token interface reads the allowance and prepares
    the approval for the very spender whose allowance the simulation checks
    before a direct deposit: the partner's address when the partner service
    handles the vault and has an address, the vault otherwise. *)
Theorem allowance_spender_is_the_one_the_simulation_checks :
  forall (W : Type) (B : TokenInterface.Backend W)
         (W' : Type) (B' : Backend W') (cfg : Config)
         vault tk account amt opts w s,
    String.eqb (EthAddress cfg) tk = false ->
    Svc.trace_of
      (TokenInterface.allowance_by_vault B (EthAddress cfg) (partner cfg)
                                         vault tk tk account w)
    = [TokenInterface.EvContractAllowance
         tk account (V2.getActionableAddress cfg vault)]
    /\ trace_of (V2.depositNeedsApproving B' cfg
                   (V2.Build_DepositArgs account tk amt vault opts) s)
       = [EvAllowance tk account (V2.getActionableAddress cfg vault)]
    /\ (forall a w1,
           TokenInterface.contract_allowance
             B tk account (V2.getActionableAddress cfg vault) w = (Ok a, w1) ->
           Svc.result_of
             (TokenInterface.allowance_by_vault B (EthAddress cfg)
                (partner cfg) vault tk tk account w)
           = Ok (TokenInterface.Build_TokenAllowance
                   account tk (V2.getActionableAddress cfg vault) a))
    /\ (exists rest,
           Svc.trace_of
             (TokenInterface.approveDeposit B (EthAddress cfg) (partner cfg)
                                            vault tk tk amt account w)
           = TokenInterface.EvPopulateApprove
               tk account (V2.getActionableAddress cfg vault) amt :: rest).
Proof.
  intros W B W' B' cfg vault tk account amt opts w s He.
  rewrite <- addressToApprove_is_the_actionable_address.
  split; [|split; [|split]].
  - unfold TokenInterface.allowance_by_vault. cbv zeta.
    rewrite He, String.eqb_refl. svc_run.
    destruct (TokenInterface.contract_allowance B tk account _ w)
      as [[a|e] w1]; reflexivity.
  - rewrite addressToApprove_is_the_actionable_address.
    apply (V2_depositNeedsApproving_run B' cfg
             (V2.Build_DepositArgs account tk amt vault opts) s).
  - intros a w1 Ha. unfold TokenInterface.allowance_by_vault. cbv zeta.
    rewrite He, String.eqb_refl. svc_run. rewrite Ha. reflexivity.
  - unfold TokenInterface.approveDeposit. cbv zeta.
    rewrite He, String.eqb_refl. svc_run.
    destruct (TokenInterface.contract_populateApprove B tk account _ amt w)
      as [[tx|e] w1]; svc_exec; [|eexists; reflexivity].
    destruct (TokenInterface.transaction_sendTransaction B tx w1)
      as [[r|e] w2]; eexists; reflexivity.
Qed.

Lemma allowance_spender_is_the_one_the_simulation_checks_witness :
  Svc.trace_of
    (TokenInterface.allowance_by_vault
       (TokenFixture.backend TokenFixture.mainnet) Fixture.eth None
       Fixture.yvDai Fixture.dai Fixture.dai Fixture.alice 0%nat)
  = [TokenInterface.EvContractAllowance Fixture.dai Fixture.alice
                                        Fixture.yvDai].
Proof.
  exact (proj1 (allowance_spender_is_the_one_the_simulation_checks
                  TokenFixture.World
                  (TokenFixture.backend TokenFixture.mainnet)
                  Fixture.World (Fixture.backend direct_scenario)
                  (Fixture.config direct_scenario)
                  Fixture.yvDai Fixture.dai Fixture.alice 1000 Opt.empty
                  0%nat (Fixture.initial Opt.empty) eq_refl)).
Defined.

(** ** What the approvals answer *)

Section ApprovalAnswers.
Context {W : Type} (B : TokenInterface.Backend W).

Lemma approveZapOut_never_true vt tk account :
  svc_ensures (TokenInterface.approveZapOut B vt tk account)
              (fun r => r <> TokenInterface.Flag true).
Proof.
  unfold TokenInterface.approveZapOut.
  destruct (String.eqb vt tk);
    [|apply svc_ensures_ret; discriminate].
  apply svc_ensures_bind. intros fast. cbv zeta.
  apply svc_ensures_bind. intros st.
  destruct (negb (TokenInterface.zs_isApproved st));
    [|apply svc_ensures_ret; discriminate].
  apply svc_ensures_bind. intros ps.
  apply svc_ensures_bind. intros r.
  apply svc_ensures_ret. discriminate.
Qed.

Lemma approveZapOut_other_token vt tk account w :
  vt <> tk ->
  TokenInterface.approveZapOut B vt tk account w
  = (Ok (TokenInterface.Flag false), w, []).
Proof.
  intros D. apply String.eqb_neq in D.
  unfold TokenInterface.approveZapOut. rewrite D. reflexivity.
Qed.

Lemma approveZapOut_approved tk account w fast w1 st w2 :
  TokenInterface.zapper_gas_fast B w = (Ok fast, w1) ->
  TokenInterface.zapper_zapOutApprovalState B account tk w1 = (Ok st, w2) ->
  TokenInterface.zs_isApproved st = true ->
  TokenInterface.approveZapOut B tk tk account w
  = (Ok (TokenInterface.Flag false), w2,
     [TokenInterface.EvZapperGas;
      TokenInterface.EvZapOutApprovalState account tk]).
Proof.
  intros Hg Hs Ha. unfold TokenInterface.approveZapOut.
  rewrite String.eqb_refl. svc_run. rewrite Hg. svc_exec.
  rewrite Hs. svc_exec. rewrite Ha. reflexivity.
Qed.

Lemma approveDeposit_approved EthAddress partner vault vt tk amt account
      w fast w1 st w2 :
  String.eqb EthAddress tk = false ->
  String.eqb vt tk = false ->
  TokenInterface.zapper_gas_fast B w = (Ok fast, w1) ->
  TokenInterface.zapper_zapInApprovalState
    B account tk (TokenInterface.zapProtocolOf vault) w1 = (Ok st, w2) ->
  TokenInterface.zs_isApproved st = true ->
  TokenInterface.approveDeposit B EthAddress partner vault vt tk amt account w
  = (Ok (TokenInterface.Flag true), w2,
     [TokenInterface.EvZapperGas;
      TokenInterface.EvZapInApprovalState
        account tk (TokenInterface.zapProtocolOf vault)]).
Proof.
  intros He Hv Hg Hs Ha. unfold TokenInterface.approveDeposit.
  rewrite He, Hv. svc_run. rewrite Hg. svc_exec.
  rewrite Hs. svc_exec. rewrite Ha. reflexivity.
Qed.

End ApprovalAnswers.

(** X15.  [approveZapOut] never answers [true]: it answers [false] without
    any request when the token is not the vault's token, and [false] again,
    after asking zapper for the gas price and the approval state, when the
    approval is already given; otherwise its answer is the transaction it
    sent.  [approveDeposit] answers [true] when zapper reports the zap-in
    approval as given. *)
Theorem zap_out_approval_never_answers_true :
  forall (W : Type) (B : TokenInterface.Backend W) vt tk account,
    svc_ensures (TokenInterface.approveZapOut B vt tk account)
                (fun r => r <> TokenInterface.Flag true)
    /\ (forall w, vt <> tk ->
                  TokenInterface.approveZapOut B vt tk account w
                  = (Ok (TokenInterface.Flag false), w, []))
    /\ (forall w fast w1 st w2,
           TokenInterface.zapper_gas_fast B w = (Ok fast, w1) ->
           TokenInterface.zapper_zapOutApprovalState B account tk w1
           = (Ok st, w2) ->
           TokenInterface.zs_isApproved st = true ->
           TokenInterface.approveZapOut B tk tk account w
           = (Ok (TokenInterface.Flag false), w2,
              [TokenInterface.EvZapperGas;
               TokenInterface.EvZapOutApprovalState account tk]))
    /\ (forall EthAddress partner vault amt w fast w1 st w2,
           String.eqb EthAddress tk = false ->
           String.eqb vt tk = false ->
           TokenInterface.zapper_gas_fast B w = (Ok fast, w1) ->
           TokenInterface.zapper_zapInApprovalState
             B account tk (TokenInterface.zapProtocolOf vault) w1
           = (Ok st, w2) ->
           TokenInterface.zs_isApproved st = true ->
           TokenInterface.approveDeposit B EthAddress partner vault vt tk amt
                                         account w
           = (Ok (TokenInterface.Flag true), w2,
              [TokenInterface.EvZapperGas;
               TokenInterface.EvZapInApprovalState
                 account tk (TokenInterface.zapProtocolOf vault)])).
Proof.
  intros W B vt tk account. split; [|split; [|split]].
  - apply approveZapOut_never_true.
  - intros w. apply approveZapOut_other_token.
  - intros w fast w1 st w2. apply approveZapOut_approved.
  - intros. eapply approveDeposit_approved; eassumption.
Qed.

Lemma zap_out_approval_never_answers_true_witness :
  TokenInterface.approveZapOut (TokenFixture.backend TokenFixture.mainnet)
                               Fixture.dai Fixture.dai Fixture.alice 0%nat
  = (Ok (TokenInterface.Flag false), 2%nat,
     [TokenInterface.EvZapperGas;
      TokenInterface.EvZapOutApprovalState Fixture.alice Fixture.dai]).
Proof.
  exact (proj1 (proj2 (proj2 (zap_out_approval_never_answers_true
                                TokenFixture.World
                                (TokenFixture.backend TokenFixture.mainnet)
                                Fixture.dai Fixture.dai Fixture.alice)))
               0%nat (BN.of_Z 52) 1%nat
               (TokenFixture.approvalState TokenFixture.mainnet Fixture.alice)
               2%nat eq_refl eq_refl eq_refl).
Defined.

(** * Properties of the zapper service *)

Section ObjectFacts.
Import ZapperService.

Lemma get_In k o v : get k o = Some v -> In k (keys o).
Proof.
  induction o as [|[k' v'] o IH]; cbn; [discriminate|].
  destruct (String.eqb_spec k' k); [left; assumption|].
  intros H. right. apply IH. exact H.
Qed.

Lemma keys_delete k a o : In k (keys (delete a o)) -> In k (keys o) /\ k <> a.
Proof.
  induction o as [|[k' v'] o IH]; cbn; [intros []|].
  destruct (String.eqb_spec k' a) as [E|N].
  - intros H. destruct (IH H) as [H1 H2]. split; [right|]; assumption.
  - cbn. intros [H|H].
    + subst k'. split; [left; reflexivity|exact N].
    + destruct (IH H) as [H1 H2]. split; [right|]; assumption.
Qed.

Lemma keys_set k c v o : In k (keys (set c v o)) -> k = c \/ In k (keys o).
Proof.
  induction o as [|[k' v'] o IH]; cbn.
  - intros [H|[]]. left. symmetry. exact H.
  - destruct (String.eqb_spec k' c) as [E|N]; cbn.
    + intros [H|H]; [left; symmetry; exact H|right; right; exact H].
    + intros [H|H]; [right; left; exact H|].
      destruct (IH H); [left|right; right]; assumption.
Qed.

End ObjectFacts.

Section Rekeying.
Import ZapperService.
Context (EthAddress ZeroAddress : Address) (usdc : string -> string)
        (getAddress : string -> Result Address).

(** A key the service wrote: the checksummed form of some address. *)
Definition checksummed (k : string) : Prop := exists a, getAddress a = Ok k.

Lemma rekey_keys a o o' rest :
  (forall k, In k (keys o) -> In k (a :: rest) \/ checksummed k) ->
  rekey EthAddress ZeroAddress usdc getAddress a o = Ok o' ->
  forall k, In k (keys o') -> In k rest \/ checksummed k.
Proof.
  intros Inv. unfold rekey.
  destruct (get a o) as [[[|p ps]|]|]; try discriminate.
  cbv zeta. destruct (getAddress a) as [c|] eqn:C; [|discriminate].
  destruct (mapM _ (assets p)) as [m|]; [|discriminate].
  intros H. inversion H; subst o'. clear H.
  intros k Hk. apply keys_set in Hk. destruct Hk as [Hk|Hk].
  - right. subst k. exists a. exact C.
  - apply keys_delete in Hk. destruct Hk as [Hk Hn].
    destruct (Inv k Hk) as [[E|Hr]|Hc].
    + exfalso. apply Hn. symmetry. exact E.
    + left. exact Hr.
    + right. exact Hc.
Qed.

Lemma forEach_keys ks : forall o o',
  (forall k, In k (keys o) -> In k ks \/ checksummed k) ->
  forEach EthAddress ZeroAddress usdc getAddress ks o = Ok o' ->
  forall k, In k (keys o') -> checksummed k.
Proof.
  induction ks as [|a rest IH]; intros o o' Inv; cbn.
  - intros H. inversion H; subst. intros k Hk.
    destruct (Inv k Hk) as [[]|Hc]. exact Hc.
  - destruct (rekey EthAddress ZeroAddress usdc getAddress a o) as [o1|] eqn:R;
      [|discriminate].
    apply IH. apply (rekey_keys a o o1 rest Inv R).
Qed.

End Rekeying.

(** X16.  [balances] files what the API returned under the checksummed form
    of each address, and answers a query for a single address by looking
    that address up as it was given.  So, [getAddress] leaving checksummed
    addresses as they are, a query for one address that is not in
    checksummed form never returns balances: when it does not fail, its
    answer is [undefined]. *)
Theorem single_address_query_needs_the_checksummed_form :
  forall (W : Type) (fetch_balances : string -> W -> Result ZapperService.Obj * W)
         (EthAddress ZeroAddress : Address) (usdc : string -> string)
         (getAddress : string -> Result Address) (a : Address) w r w' t,
    (forall x c, getAddress x = Ok c -> getAddress c = Ok c) ->
    getAddress a <> Ok a ->
    ZapperService.balances fetch_balances EthAddress ZeroAddress usdc
                           getAddress (inl a) w = (Ok r, w', t) ->
    r = ZapperService.One None.
Proof.
  intros W fetch_balances EthAddress ZeroAddress usdc getAddress a w r w' t
         Idem Ha.
  unfold ZapperService.balances. svc_run.
  destruct (fetch_balances a w) as [[o|e] w1]; [|discriminate].
  destruct (ZapperService.forEach EthAddress ZeroAddress usdc getAddress
              (ZapperService.keys o) o) as [o'|e] eqn:F; [|discriminate].
  svc_exec. intros H. inversion H; subst. clear H. f_equal.
  destruct (ZapperService.get a o') as [v|] eqn:G; [|reflexivity].
  exfalso. apply Ha.
  apply get_In in G.
  destruct (forEach_keys EthAddress ZeroAddress usdc getAddress
              (ZapperService.keys o) o o'
              (fun k Hk => or_introl Hk) F a G) as (x & Hx).
  exact (Idem x a Hx).
Qed.

(** A toy checksum: [0xda1] is written [0xDA1]; nothing else is an
    address. *)
Definition toy_getAddress (x : string) : Result Address :=
  if String.eqb x "0xda1" || String.eqb x "0xDA1" then Ok "0xDA1"
  else Err (Rejected "invalid address").

Definition toy_asset (a : string) : ZapperService.RawAsset :=
  ZapperService.Build_RawAsset a "DAI" "18" "1000" "1.0" "1.0".

(** The API answers with the address in lower case. *)
Definition toy_fetch (_ : string) (w : nat)
  : Result ZapperService.Obj * nat :=
  (Ok [("0xda1",
        ZapperService.Raw
          [ZapperService.Build_Product [toy_asset "0xda1"];
           ZapperService.Build_Product [toy_asset "0xDA1"]])], S w).

Lemma toy_getAddress_idempotent x c :
  toy_getAddress x = Ok c -> toy_getAddress c = Ok c.
Proof.
  unfold toy_getAddress.
  destruct (String.eqb x "0xda1" || String.eqb x "0xDA1");
    intros H; inversion H; reflexivity.
Qed.

Lemma single_address_query_needs_the_checksummed_form_witness :
  exists r w' t,
    ZapperService.balances toy_fetch Fixture.eth Fixture.zero (fun s => s)
                           toy_getAddress (inl "0xda1") 0%nat = (Ok r, w', t)
    /\ r = ZapperService.One None.
Proof.
  do 3 eexists. split.
  - vm_compute. reflexivity.
  - exact (single_address_query_needs_the_checksummed_form
             nat toy_fetch Fixture.eth Fixture.zero (fun s => s)
             toy_getAddress "0xda1" 0%nat _ _ _
             toy_getAddress_idempotent
             ltac:(intros E; vm_compute in E; discriminate E)
             eq_refl).
Defined.

Section ObjectLookups.
Import ZapperService.

Lemma get_set_same k v o : get k (set k v o) = Some v.
Proof.
  induction o as [|[k' v'] o IH]; cbn.
  - rewrite String.eqb_refl. reflexivity.
  - destruct (String.eqb k' k) eqn:E; cbn.
    + rewrite String.eqb_refl. reflexivity.
    + rewrite E. exact IH.
Qed.

Lemma get_set_other k c v o : k <> c -> get k (set c v o) = get k o.
Proof.
  intros N. induction o as [|[k' v'] o IH]; cbn.
  - destruct (String.eqb_spec c k); [congruence|reflexivity].
  - destruct (String.eqb_spec k' c) as [E|Nc]; cbn.
    + subst k'. destruct (String.eqb_spec c k); [congruence|reflexivity].
    + destruct (String.eqb k' k); [reflexivity|exact IH].
Qed.

Lemma get_delete_other k a o : k <> a -> get k (delete a o) = get k o.
Proof.
  intros N. induction o as [|[k' v'] o IH]; cbn; [reflexivity|].
  destruct (String.eqb_spec k' a) as [E|Na]; cbn.
  - subst k'. destruct (String.eqb_spec a k); [congruence|exact IH].
  - destruct (String.eqb k' k); [reflexivity|exact IH].
Qed.

End ObjectLookups.

Section CleanRekeying.
Import ZapperService.
Context (EthAddress ZeroAddress : Address) (usdc : string -> string)
        (getAddress : string -> Result Address).

(** The balances the service files for an entry of the API: those of the
    first product. *)
Definition filed (v : Entry) (m : list Balance) : Prop :=
  exists p ps,
    v = Raw (p :: ps)
    /\ mapM (toBalance EthAddress ZeroAddress usdc getAddress) (assets p)
       = Ok m.

Context (cs : string -> Address) (orig : Obj).
Hypothesis Idem : forall x c, getAddress x = Ok c -> getAddress c = Ok c.
Hypothesis Cs : forall k, In k (keys orig) -> getAddress k = Ok (cs k).
Hypothesis Distinct : NoDup (map cs (keys orig)).

Lemma cs_injective k k' :
  In k (keys orig) -> In k' (keys orig) -> cs k = cs k' -> k = k'.
Proof.
  generalize Distinct. generalize (keys orig) as l.
  induction l as [|x l IH]; cbn; [intros _ []|].
  intros D H H' E. inversion D as [|y ys Hn Hd]; subst y ys.
  destruct H as [H|H]; destruct H' as [H'|H'].
  - congruence.
  - subst x. exfalso. apply Hn. rewrite E. apply in_map. exact H'.
  - subst x. exfalso. apply Hn. rewrite <- E. apply in_map. exact H.
  - exact (IH Hd H H' E).
Qed.

Lemma cs_fixed k : In k (keys orig) -> getAddress (cs k) = Ok (cs k).
Proof. intros H. apply (Idem k). apply Cs. exact H. Qed.

(** A checksummed key that is itself a key of the object is its own
    checksum. *)
Lemma cs_of_key k k' :
  In k (keys orig) -> In k' (keys orig) -> cs k = k' -> k = k'.
Proof.
  intros H H' E. apply cs_injective; try assumption.
  pose proof (cs_fixed k H) as F. rewrite E in F.
  rewrite (Cs k' H') in F. inversion F. congruence.
Qed.

Lemma forEach_files done rest : forall o,
  keys orig = done ++ rest ->
  NoDup rest ->
  (forall k, In k rest -> get k o = get k orig) ->
  (forall k v, In k done -> get k orig = Some v ->
               exists m, filed v m /\ get (cs k) o = Some (Mapped m)) ->
  forall o',
    forEach EthAddress ZeroAddress usdc getAddress rest o = Ok o' ->
    forall k v, In k (keys orig) -> get k orig = Some v ->
                exists m, filed v m /\ get (cs k) o' = Some (Mapped m).
Proof.
  revert done. induction rest as [|a rest IH]; intros done o Hk Nd I1 I2 o'.
  - cbn. intros H. inversion H; subst o'. intros k v Hin.
    rewrite Hk, app_nil_r in Hin. apply I2. exact Hin.
  - cbn. unfold rekey.
    assert (Ha : In a (keys orig))
      by (rewrite Hk; apply in_or_app; right; left; reflexivity).
    rewrite (I1 a (or_introl eq_refl)).
    destruct (get a orig) as [[[|p ps]|]|] eqn:G; try discriminate.
    cbv zeta. rewrite (Cs a Ha).
    destruct (mapM _ (assets p)) as [m|] eqn:Mp; [|discriminate].
    inversion Nd as [|? ? Hna Nd']; subst.
    apply (IH (done ++ [a])).
    + rewrite <- app_assoc. exact Hk.
    + exact Nd'.
    + intros k Hr.
      assert (Hkin : In k (keys orig))
        by (rewrite Hk; apply in_or_app; right; right; exact Hr).
      rewrite get_set_other, get_delete_other.
      * apply I1. right. exact Hr.
      * intros E. subst k. contradiction.
      * intros E. subst k.
        pose proof (cs_of_key a (cs a) Ha Hkin eq_refl) as E.
        rewrite <- E in Hr. contradiction.
    + intros k v Hd Hv. apply in_app_or in Hd. destruct Hd as [Hd|[Hd|[]]].
      * destruct (I2 k v Hd Hv) as (m' & Hf & Hg). exists m'.
        split; [exact Hf|].
        assert (Hkin : In k (keys orig))
          by (rewrite Hk; apply in_or_app; left; exact Hd).
        assert (Hka : k <> a).
        { intros E. subst k.
          pose proof (NoDup_map_inv _ _ Distinct) as Nk. rewrite Hk in Nk.
          apply NoDup_remove_2 in Nk. apply Nk. apply in_or_app.
          left. exact Hd. }
        rewrite get_set_other, get_delete_other; [exact Hg| |].
        -- intros E. apply Hka. apply (cs_of_key k a Hkin Ha E).
        -- intros E. apply Hka. apply (cs_injective k a Hkin Ha E).
      * subst k. rewrite G in Hv. inversion Hv; subst v.
        exists m. split; [exists p, ps; split; [reflexivity|exact Mp]|].
        apply get_set_same.
Qed.

End CleanRekeying.

(** X17.  When the API's keys have distinct checksummed forms, a query
    that does not fail files, under the checksummed form of every key, the
    balances of the first product listed for that key, and of no other
    product; a query for a list of addresses returns that object. *)
Theorem balances_are_filed_under_checksummed_addresses :
  forall (W : Type) (fetch_balances : string -> W -> Result ZapperService.Obj * W)
         (EthAddress ZeroAddress : Address) (usdc : string -> string)
         (getAddress : string -> Result Address) (cs : string -> Address)
         (l : list Address) w orig w1 r w' t,
    (forall x c, getAddress x = Ok c -> getAddress c = Ok c) ->
    fetch_balances (ZapperService.join l) w = (Ok orig, w1) ->
    (forall k, In k (ZapperService.keys orig) -> getAddress k = Ok (cs k)) ->
    NoDup (map cs (ZapperService.keys orig)) ->
    ZapperService.balances fetch_balances EthAddress ZeroAddress usdc
                           getAddress (inr l) w = (Ok r, w', t) ->
    exists o',
      r = ZapperService.Many o'
      /\ forall k v,
           ZapperService.get k orig = Some v ->
           exists m,
             filed EthAddress ZeroAddress usdc getAddress v m
             /\ ZapperService.get (cs k) o' = Some (ZapperService.Mapped m).
Proof.
  intros W fetch_balances EthAddress ZeroAddress usdc getAddress cs l
         w orig w1 r w' t Idem Hf Cs Nd.
  unfold ZapperService.balances. svc_run. rewrite Hf.
  destruct (ZapperService.forEach EthAddress ZeroAddress usdc getAddress
              (ZapperService.keys orig) orig) as [o'|e] eqn:F; [|discriminate].
  svc_exec. intros H. inversion H; subst. clear H.
  exists o'. split; [reflexivity|]. intros k v Hv.
  apply (forEach_files EthAddress ZeroAddress usdc getAddress cs orig
           Idem Cs Nd [] (ZapperService.keys orig) orig eq_refl
           (NoDup_map_inv _ _ Nd) (fun _ _ => eq_refl)
           (fun _ _ (H : In _ []) => match H with end) o' F k v
           (get_In k orig v Hv) Hv).
Qed.

Definition toy_checksum (_ : string) : Address := "0xDA1".

Definition toy_answer : ZapperService.Entry :=
  ZapperService.Raw
    [ZapperService.Build_Product [toy_asset "0xda1"];
     ZapperService.Build_Product [toy_asset "0xDA1"]].

Definition toy_filed : ZapperService.Obj :=
  [("0xDA1",
    ZapperService.Mapped
      [ZapperService.Build_Balance "0xDA1"
         (ZapperService.Build_ERC20 "0xDA1" "DAI" "DAI" "18")
         "1000" "1.0" "1.0"])].

Lemma balances_are_filed_under_checksummed_addresses_witness :
  exists m,
    filed Fixture.eth Fixture.zero (fun s => s) toy_getAddress toy_answer m
    /\ ZapperService.get "0xDA1" toy_filed = Some (ZapperService.Mapped m).
Proof.
  destruct (balances_are_filed_under_checksummed_addresses
              nat toy_fetch Fixture.eth Fixture.zero (fun s => s)
              toy_getAddress toy_checksum ["0xda1"] 0%nat
              [("0xda1", toy_answer)] 1%nat
              (ZapperService.Many toy_filed) 1%nat
              [ZapperService.EvFetchBalances "0xda1"]
              toy_getAddress_idempotent eq_refl
              ltac:(intros k [E|[]]; rewrite <- E; reflexivity)
              ltac:(repeat constructor; intros [])
              eq_refl) as (o' & E & H).
  inversion E; subst o'.
  exact (H "0xda1" toy_answer eq_refl).
Defined.

(** * Properties of the fees interface *)

(** The amount a transfer counts for: a missing amount counts for 0. *)
Definition counted (t : FeesInterface.Transfer) : Z :=
  match FeesInterface.tokenAmountUsdc t with
  | Some a => a
  | None => 0
  end.

Definition total (ts : list FeesInterface.Transfer) : Z :=
  fold_right (fun t acc => counted t + acc) 0 ts.

Section Sums.

(** [x] is the integer [z] (a zero may carry a sign). *)
Definition holds (x : BN.t) (z : Z) : Prop :=
  exists s, x = BN.Fin s (Z.abs_N z) 0 /\ (z <> 0 -> s = (z <? 0)).

Lemma signed_abs s z :
  (z <> 0 -> s = (z <? 0)) -> BN.signed s (Z.abs_N z) = z.
Proof.
  intros H. unfold BN.signed. rewrite N2Z.inj_abs_N.
  destruct (Z.eq_dec z 0) as [E|N].
  - subst z. destruct s; reflexivity.
  - rewrite (H N). destruct (Z.ltb_spec z 0); lia.
Qed.

Lemma holds_of_Z z : holds (BN.of_Z z) z.
Proof. exists (z <? 0). split; [reflexivity|auto]. Qed.

Lemma holds_plus x y a b : holds x a -> holds y b -> holds (BN.plus x y) (a + b).
Proof.
  intros (s & Ex & Hs) (s' & Ey & Hs'). subst x y. cbn [BN.plus].
  change (BN.pow10 0) with 1%N. rewrite !N.mul_1_r.
  rewrite (signed_abs s a Hs), (signed_abs s' b Hs').
  eexists. split; [reflexivity|].
  intros N. destruct (Z.eqb_spec (a + b) 0); [contradiction|reflexivity].
Qed.

Lemma holds_toFixed0 x z : holds x z -> BN.toFixed0 x = z.
Proof.
  intros (s & E & Hs). subst x. cbn [BN.toFixed0].
  change (BN.pow10 0) with 1%N.
  replace (BN.round_half_up (Z.abs_N z) 1) with (Z.abs_N z).
  - apply signed_abs. exact Hs.
  - unfold BN.round_half_up.
    apply N.div_unique with (r := 1%N); lia.
Qed.

Lemma holds_fold ts : forall x z,
  holds x z ->
  holds (fold_left (fun prev current =>
                      BN.plus prev
                        (BN.of_Z match FeesInterface.tokenAmountUsdc current with
                                 | Some a => a
                                 | None => 0
                                 end)) ts x)
        (z + total ts).
Proof.
  induction ts as [|t ts IH]; intros x z H; cbn [fold_left total fold_right].
  - rewrite Z.add_0_r. exact H.
  - rewrite Z.add_assoc. apply IH. apply holds_plus; [exact H|].
    apply holds_of_Z.
Qed.

End Sums.

(** X18.  [protocolFees] asks the subgraph once, with the date in
    milliseconds, and returns the sum of the amounts of the transfers it
    lists, a transfer without an amount counting for 0; it returns 0 when
    the response, its data or its list of transfers is missing, and fails
    exactly when the query does. *)
Theorem protocol_fees_are_the_sum_of_the_transfers :
  forall (W : Type)
         (fetchQuery : string -> string -> W
                       -> Result (option FeesInterface.FeesResponse) * W)
         (PROTOCOL_FEES : string) (since : Z) (w : W),
    let answer := fetchQuery PROTOCOL_FEES (show_Z since) w in
    Svc.trace_of (FeesInterface.protocolFees fetchQuery PROTOCOL_FEES since w)
    = [FeesInterface.EvFetchQuery PROTOCOL_FEES (show_Z since)]
    /\ Svc.world_of
         (FeesInterface.protocolFees fetchQuery PROTOCOL_FEES since w)
       = snd answer
    /\ Svc.result_of
         (FeesInterface.protocolFees fetchQuery PROTOCOL_FEES since w)
       = match fst answer with
         | Err e => Err e
         | Ok (Some {| FeesInterface.data :=
                         Some {| FeesInterface.transfers := Some ts |} |}) =>
             Ok (total ts)
         | Ok _ => Ok 0
         end.
Proof.
  intros W fetchQuery PROTOCOL_FEES since w. cbv zeta.
  unfold FeesInterface.protocolFees. cbv zeta. svc_run.
  destruct (fetchQuery PROTOCOL_FEES (show_Z since) w) as [[[r|]|e] w1];
    svc_exec; try (repeat split; fail).
  destruct r as [[d|]]; cbn [FeesInterface.data];
    try (repeat split; fail).
  destruct d as [[ts|]]; cbn [FeesInterface.transfers]; repeat split.
  unfold Svc.result_of. cbn [fst]. f_equal.
  apply (holds_toFixed0 _ (0 + total ts)). apply holds_fold.
  apply holds_of_Z.
Qed.

(** * Properties of the pickle service *)

(** Every price in the cache is the price of one of [PickleJars]. *)
Definition jars_only (st : PickleService.State) : Prop :=
  Forall (fun kv => In (fst kv) V1.PickleJars)
         (PickleService.pickleJarUSDPrices st).

Section PickleCache.
Import PickleService.
Context {W : Type}.
Context (Date_now : W -> Z * W)
        (fetch_pools : W -> Result (list JarDatum) * W)
        (getAddress : Address -> Result Address)
        (usdc : option string -> string)
        (toFixed0 : number -> string).

Lemma Map_set_jars k v m :
  In k V1.PickleJars ->
  Forall (fun kv => In (fst kv) V1.PickleJars) m ->
  Forall (fun kv : Address * number => In (fst kv) V1.PickleJars)
         (Map_set k v m).
Proof.
  intros Hk. induction m as [|[k' v'] m IH]; cbn; intros H.
  - constructor; [exact Hk|constructor].
  - inversion H; subst. destruct (String.eqb k' k).
    + constructor; assumption.
    + constructor; [assumption|apply IH; assumption].
Qed.

Lemma Map_get_jars k m :
  Forall (fun kv : Address * number => In (fst kv) V1.PickleJars) m ->
  ~ In k V1.PickleJars -> Map_get k m = None.
Proof.
  intros H N. induction H as [|[k' v'] m Hk _ IH]; cbn; [reflexivity|].
  destruct (String.eqb_spec k' k) as [E|_]; [|exact IH].
  subst k'. contradiction.
Qed.

(** The jars that pass the filter are jars of the list. *)
Definition listed (j : JarDatum) : Prop :=
  exists a, getAddress (jarAddress j) = Ok a /\ In a V1.PickleJars.

Lemma relevant_listed data : forall l,
  relevant getAddress data = Ok l -> Forall listed l.
Proof.
  induction data as [|j data IH]; cbn [relevant]; intros l H.
  - inversion H. constructor.
  - destruct (getAddress (jarAddress j)) as [a|] eqn:A; [|discriminate].
    destruct (relevant getAddress data) as [l'|]; [|discriminate].
    specialize (IH l' eq_refl).
    destruct (includes_address V1.PickleJars a) eqn:I;
      inversion H; subst l; clear H.
    + constructor; [|exact IH]. exists a. split; [exact A|].
      apply includes_address_In. exact I.
    + exact IH.
Qed.

Lemma setPrices_run jars : forall st (w : W),
  Forall listed jars -> jars_only st ->
  exists st',
    setPrices getAddress jars (st, w) = (Ok tt, (st', w), [])
    /\ jars_only st' /\ lastFetchedDate st' = lastFetchedDate st.
Proof.
  induction jars as [|j jars IH]; intros st w Hl Hs.
  - exists st. repeat split. exact Hs.
  - inversion Hl as [|? ? (a & A & Ha) Hl']; subst.
    cbn [setPrices]. cbv zeta. unfold modify. svc_run. rewrite A.
    cbn [fst snd].
    destruct (IH (Build_State
                    (Map_set a (PrimFloat.div (liquidity_locked j) (tokens j))
                             (pickleJarUSDPrices st))
                    (lastFetchedDate st)) w Hl') as (st' & R & Hj & Hd).
    + apply Map_set_jars; [exact Ha|exact Hs].
    + rewrite R. exists st'. repeat split; assumption.
Qed.

Ltac pk := cbv beta; cbn [fst snd app pickleJarUSDPrices lastFetchedDate].

Lemma fetchPickleJarPrices_keeps st w r st' w' t :
  jars_only st ->
  fetchPickleJarPrices Date_now fetch_pools getAddress (st, w)
  = (r, (st', w'), t) ->
  jars_only st'.
Proof.
  intros Hs. unfold fetchPickleJarPrices, fetch, clock, modify. svc_run.
  pk.
  destruct (fetch_pools w) as [[data|e] w1]; pk;
    [|intros H; inversion H; subst; exact Hs].
  destruct (Date_now w1) as [now w2]. pk.
  destruct (relevant getAddress data) as [l|e] eqn:R; pk;
    [|intros H; inversion H; subst; constructor].
  destruct (setPrices_run l (Build_State [] now) w2 (relevant_listed data l R))
    as (st2 & E & Hj & _); [constructor|].
  rewrite E. pk. intros H. inversion H; subst. exact Hj.
Qed.

Lemma getPriceUsdc_keeps jar st w r st' w' t :
  jars_only st ->
  getPriceUsdc Date_now fetch_pools getAddress usdc toFixed0 jar (st, w)
  = (r, (st', w'), t) ->
  jars_only st'
  /\ (~ In jar V1.PickleJars ->
      forall price, r = Ok price -> price = priceOf usdc toFixed0 initial jar).
Proof.
  intros Hs. unfold getPriceUsdc, clock, getState. svc_run. pk.
  destruct (Date_now w) as [now w1]. pk.
  destruct (lastFetchedDate st <? now - HourInMilliseconds).
  - destruct (fetchPickleJarPrices Date_now fetch_pools getAddress (st, w1))
      as [[[[]|e] [st1 w2]] t1] eqn:F; pk;
      intros H; inversion H; subst;
      pose proof (fetchPickleJarPrices_keeps _ _ _ _ _ _ Hs F) as K;
      (split; [exact K|]); intros N price E; inversion E.
    unfold priceOf. cbv zeta.
    rewrite (Map_get_jars jar _ K N). reflexivity.
  - unfold Svc.ret. pk. intros H. inversion H; subst.
    split; [exact Hs|]. intros N price E. inversion E.
    unfold priceOf. cbv zeta. rewrite (Map_get_jars jar _ Hs N). reflexivity.
Qed.



End PickleCache.

(** X19.  The price cache of the pickle service only ever holds jars of
    [PickleJars]: the property holds of the new service and is kept by
    every call of [getPriceUsdc], whatever the API, the clock and
    [getAddress] answer and whether the call succeeds or fails.  A price
    asked for any other address is therefore always the price of a jar
    that is not cached. *)
Theorem pickle_cache_only_holds_listed_jars :
  forall (W : Type) (Date_now : W -> Z * W)
         (fetch_pools : W -> Result (list PickleService.JarDatum) * W)
         (getAddress : Address -> Result Address)
         (usdc : option string -> string)
         (toFixed0 : number -> string),
    jars_only PickleService.initial
    /\ forall jar st w r st' w' t,
         jars_only st ->
         PickleService.getPriceUsdc Date_now fetch_pools getAddress usdc
                                    toFixed0 jar (st, w)
         = (r, (st', w'), t) ->
         jars_only st'
         /\ (~ In jar V1.PickleJars ->
             forall price,
               r = Ok price ->
               price = PickleService.priceOf usdc toFixed0
                                             PickleService.initial jar).
Proof.
  intros W Date_now fetch_pools getAddress usdc toFixed0. split.
  - constructor.
  - intros jar st w r st' w' t. apply getPriceUsdc_keeps.
Qed.


(** A clock that advances by one millisecond at every reading, an API that
    lists the jar of [PickleJars] and, after it, whatever [extra] holds, and
    a [getAddress] that only knows that jar. *)
Definition ticking (w : Z) : Z * Z := (w, w + 1).

Definition the_jar : Address := "0xCeD67a187b923F0E5ebcc77C7f2F7da20099e378".

Definition pools (extra : list PickleService.JarDatum) (w : Z)
  : Result (list PickleService.JarDatum) * Z :=
  (Ok (PickleService.Build_JarDatum 10%float the_jar 5%float :: extra), w).

Definition only_the_jar (a : Address) : Result Address :=
  if String.eqb a the_jar then Ok the_jar
  else Err (Rejected "invalid address").

Definition print_price (p : option string) : string :=
  match p with Some s => s | None => "NaN" end.

Definition print_number (n : number) : string :=
  if PrimFloat.eqb n 2%float then "2" else "?".

Lemma pickle_cache_only_holds_listed_jars_witness :
  jars_only (PickleService.Build_State [(the_jar, 2%float)] 10000001).
Proof.
  exact (proj1 (proj2 (pickle_cache_only_holds_listed_jars
                         Z ticking (pools []) only_the_jar print_price
                         print_number)
                      the_jar PickleService.initial 10000000 (Ok "2")
                      (PickleService.Build_State [(the_jar, 2%float)] 10000001)
                      10000002
                      [PickleService.EvDateNow; PickleService.EvFetchPools;
                       PickleService.EvDateNow]
                      (Forall_nil _) eq_refl)).
Defined.


(** * Properties of the vault resolver *)

Section WithdrawalQueue.
Import VaultResolver.
Context {W Basic : Type}.
Context (resolveBasic : Address -> W -> Result Basic * W)
        (vault_emergencyShutdown : Address -> W -> Result bool * W)
        (vault_withdrawalQueue : Address -> nat -> W -> Result Address * W)
        (strategy_name : Address -> W -> Result string * W)
        (NullAddress : Address).

(** The queue of vault [a] reads as the array [q], whose first
    [NullAddress] is at index [n]. *)
Context (a : Address) (q : nat -> Address) (n : nat).
Hypothesis Reads :
  forall i w, fst (vault_withdrawalQueue a i w) = Ok (q i).
Hypothesis Last : q n = NullAddress.
Hypothesis Before : forall i, (i < n)%nat -> q i <> NullAddress.

Lemma readQueue_run k : forall fuel i acc w,
  (i + k = n)%nat -> (k < fuel)%nat ->
  exists w',
    readQueue vault_withdrawalQueue NullAddress fuel a i acc w
    = (Ok (Some (acc ++ map q (seq i (S k)))), w',
       map (EvWithdrawalQueue a) (seq i (S k))).
Proof.
  induction k as [|k IH]; intros fuel i acc w Hi Hf;
    (destruct fuel as [|fuel]; [inversion Hf|]);
    cbn [readQueue]; svc_run;
    pose proof (Reads i w) as R;
    destruct (vault_withdrawalQueue a i w) as [r w1]; cbn [fst] in R;
    subst r; svc_exec.
  - assert (E : i = n) by lia. subst i. cbn [seq map].
    rewrite Last, String.eqb_refl. cbn [negb].
    exists w1. reflexivity.
  - assert (Hq : q i <> NullAddress) by (apply Before; lia).
    apply String.eqb_neq in Hq. rewrite Hq. cbn [negb].
    destruct (IH fuel (S i) (acc ++ [q i]) w1) as (w' & E); [lia|lia|].
    rewrite E. exists w'. svc_exec.
    rewrite <- app_assoc. reflexivity.
Qed.

Lemma all_resolved l : forall w,
  Svc.trace_of (Svc.all (map (resolveStrategy strategy_name) l) w)
  = map EvStrategyName l
  /\ forall rs,
       Svc.result_of (Svc.all (map (resolveStrategy strategy_name) l) w)
       = Ok rs ->
       map address rs = l.
Proof.
  induction l as [|x l IH]; intros w; cbn [map Svc.all].
  - split; [reflexivity|]. intros rs H. inversion H. reflexivity.
  - unfold resolveStrategy at 1 3. svc_run.
    destruct (strategy_name x w) as [[nm|e] w1]; svc_exec;
      destruct (IH w1) as [Ht Hr];
      destruct (Svc.all (map (resolveStrategy strategy_name) l) w1)
        as [[[rs|e'] w2] t2]; unfold Svc.trace_of, Svc.result_of in *;
      cbn [fst snd app] in *; subst t2; split; try reflexivity;
      intros rs' H; inversion H; subst.
    cbn [map address]. f_equal. apply Hr. reflexivity.
Qed.

Lemma resolveV2_run fuel w b w1 sd w2 :
  resolveBasic a w = (Ok b, w1) ->
  vault_emergencyShutdown a w1 = (Ok sd, w2) ->
  (n < fuel)%nat ->
  exists w3 r w4,
    Svc.all (map (resolveStrategy strategy_name) (map q (seq 0 n))) w3
    = (r, w4, map EvStrategyName (map q (seq 0 n)))
    /\ resolveV2 resolveBasic vault_emergencyShutdown vault_withdrawalQueue
                 strategy_name NullAddress fuel a w
       = (match r with
          | Ok rs => Ok (Some (Build_VaultV2 b sd rs))
          | Err e => Err e
          end, w4,
          [EvResolveBasic a; EvEmergencyShutdown a]
            ++ map (EvWithdrawalQueue a) (seq 0 (S n))
            ++ map EvStrategyName (map q (seq 0 n)))
    /\ forall rs, r = Ok rs -> map address rs = map q (seq 0 n).
Proof.
  intros Hb Hs Hf. unfold resolveV2. svc_run.
  rewrite Hb. svc_exec. rewrite Hs. svc_exec.
  destruct (readQueue_run n fuel 0%nat [] w2 eq_refl Hf) as (w3 & E).
  rewrite E. svc_exec. cbn [app].
  replace (removelast (map q (seq 0 (S n)))) with (map q (seq 0 n))
    by (rewrite seq_S, map_app; cbn [map]; rewrite removelast_last;
        reflexivity).
  destruct (all_resolved (map q (seq 0 n)) w3) as [Ht Hr].
  destruct (Svc.all (map (resolveStrategy strategy_name) (map q (seq 0 n))) w3)
    as [[r w4] t4] eqn:A. unfold Svc.trace_of, Svc.result_of in *.
  cbn [fst snd] in *. subst t4.
  exists w3, r, w4. split; [exact A|]. split; [|exact Hr].
  destruct r; rewrite ?app_nil_r; reflexivity.
Qed.

End WithdrawalQueue.

(** X21.  [resolveV2] reads the withdrawal queue of the vault from index 0
    up to and including its first [NullAddress], and no further; the
    strategies it resolves are those before that entry, in the order of
    the queue, each under the address read from the queue.  With a queue
    whose first [NullAddress] is at index [n], the loop ends after [n + 1]
    reads: more than [n] units of fuel are never exhausted. *)
Theorem strategies_are_the_queue_before_its_first_null_address :
  forall (W Basic : Type)
         (resolveBasic : Address -> W -> Result Basic * W)
         (vault_emergencyShutdown : Address -> W -> Result bool * W)
         (vault_withdrawalQueue : Address -> nat -> W -> Result Address * W)
         (strategy_name : Address -> W -> Result string * W)
         (NullAddress a : Address) (q : nat -> Address) (n fuel : nat)
         w b w1 sd w2,
    (forall i w, fst (vault_withdrawalQueue a i w) = Ok (q i)) ->
    q n = NullAddress ->
    (forall i, (i < n)%nat -> q i <> NullAddress) ->
    resolveBasic a w = (Ok b, w1) ->
    vault_emergencyShutdown a w1 = (Ok sd, w2) ->
    (n < fuel)%nat ->
    exists w3 r w4,
      Svc.all (map (VaultResolver.resolveStrategy strategy_name)
                   (map q (seq 0 n))) w3
      = (r, w4, map VaultResolver.EvStrategyName (map q (seq 0 n)))
      /\ VaultResolver.resolveV2
           resolveBasic vault_emergencyShutdown vault_withdrawalQueue
           strategy_name NullAddress fuel a w
         = (match r with
            | Ok rs => Ok (Some (VaultResolver.Build_VaultV2 b sd rs))
            | Err e => Err e
            end, w4,
            [VaultResolver.EvResolveBasic a;
             VaultResolver.EvEmergencyShutdown a]
              ++ map (VaultResolver.EvWithdrawalQueue a) (seq 0 (S n))
              ++ map VaultResolver.EvStrategyName (map q (seq 0 n)))
      /\ forall rs, r = Ok rs ->
                    map VaultResolver.address rs = map q (seq 0 n).
Proof.
  intros W Basic resolveBasic vault_emergencyShutdown vault_withdrawalQueue
         strategy_name NullAddress a q n fuel w b w1 sd w2
         Reads Last Before Hb Hs Hf.
  exact (resolveV2_run resolveBasic vault_emergencyShutdown
           vault_withdrawalQueue strategy_name NullAddress a q n
           Reads Last Before fuel w b w1 sd w2 Hb Hs Hf).
Qed.

(** A vault with two strategies in its queue. *)
Definition toy_queue (i : nat) : Address :=
  match i with
  | O => "0x51"
  | S O => "0x52"
  | _ => Fixture.zero
  end.

Lemma strategies_are_the_queue_before_its_first_null_address_witness :
  exists w3 r w4,
    Svc.all (map (VaultResolver.resolveStrategy
                    (fun s (w : nat) => (Ok ("strategy " ++ s)%string, S w)))
                 (map toy_queue (seq 0 2))) w3
    = (r, w4, map VaultResolver.EvStrategyName (map toy_queue (seq 0 2)))
    /\ VaultResolver.resolveV2
         (fun _ (w : nat) => (Ok tt, S w))
         (fun _ (w : nat) => (Ok false, S w))
         (fun _ i (w : nat) => (Ok (toy_queue i), S w))
         (fun s (w : nat) => (Ok ("strategy " ++ s)%string, S w))
         Fixture.zero 10 Fixture.yvDai 0%nat
       = (match r with
          | Ok rs => Ok (Some (VaultResolver.Build_VaultV2 tt false rs))
          | Err e => Err e
          end, w4,
          [VaultResolver.EvResolveBasic Fixture.yvDai;
           VaultResolver.EvEmergencyShutdown Fixture.yvDai]
            ++ map (VaultResolver.EvWithdrawalQueue Fixture.yvDai) (seq 0 3)
            ++ map VaultResolver.EvStrategyName (map toy_queue (seq 0 2)))
    /\ forall rs, r = Ok rs ->
                  map VaultResolver.address rs = map toy_queue (seq 0 2).
Proof.
  apply (strategies_are_the_queue_before_its_first_null_address
           nat unit
           (fun _ (w : nat) => (Ok tt, S w))
           (fun _ (w : nat) => (Ok false, S w))
           (fun _ i (w : nat) => (Ok (toy_queue i), S w))
           (fun s (w : nat) => (Ok ("strategy " ++ s)%string, S w))
           Fixture.zero Fixture.yvDai toy_queue 2%nat 10%nat
           0%nat tt 1%nat false 2%nat).
  - intros i w. reflexivity.
  - reflexivity.
  - intros i Hi E. destruct i as [|[|i]]; [discriminate E|discriminate E|lia].
  - reflexivity.
  - reflexivity.
  - lia.
Defined.

(** * Properties of the zap-in classification *)





(** * Properties of the meta service *)

Section MetaFacts.
Context {W : Type} (fetch_json : string -> W -> Result MetaService.Json * W)
        (chainId : Z).

Lemma token_url a :
  MetaService.buildUrl chainId
    ("tokens/" ++ MetaService.CHAIN_ID_KEY ++ "/" ++ a)%string
  = ("https://meta.yearn.network/tokens/" ++ show_Z chainId ++ "/" ++ a)%string.
Proof. reflexivity. Qed.

Lemma strategies_index_url :
  MetaService.buildUrl chainId "strategies/index"
  = "https://meta.yearn.network/strategies/index".
Proof. reflexivity. Qed.

End MetaFacts.

(** X23.  [token] asks yearn-meta once, at [tokens/<chain id>/<address>].
    A failed fetch is swallowed by [fetchMetadataItem], and [token] then
    fails with a [TypeError] on the missing answer (as it does on a [null]
    answer): it never returns [undefined].  Otherwise it returns the
    [categories], [description] and [website] of the answer, under the
    address it was asked for. *)
Theorem token_metadata_fails_with_a_type_error_without_an_answer :
  forall (W : Type) (fetch_json : string -> W -> Result MetaService.Json * W)
         (chainId : Z) (a : Address) (w : W),
    let url := ("https://meta.yearn.network/tokens/" ++ show_Z chainId
                  ++ "/" ++ a)%string in
    Svc.trace_of (MetaService.token fetch_json chainId a w)
    = [MetaService.EvFetch url]
    /\ Svc.result_of (MetaService.token fetch_json chainId a w)
       = match fst (fetch_json url w) with
         | Err _ | Ok MetaService.JNull => Err MetaService.undefined_property
         | Ok (MetaService.JObject fields) =>
             Ok (MetaService.Build_TokenMetadata
                   a (MetaService.field "categories" fields)
                   (MetaService.field "description" fields)
                   (MetaService.field "website" fields))
         | Ok _ => Ok (MetaService.Build_TokenMetadata a None None None)
         end.
Proof.
  intros W fetch_json chainId a w. cbv zeta.
  unfold MetaService.token, MetaService.fetchMetadataItem.
  rewrite token_url. svc_run.
  destruct (fetch_json _ w) as [[j|e] w1]; svc_exec;
    [destruct j|]; split; reflexivity.
Qed.

Section StrategyFiles.
Context {W : Type} (fetch_json : string -> W -> Result MetaService.Json * W).

Lemma namedFiles_strings strs :
  MetaService.namedFiles (map MetaService.JString strs)
  = Ok (List.filter (fun f => negb (String.prefix "0x" f)) strs).
Proof.
  induction strs as [|f strs IH]; [reflexivity|].
  cbn [map MetaService.namedFiles List.filter]. rewrite IH.
  destruct (negb (String.prefix "0x" f)); reflexivity.
Qed.

Lemma all_fetches (url : string -> string) l : forall w,
  Svc.trace_of
    (Svc.all (map (fun f => Svc.call (MetaService.EvFetch (url f))
                                     (fetch_json (url f))) l) w)
  = map (fun f => MetaService.EvFetch (url f)) l.
Proof.
  induction l as [|f l IH]; intros w; [reflexivity|].
  cbn [map Svc.all]. unfold Svc.call at 1.
  destruct (fetch_json (url f) w) as [r w1]. specialize (IH w1).
  destruct (Svc.all _ w1) as [[rs w2] t2]. unfold Svc.trace_of in *.
  cbn [snd app] in *. rewrite IH. reflexivity.
Qed.

End StrategyFiles.

(** X24.  [strategies] reads the index at [strategies/index], which carries
    no chain id, then fetches every file the index lists whose name does
    not start with [0x], and no other, each at [strategies/<file>] and in
    the order of the index. *)
Theorem strategies_skip_the_files_named_by_address :
  forall (W : Type) (fetch_json : string -> W -> Result MetaService.Json * W)
         (chainId : Z) (w : W) fields strs w1,
    fetch_json "https://meta.yearn.network/strategies/index" w
    = (Ok (MetaService.JObject fields), w1) ->
    MetaService.field "files" fields
    = Some (MetaService.JArray (map MetaService.JString strs)) ->
    Svc.trace_of (MetaService.strategies fetch_json chainId w)
    = MetaService.EvFetch "https://meta.yearn.network/strategies/index"
      :: map (fun f => MetaService.EvFetch
                         ("https://meta.yearn.network/strategies/" ++ f)%string)
             (List.filter (fun f => negb (String.prefix "0x" f)) strs).
Proof.
  intros W fetch_json chainId w fields strs w1 Hi Hf.
  unfold MetaService.strategies. cbv zeta. rewrite strategies_index_url.
  unfold Svc.bind at 1. unfold Svc.call at 1. rewrite Hi.
  unfold Svc.bind, Svc.lift. cbn [MetaService.prop]. rewrite Hf.
  rewrite namedFiles_strings.
  pose proof (all_fetches fetch_json
                (fun f => ("https://meta.yearn.network/strategies/" ++ f)%string)
                (List.filter (fun f => negb (String.prefix "0x" f)) strs) w1)
    as T.
  change (MetaService.MetaURL ++ "/strategies/")%string
    with "https://meta.yearn.network/strategies/".
  destruct (Svc.all _ w1) as [[rs w2] t2]. unfold Svc.trace_of in *.
  cbn [snd app] in *. rewrite T. reflexivity.
Qed.

(** An index of three files, one of them named by an address. *)
Definition toy_meta (url : string) (w : nat)
  : Result MetaService.Json * nat :=
  (if String.eqb url "https://meta.yearn.network/strategies/index"
   then Ok (MetaService.JObject
              [("files",
                MetaService.JArray
                  (map MetaService.JString
                       ["curve.json"; "0xabc.json"; "aave.json"]));
               ("directories", MetaService.JArray [])])
   else Ok (MetaService.JObject [("name", MetaService.JString url)]),
   S w).

Lemma strategies_skip_the_files_named_by_address_witness :
  Svc.trace_of (MetaService.strategies toy_meta 1 0%nat)
  = [MetaService.EvFetch "https://meta.yearn.network/strategies/index";
     MetaService.EvFetch "https://meta.yearn.network/strategies/curve.json";
     MetaService.EvFetch "https://meta.yearn.network/strategies/aave.json"].
Proof.
  exact (strategies_skip_the_files_named_by_address
           nat toy_meta 1 0%nat
           [("files",
             MetaService.JArray
               (map MetaService.JString
                    ["curve.json"; "0xabc.json"; "aave.json"]));
            ("directories", MetaService.JArray [])]
           ["curve.json"; "0xabc.json"; "aave.json"] 1%nat
           eq_refl eq_refl).
Defined.
